(** * Sandboxed algorithm-execution platform: security scan, sandbox executor,
      complexity analytics and test harness.

    Shallow embedding of
      backend/security/security_manager.py   (SecurityManager)
      backend/analytics/performance_analytics.py (ComplexityAnalyzer,
                                               PerformanceAnalytics)
      backend/execution/docker_executor.py   (DockerExecutor)
      backend/testing/test_framework.py      (TestFramework)
      backend/websocket/enhanced_server.py   (the data of the benchmarks)

    Conventions.
    - A Python [str] is a Rocq [string]; each character stands for the code
      point of its byte value (the range 0..255 of Python's str).
    - In the analytics (performance_analytics.py) and in the resource
      limits of the security manager a Python [float] and a NumPy
      [float64] are Rocq's primitive [float]: IEEE 754 binary64 with
      the rounding, the infinities and the NaN of the source. In the
      executor and the test harness, where floats are stored and compared
      but the claims do not depend on their arithmetic, a float is a
      rational ([Q]).
    - Where the source can meet a raised exception the model uses [option]
      or an outcome type.
    - What the source obtains from Docker, the clock, json, numpy or scipy is
      an input of the model (a field of a world record or a Section
      variable). *)


From Stdlib Require Import String Ascii List Bool Arith ZArith QArith Lia Lqa
  Floats.
Set Warnings "-inexact-float".
Import ListNotations.
Close Scope Q_scope.
Open Scope string_scope.

(** ** Python string operations used by the sources *)
Module PyStr.

(** [sub in s] for two strings. *)
Fixpoint contains (sub s : string) : bool :=
  String.prefix sub s ||
  match s with
  | EmptyString => false
  | String _ s' => contains sub s'
  end.

(** [s.startswith(p)] *)
Definition startswith (s p : string) : bool := String.prefix p s.

(** [str.isspace] on one character, for code points below 256. *)
Definition isspace (c : ascii) : bool :=
  let n := nat_of_ascii c in
  ((9 <=? n)%nat && (n <=? 13)%nat) || ((28 <=? n)%nat && (n <=? 32)%nat)
  || (n =? 133)%nat || (n =? 160)%nat.

Fixpoint lstrip (s : string) : string :=
  match s with
  | EmptyString => EmptyString
  | String a s' => if isspace a then lstrip s' else s
  end.

Fixpoint rstrip (s : string) : string :=
  match s with
  | EmptyString => EmptyString
  | String a s' =>
      match rstrip s' with
      | EmptyString => if isspace a then EmptyString else String a EmptyString
      | r => String a r
      end
  end.

(** [s.strip()] *)
Definition strip (s : string) : string := rstrip (lstrip s).

(** [s.split(c)] for a one-character separator: never the empty list. *)
Fixpoint split_on (c : ascii) (s : string) : list string :=
  match s with
  | EmptyString => [EmptyString]
  | String a s' =>
      if Ascii.eqb a c then EmptyString :: split_on c s'
      else match split_on c s' with
           | h :: t => String a h :: t
           | [] => [String a EmptyString]
           end
  end.

(** [s.split()]: the maximal runs of non-whitespace characters. *)
Fixpoint split_ws (s : string) : list string :=
  match s with
  | EmptyString => []
  | String a s' =>
      if isspace a then split_ws s'
      else match s' with
           | EmptyString => [String a EmptyString]
           | String b _ =>
               if isspace b then String a EmptyString :: split_ws s'
               else match split_ws s' with
                    | h :: t => String a h :: t
                    | [] => [String a EmptyString]
                    end
           end
  end.

(** [s[n:]] for [n >= 0]. *)
Fixpoint drop (n : nat) (s : string) : string :=
  match n, s with
  | O, _ => s
  | S _, EmptyString => EmptyString
  | S n', String _ s' => drop n' s'
  end.

(** the line feed, the separator of [code.split('\n')]. *)
Definition LF : ascii := ascii_of_nat 10.

(** [x in l] for a list of strings. *)
Definition mem (x : string) (l : list string) : bool :=
  existsb (String.eqb x) l.

End PyStr.

(** ** security_manager.py *)
Module SecurityManager.
Import PyStr.

(** The three values the source writes into ['risk_level']. *)
Inductive RiskLevel := LOW | MEDIUM | HIGH.

Definition risk_eqb (a b : RiskLevel) : bool :=
  match a, b with
  | LOW, LOW | MEDIUM, MEDIUM | HIGH, HIGH => true
  | _, _ => false
  end.

(** Severity order LOW < MEDIUM < HIGH. *)
Definition risk_rank (r : RiskLevel) : nat :=
  match r with LOW => 0 | MEDIUM => 1 | HIGH => 2 end%nat.

Definition risk_le (a b : RiskLevel) : Prop :=
  (risk_rank a <= risk_rank b)%nat.

(** The fields of [SecurityConfig] read by [validate_code_security], after
    [SecurityManager.__init__] has filled in the defaults. *)
Record SecurityConfig := {
  allowed_imports : list string;
  blocked_functions : list string;
  file_system_access : bool
}.

Definition default_config : SecurityConfig := {|
  allowed_imports :=
    ["math"; "json"; "time"; "random"; "itertools"; "functools";
     "collections"; "heapq"; "bisect"; "typing"; "dataclasses"];
  blocked_functions :=
    ["eval"; "exec"; "compile"; "__import__"; "open"; "file";
     "input"; "raw_input"; "exit"; "quit"; "reload"];
  file_system_access := false
|}.

(** The [security_report] dictionary. *)
Record SecurityReport := {
  safe : bool;
  warnings : list string;
  blocked_items : list string;
  risk_level : RiskLevel
}.

Definition initial_report : SecurityReport :=
  {| safe := true; warnings := []; blocked_items := []; risk_level := LOW |}.

Definition suspicious_patterns : list string :=
  ["subprocess"; "os.system"; "os.popen"; "os.exec";
   "import os"; "import sys"; "import subprocess";
   "__builtins__"; "__globals__"; "__locals__";
   "globals()"; "locals()"; "vars()";
   "setattr"; "getattr"; "hasattr"; "delattr"].

Definition file_operations : list string :=
  ["open("; "file("; "with open"; "read("; "write("].

(** [_extract_module_name]: an [IndexError] of [split()[0]] is caught by the
    source's [try] and ends in [return None]. *)
Definition _extract_module_name (import_line : string) : option string :=
  if startswith import_line "import " then
    match split_ws (drop 7 import_line) with
    | tok :: _ => Some (hd EmptyString (split_on "." tok))
    | [] => None
    end
  else if startswith import_line "from " then
    match split_ws (drop 5 import_line) with
    | tok :: _ => Some (hd EmptyString (split_on "." tok))
    | [] => None
    end
  else None.

(** The list comprehension [import_lines]. *)
Definition import_lines (code : string) : list string :=
  map strip
    (filter (fun line => startswith (strip line) "import"
                         || startswith (strip line) "from")
            (split_on LF code)).

(** Body of the loop over [blocked_functions]. *)
Definition check_blocked_function (code : string) (r : SecurityReport)
    (func : string) : SecurityReport :=
  if contains func code then
    {| safe := false;
       warnings := warnings r;
       blocked_items := blocked_items r ++ ["Blocked function: " ++ func];
       risk_level := HIGH |}
  else r.

(** The escalation [if risk_level == 'LOW': risk_level = 'MEDIUM']. *)
Definition escalate_to_medium (l : RiskLevel) : RiskLevel :=
  if risk_eqb l LOW then MEDIUM else l.

(** Body of the loop over [suspicious_patterns]. *)
Definition check_suspicious_pattern (code : string) (r : SecurityReport)
    (pattern : string) : SecurityReport :=
  if contains pattern code then
    {| safe := safe r;
       warnings := warnings r ++ ["Suspicious pattern: " ++ pattern];
       blocked_items := blocked_items r;
       risk_level := escalate_to_medium (risk_level r) |}
  else r.

(** The test [module_name and module_name not in allowed_imports]. *)
Definition unauthorized (cfg : SecurityConfig) (line : string)
  : option string :=
  match _extract_module_name line with
  | Some m =>
      if negb (String.eqb m EmptyString) && negb (mem m (allowed_imports cfg))
      then Some m else None
  | None => None
  end.

(** Body of the loop over [import_lines]. *)
Definition check_import_line (cfg : SecurityConfig) (r : SecurityReport)
    (line : string) : SecurityReport :=
  match unauthorized cfg line with
  | Some m =>
      {| safe := safe r;
         warnings := warnings r ++ ["Unauthorized import: " ++ m];
         blocked_items := blocked_items r;
         risk_level := escalate_to_medium (risk_level r) |}
  | None => r
  end.

(** Body of the loop over [file_operations]. *)
Definition check_file_operation (cfg : SecurityConfig) (code : string)
    (r : SecurityReport) (op : string) : SecurityReport :=
  if contains op code then
    if negb (file_system_access cfg) then
      {| safe := false;
         warnings := warnings r;
         blocked_items := blocked_items r ++ ["File operation: " ++ op];
         risk_level := HIGH |}
    else r
  else r.

(** [validate_code_security]: the four loops in the order of the source. *)
Definition validate_code_security (cfg : SecurityConfig) (code : string)
  : SecurityReport :=
  let r1 := fold_left (check_blocked_function code)
                      (blocked_functions cfg) initial_report in
  let r2 := fold_left (check_suspicious_pattern code) suspicious_patterns r1 in
  let r3 := fold_left (check_import_line cfg) (import_lines code) r2 in
  fold_left (check_file_operation cfg code) file_operations r3.

(** One check of the scan: one iteration of one of the four loops. *)
Definition check := SecurityReport -> SecurityReport.

(** The checks of one scan, in the order the source performs them. *)
Definition scan_checks (cfg : SecurityConfig) (code : string) : list check :=
  map (fun f r => check_blocked_function code r f) (blocked_functions cfg)
  ++ map (fun p r => check_suspicious_pattern code r p) suspicious_patterns
  ++ map (fun l r => check_import_line cfg r l) (import_lines code)
  ++ map (fun o r => check_file_operation cfg code r o) file_operations.

(** The report after each check, starting with the initial report. *)
Fixpoint run_checks (r : SecurityReport) (cs : list check)
  : list SecurityReport :=
  match cs with
  | [] => [r]
  | c :: cs' => r :: run_checks (c r) cs'
  end.

Definition scan_trace (cfg : SecurityConfig) (code : string)
  : list SecurityReport :=
  run_checks initial_report (scan_checks cfg code).

(** ['\n'.join(lines)] *)
Fixpoint join_lines (lines : list string) : string :=
  match lines with
  | [] => EmptyString
  | [l] => l
  | l :: ls => l ++ String LF (join_lines ls)
  end.

(** *** Notions used by the properties *)

(** Running a list of checks one after the other. *)
Definition apply_checks (cs : list check) (r : SecurityReport)
  : SecurityReport :=
  fold_left (fun acc (c : check) => c acc) cs r.

(** A finding recorded in a report, with the severity the scan gives it:
    a warning raises the level to MEDIUM, a blocked item to HIGH. *)
Inductive finding := Warning (s : string) | Blocked (s : string).

Definition severity (f : finding) : RiskLevel :=
  match f with Warning _ => MEDIUM | Blocked _ => HIGH end.

Definition findings (r : SecurityReport) : list finding :=
  (map Warning (warnings r) ++ map Blocked (blocked_items r))%list.

(** What every report of a scan satisfies. *)
Record report_ok (r : SecurityReport) : Prop := {
  ok_safe_blocked : safe r = false <-> blocked_items r <> [];
  ok_unsafe_high : safe r = false -> risk_level r = HIGH;
  ok_warned : warnings r <> [] -> risk_le MEDIUM (risk_level r)
}.

(** What every single check does to the report it is given. *)
Record check_ok (c : check) : Prop := {
  step_risk : forall r, risk_le (risk_level r) (risk_level (c r));
  step_ok : forall r, report_ok r -> report_ok (c r);
  step_blocked : forall r, incl (blocked_items r) (blocked_items (c r))
}.

(** *** Sample inputs *)

(** A function without any import, whose docstring has a line that begins
    with the word "from". *)
Definition docstring_sample : string :=
  join_lines
    [ "def head(xs):";
      "    '''Return the first element";
      "    from the list xs.";
      "    '''";
      "    return xs[0]" ].

(** Two allowlisted modules imported by one statement. *)
Definition import_list_sample : string := "import math, json".

End SecurityManager.

(** ** performance_analytics.py *)
Module PerformanceAnalytics.

(** [a > b] on the rationals of the executor and of the test harness. *)
Definition Qgtb (a b : Q) : bool := negb (Qle_bool a b).

(** [a > b] and [a < b] on floats: false when one of them is NaN. *)
Definition float_gt (a b : float) : bool := PrimFloat.ltb b a.
Definition float_lt (a b : float) : bool := PrimFloat.ltb a b.

(** [float(n)] for the length of a list. *)
Definition float_of_nat (n : nat) : float :=
  PrimFloat.of_uint63 (Uint63.of_Z (Z.of_nat n)).

(** Python's [max(a, b)] and [min(a, b)]: [b] is taken when [b > a], for
    [min] when [b < a]; the first argument wins a tie and a NaN in second
    place is never taken. *)
Definition py_max (a b : float) : float := if float_gt b a then b else a.
Definition py_min (a b : float) : float := if float_lt b a then b else a.

(** A slice bound of a list of length [len]: a negative index counts from
    the end, and the result is clipped to [0 .. len]. *)
Definition slice_bound (len i : Z) : Z :=
  Z.max 0 (Z.min len (if (i <? 0)%Z then (i + len)%Z else i)).

(** [l[lo:hi]]; [None] is an omitted bound. *)
Definition py_slice {A : Type} (lo hi : option Z) (l : list A) : list A :=
  let len := Z.of_nat (length l) in
  let a := match lo with Some i => slice_bound len i | None => 0%Z end in
  let b := match hi with Some i => slice_bound len i | None => len end in
  firstn (Z.to_nat (b - a)) (skipn (Z.to_nat a) l).

(** [np.mean] of fewer than eight floats (the detector averages at most
    three): NumPy adds them from left to right, each addition rounded, and
    divides the sum by their number; the mean of no value is 0/0, NaN. For
    eight values and more NumPy adds in blocks, which this definition does
    not follow; the sign of a zero sum is not followed either. *)
Definition np_mean (l : list float) : float :=
  (fold_left PrimFloat.add l 0 / float_of_nat (length l))%float.

Record PerformancePoint := {
  timestamp : float;
  input_size : Z;
  execution_time : float;
  memory_usage : float;
  cpu_usage : float;
  algorithm_name : string;
  session_id : string
}.

(** [PerformanceAnalytics._detect_performance_regression] *)
Definition _detect_performance_regression (points : list PerformancePoint)
  : bool :=
  if (length points <? 5)%nat then false
  else
    let recent := py_slice (Some (-3)%Z) None points in
    let older :=
      if (6 <=? length points)%nat
      then py_slice (Some (-6)%Z) (Some (-3)%Z) points
      else py_slice None (Some (-3)%Z) points in
    let recent_avg := np_mean (map execution_time recent) in
    let older_avg := np_mean (map execution_time older) in
    float_gt recent_avg (older_avg * 1.2)%float.

(** *** The regression rule in the words of the specification *)

(** The last [n] elements of a list (all of it when it is shorter). *)
Definition last_n {A : Type} (n : nat) (l : list A) : list A :=
  skipn (length l - n) l.





(** The number a float stands for; NaN and the infinities stand for none. *)
Definition float_value (x : float) : option Q :=
  match Prim2SF x with
  | S754_zero _ => Some 0%Q
  | S754_finite s m e =>
      Some ((if s then (-1)%Q else 1%Q) * inject_Z (Zpos m)
            * Qpower 2 e)%Q
  | S754_infinity _ | S754_nan => None
  end.




End PerformanceAnalytics.

Module ComplexityAnalyzer.
Import PerformanceAnalytics.

(** The keys of [complexity_functions]:
    'O(1)', 'O(log n)', 'O(n)', 'O(n log n)', 'O(n^2)', 'O(n^3)', 'O(2^n)'. *)
Inductive Complexity :=
  O_1 | O_log_n | O_n | O_n_log_n | O_n2 | O_n3 | O_2n.

Definition is_O_2n (c : Complexity) : bool :=
  match c with O_2n => true | _ => false end.

(** The dataclass [ComplexityFit]; the dictionary [confidence_interval] is a
    list of key/value pairs. *)
Record ComplexityFit := {
  best_fit : Complexity;
  r_squared : float;
  coefficients : list float;
  residuals : list float;
  confidence_interval : list (string * float)
}.

(** What the source reads of the result of [stats.linregress]; [r_value]
    is NaN when scipy cannot tell a correlation (constant values). *)
Record LinregressResult := {
  slope : float;
  intercept : float;
  r_value : float
}.

(** An int64 of a numpy array: arithmetic wraps around. The input sizes
    themselves are taken to fit in an int64, as [np.array] needs for an
    integer array. *)
Definition wrap64 (z : Z) : Z :=
  ((z + 2 ^ 63) mod 2 ^ 64 - 2 ^ 63)%Z.

(** The float64 of an int64, rounded to nearest. *)
Definition float_of_int64 (z : Z) : float :=
  if (z =? - 2 ^ 63)%Z then (-0x1p63)%float
  else if (z <? 0)%Z then (- PrimFloat.of_uint63 (Uint63.of_Z (- z)))%float
  else PrimFloat.of_uint63 (Uint63.of_Z z).

(** The values of a candidate function on the input sizes: a NumPy array of
    int64 or of float64. *)
Inductive NpArray :=
| IntArray (values : list Z)
| FloatArray (values : list float).

(** The array as the floats it is used as in float arithmetic. *)
Definition array_floats (a : NpArray) : list float :=
  match a with
  | IntArray values => map float_of_int64 values
  | FloatArray values => values
  end.

(** [np.any(np.isnan(a)) or np.any(np.isinf(a))] *)
Definition has_nan_or_inf (a : NpArray) : bool :=
  match a with
  | IntArray _ => false
  | FloatArray values =>
      existsb PrimFloat.is_nan values || existsb PrimFloat.is_infinity values
  end.

(** [max(input_sizes)] of a non-empty list. *)
Definition list_max (l : list Z) : Z :=
  match l with
  | [] => 0%Z
  | x :: l' => fold_left Z.max l' x
  end.

(** The running best of the loop:
    [best_fit], [best_r_squared], [best_coeffs], [best_residuals]. *)
Record Best := {
  b_fit : option Complexity;
  b_r_squared : float;
  b_coeffs : list float;
  b_residuals : list float
}.

Definition initial_best : Best :=
  {| b_fit := None; b_r_squared := (-1)%float; b_coeffs := [];
     b_residuals := [] |}.

Section Fit.

(** The numeric libraries, as inputs of the model.
    [np_log2 n] is [numpy.log2] on an int64 (an infinity at 0, NaN below);
    [np_sqrt n] is [numpy.sqrt] on a length;
    [np_square x] is [x ** 2] on a NumPy float64;
    [linregress x y] is [None] where scipy raises. *)
Variable np_log2 : Z -> float.
Variable np_sqrt : nat -> float.
Variable np_square : float -> float.
Variable linregress : NpArray -> list float -> option LinregressResult.

(** The table [complexity_functions] in its insertion order; a function
    returns [None] when it raises (an integer power with a negative
    exponent). *)
Definition complexity_functions
  : list (Complexity * (list Z -> option NpArray)) :=
  [ (O_1, fun n => Some (IntArray (map (fun _ => 1%Z) n)));
    (O_log_n, fun n => Some (FloatArray (map np_log2 n)));
    (O_n, fun n => Some (IntArray n));
    (O_n_log_n,
     fun n => Some (FloatArray
                      (map (fun k => (float_of_int64 k * np_log2 k)%float)
                           n)));
    (O_n2, fun n => Some (IntArray (map (fun k => wrap64 (k ^ 2)) n)));
    (O_n3, fun n => Some (IntArray (map (fun k => wrap64 (k ^ 3)) n)));
    (O_2n,
     fun n => if forallb (fun k => (0 <=? k)%Z) n
              then Some (IntArray (map (fun k => wrap64 (2 ^ k)) n))
              else None) ].

(** The call of [stats.linregress]: it raises when the two arrays differ in
    length. *)
Definition call_linregress (x : NpArray) (y : list float)
  : option LinregressResult :=
  if (length (array_floats x) =? length y)%nat then linregress x y else None.

(** One candidate up to the regression: [None] when the loop skips it
    ([continue], or an exception caught by the handler). *)
Definition fit_candidate (input_sizes : list Z) (execution_times : list float)
    (cand : Complexity * (list Z -> option NpArray))
  : option (LinregressResult * NpArray) :=
  if is_O_2n (fst cand) && (20 <? list_max input_sizes)%Z then None
  else match snd cand input_sizes with
       | None => None
       | Some complexity_values =>
           if has_nan_or_inf complexity_values then None
           else
             match call_linregress complexity_values execution_times with
             | None => None
             | Some lr => Some (lr, complexity_values)
             end
       end.

(** [execution_times - (slope * complexity_values + intercept)] *)
Fixpoint residuals_of (lr : LinregressResult)
    (execution_times complexity_values : list float) : list float :=
  match execution_times, complexity_values with
  | t :: ts, v :: vs =>
      (t - (slope lr * v + intercept lr))%float :: residuals_of lr ts vs
  | _, _ => []
  end.

(** The body of the loop over [complexity_functions]. *)
Definition fit_step (input_sizes : list Z) (execution_times : list float)
    (best : Best) (cand : Complexity * (list Z -> option NpArray)) : Best :=
  match fit_candidate input_sizes execution_times cand with
  | None => best
  | Some (lr, complexity_values) =>
      let r_squared := np_square (r_value lr) in
      if float_gt r_squared (b_r_squared best) then
        {| b_fit := Some (fst cand);
           b_r_squared := r_squared;
           b_coeffs := [slope lr; intercept lr];
           b_residuals :=
             residuals_of lr execution_times
                          (array_floats complexity_values) |}
      else best
  end.

(** [ComplexityAnalyzer._calculate_confidence_interval] *)
Definition _calculate_confidence_interval (r_squared : float) (n : nat)
  : list (string * float) :=
  if (n <? 3)%nat then [("lower", 0%float); ("upper", 1%float)]
  else
    let margin := ((1 - r_squared) / np_sqrt n)%float in
    [("lower", py_max 0 (r_squared - margin)%float);
     ("upper", py_min 1 (r_squared + margin)%float)].

(** [ComplexityAnalyzer.analyze_time_complexity] *)
Definition analyze_time_complexity (input_sizes : list Z)
    (execution_times : list float) : ComplexityFit :=
  if (length input_sizes <? 3)%nat then
    {| best_fit := O_n; r_squared := 0; coefficients := [];
       residuals := []; confidence_interval := [] |}
  else
    let best := fold_left (fit_step input_sizes execution_times)
                          complexity_functions initial_best in
    {| best_fit := match b_fit best with Some c => c | None => O_n end;
       r_squared := b_r_squared best;
       coefficients := b_coeffs best;
       residuals := b_residuals best;
       confidence_interval :=
         _calculate_confidence_interval (b_r_squared best)
                                        (length input_sizes) |}.

(** The candidates the loop actually evaluates, in the order of the loop,
    each with its R^2. *)
Definition evaluated_among
    (cands : list (Complexity * (list Z -> option NpArray)))
    (input_sizes : list Z) (execution_times : list float)
  : list (Complexity * float) :=
  flat_map
    (fun cand =>
       match fit_candidate input_sizes execution_times cand with
       | Some (lr, _) => [(fst cand, np_square (r_value lr))]
       | None => []
       end)
    cands.

Definition evaluated (input_sizes : list Z) (execution_times : list float)
  : list (Complexity * float) :=
  evaluated_among complexity_functions input_sizes execution_times.

End Fit.

(** An R^2 that can be selected: it is greater than the initial -1, as
    every square of a number is and NaN is not. *)
Definition selectable (r : float) : bool := float_gt r (-1)%float.

(** What the loop maintains: either no selectable candidate has been
    evaluated and the running best is the initial one, or the running best
    is the first of the evaluated candidates, selectable, whose R^2 none of
    them exceeds, the selectable ones before it being strictly below. *)
Definition loop_inv (best : Best) (ev : list (Complexity * float)) : Prop :=
  (best = initial_best
   /\ forall c r, In (c, r) ev -> selectable r = false)
  \/ (exists pre post c,
         ev = (pre ++ (c, b_r_squared best) :: post)%list
         /\ b_fit best = Some c
         /\ selectable (b_r_squared best) = true
         /\ (forall c' r, In (c', r) pre -> selectable r = true ->
                          float_lt r (b_r_squared best) = true)
         /\ (forall c' r, In (c', r) post ->
                          float_gt r (b_r_squared best) = false)).

(** [s] is [l] with some elements left out, in the same order. *)
Inductive subsequence {A : Type} : list A -> list A -> Prop :=
| sub_nil : subsequence [] []
| sub_skip (x : A) (s l : list A) : subsequence s l -> subsequence s (x :: l)
| sub_take (x : A) (s l : list A) :
    subsequence s l -> subsequence (x :: s) (x :: l).

(** The enumeration of the candidates from least to most complex. *)
Definition enumeration : list Complexity :=
  [O_1; O_log_n; O_n; O_n_log_n; O_n2; O_n3; O_2n].

(** *** Executable stand-ins for numpy and scipy, to run the model *)

(** [numpy.log2] on integers, exact on the powers of two and rounded down
    to an integer elsewhere; minus infinity at 0 and NaN below. *)
Definition log2_floor (n : Z) : float :=
  if (0 <? n)%Z then float_of_int64 (Z.log2 n)
  else if (n =? 0)%Z then PrimFloat.neg_infinity
  else PrimFloat.nan.

(** [numpy.sqrt] of a length. *)
Definition sqrt_floor (n : nat) : float := PrimFloat.sqrt (float_of_nat n).

(** [x ** 2] as the rounded product. *)
Definition square (x : float) : float := (x * x)%float.

Definition float_sum (l : list float) : float := fold_left PrimFloat.add l 0%float.

(** Least-squares regression after [scipy.stats.linregress]: an error for
    arrays of different length, for empty arrays and when all [x] are
    identical; the correlation is NaN when [y] is constant, and is clipped
    to [-1, 1]. *)
Definition linregress_model (xs : NpArray) (y : list float)
  : option LinregressResult :=
  let x := array_floats xs in
  match x with
  | [] => None
  | x0 :: _ =>
      if negb (length x =? length y)%nat then None
      else if forallb (fun v => PrimFloat.eqb v x0) x then None
      else
        let n := float_of_nat (length x) in
        let xmean := (float_sum x / n)%float in
        let ymean := (float_sum y / n)%float in
        let ssxm :=
          (float_sum (map (fun v => (v - xmean) * (v - xmean)) x) / n)%float in
        let ssym :=
          (float_sum (map (fun v => (v - ymean) * (v - ymean)) y) / n)%float in
        let ssxym :=
          (float_sum (map (fun p => (fst p - xmean) * (snd p - ymean))
                          (combine x y)) / n)%float in
        let r := (ssxym / PrimFloat.sqrt (ssxm * ssym))%float in
        let r := if float_gt r 1 then 1%float
                 else if float_lt r (-1) then (-1)%float else r in
        let sl := (ssxym / ssxm)%float in
        Some {| slope := sl;
                intercept := (ymean - sl * xmean)%float;
                r_value := r |}
  end.

End ComplexityAnalyzer.

(** ** docker_executor.py *)
Module DockerExecutor.
Import PyStr PerformanceAnalytics.

(** A value of type [Any] (test data, the algorithm's result), kept as its
    JSON text. *)
Definition Any := string.

(** An opaque dictionary of counters (the [networks] and [blkio_stats]
    entries of the Docker statistics). *)
Definition Counters := list (string * Z).

Record ResourceMetrics := {
  cpu_percent : Q;
  memory_usage_mb : Q;
  memory_limit_mb : Q;
  metrics_execution_time : Q;
  peak_memory_mb : Q;
  network_io : Counters;
  disk_io : Counters
}.

(** The dictionary returned by [_analyze_complexity]. *)
Record ComplexityAnalysis := {
  estimated_time_complexity : string;
  estimated_space_complexity : string;
  confidence : Q;
  analysis_method : string;
  analysis_execution_time : Q;
  memory_usage_bytes : Z
}.

(** [ExecutionResult]; [complexity_analysis] is [None] for the empty
    dictionary. *)
Record ExecutionResult := {
  success : bool;
  result : option Any;
  error : option string;
  execution_time : Q;
  resource_metrics : ResourceMetrics;
  complexity_analysis : option ComplexityAnalysis;
  stdout : string;
  stderr : string;
  exit_code : Z
}.

(** *** What the environment answers *)

(** A raised exception: its text [str(e)], and for a
    [docker.errors.ContainerError] its [exit_status]. *)
Inductive Exception :=
| ContainerError (msg : string) (exit_status : Z)
| OtherException (msg : string).

Definition str (e : Exception) : string :=
  match e with ContainerError m _ => m | OtherException m => m end.

(** The result of [container.stats(stream=False)]. *)
Record Stats := {
  cpu_total_usage : Z;
  precpu_total_usage : Z;
  system_cpu_usage : Z;
  presystem_cpu_usage : Z;
  memory_stats_usage : Z;
  memory_stats_limit : Z;
  networks : Counters;
  blkio_stats : Counters
}.

(** A created container, described by what its methods will answer:
    [wait] returns the dictionary with ['StatusCode'] or raises; [logs]
    gives the decoded output; [stats] gives the statistics or makes
    [_collect_resource_metrics] fail (a raised call or a missing key). *)
Record Container := {
  container_name : string;
  wait_answer : Exception + Z;
  logs_stdout : string;
  logs_stderr : string;
  stats_answer : option Stats
}.

(** The last line of the output decoded by [json.loads], for the payloads
    the harness scripts print: a JSON object whose entries have the types
    the scripts give them ([None] is an absent key, and for ['error'] also
    [null]), or some other JSON value. *)
Record PayloadObject := {
  p_success : option bool;
  p_result : option (option Any);
  p_error : option string;
  p_execution_time : option Q;
  p_memory_peak : option Z
}.

Inductive Payload :=
| JsonObject (o : PayloadObject)
| JsonOther (attribute_error : string).

(** The environment of one call of [execute_algorithm]. *)
Record World := {
  (** [tempfile.mkdtemp()]: [Some e] when it raises *)
  mkdtemp_answer : option Exception;
  (** the writing of the two scripts: [Some e] when it raises *)
  write_answer : option Exception;
  (** the successive readings of [time.perf_counter()] *)
  perf_counter_reading : nat -> Q;
  (** the successive answers of [docker_client.containers.run] *)
  containers_run_answer : nat -> Exception + Container;
  (** [json.loads]: [None] for a [JSONDecodeError] *)
  json_loads : string -> option Payload
}.

(** What the executor did to its environment, in order. *)
Inductive Event :=
| EvPrepare
| EvContainersRun
| EvWait
| EvLogs
| EvStats
| EvStopRemove
| EvRmtree.

Definition event_eqb (a b : Event) : bool :=
  match a, b with
  | EvPrepare, EvPrepare | EvContainersRun, EvContainersRun
  | EvWait, EvWait | EvLogs, EvLogs | EvStats, EvStats
  | EvStopRemove, EvStopRemove | EvRmtree, EvRmtree => true
  | _, _ => false
  end.

(** The state threaded through a call: the executor's [active_containers],
    the local variables [container] and [temp_dir] read by the [finally]
    block, how many clock readings and [containers.run] calls were made, and
    the events so far. *)
Record State := {
  active_containers : list (string * Container);
  local_container : option Container;
  local_temp_dir : bool;
  clock_reads : nat;
  run_calls : nat;
  trace : list Event
}.

Definition initial_state : State :=
  {| active_containers := []; local_container := None;
     local_temp_dir := false; clock_reads := 0; run_calls := 0;
     trace := [] |}.

(** *** A state and exception monad for the method bodies *)
Inductive outcome (A : Type) :=
| Returns (a : A)
| Raises (e : Exception).
Arguments Returns {A} a.
Arguments Raises {A} e.

Definition M (A : Type) : Type := State -> outcome A * State.

Definition ret {A : Type} (a : A) : M A := fun s => (Returns a, s).

Definition raise {A : Type} (e : Exception) : M A := fun s => (Raises e, s).

Definition bind {A B : Type} (m : M A) (k : A -> M B) : M B :=
  fun s =>
    match m s with
    | (Returns a, s') => k a s'
    | (Raises e, s') => (Raises e, s')
    end.

(** [try: m  except Exception as e: handler e] *)
Definition try_except {A : Type} (m : M A) (handler : Exception -> M A)
  : M A :=
  fun s =>
    match m s with
    | (Returns a, s') => (Returns a, s')
    | (Raises e, s') => handler e s'
    end.

(** [try: m  finally: fin], for a [fin] that does not raise. *)
Definition try_finally {A : Type} (m : M A) (fin : State -> State) : M A :=
  fun s => let (r, s') := m s in (r, fin s').

Notation "x <- m ;; k" := (bind m (fun x => k))
  (at level 61, m at next level, right associativity).
Notation "m ;;; k" := (bind m (fun _ => k))
  (at level 61, right associativity).

Definition log (ev : Event) : M unit :=
  fun s =>
    (Returns tt,
     {| active_containers := active_containers s;
        local_container := local_container s;
        local_temp_dir := local_temp_dir s;
        clock_reads := clock_reads s;
        run_calls := run_calls s;
        trace := trace s ++ [ev] |}).

(** [time.perf_counter()] *)
Definition perf_counter (w : World) : M Q :=
  fun s =>
    (Returns (perf_counter_reading w (clock_reads s)),
     {| active_containers := active_containers s;
        local_container := local_container s;
        local_temp_dir := local_temp_dir s;
        clock_reads := S (clock_reads s);
        run_calls := run_calls s;
        trace := trace s |}).

(** [temp_dir = tempfile.mkdtemp()] and the two [open ... write] blocks. *)
Definition prepare (w : World) : M unit :=
  log EvPrepare ;;;
  match mkdtemp_answer w with
  | Some e => raise e
  | None =>
      fun s =>
        let s' := {| active_containers := active_containers s;
                     local_container := local_container s;
                     local_temp_dir := true;
                     clock_reads := clock_reads s;
                     run_calls := run_calls s;
                     trace := trace s |} in
        match write_answer w with
        | Some e => (Raises e, s')
        | None => (Returns tt, s')
        end
  end.

(** [DockerExecutor._create_container]: one call of [containers.run]. *)
Definition _create_container (w : World) : M Container :=
  log EvContainersRun ;;;
  fun s =>
    let s' := {| active_containers := active_containers s;
                 local_container := local_container s;
                 local_temp_dir := local_temp_dir s;
                 clock_reads := clock_reads s;
                 run_calls := S (run_calls s);
                 trace := trace s |} in
    match containers_run_answer w (run_calls s) with
    | inl e => (Raises e, s')
    | inr c => (Returns c, s')
    end.

(** [d[k] = v] on a dictionary kept as a list of entries. *)
Fixpoint dict_set {V : Type} (k : string) (v : V) (d : list (string * V))
  : list (string * V) :=
  match d with
  | [] => [(k, v)]
  | (k', v') :: d' =>
      if String.eqb k k' then (k, v) :: d' else (k', v') :: dict_set k v d'
  end.

(** [del d[k]] guarded by [k in d]. *)
Definition dict_del {V : Type} (k : string) (d : list (string * V))
  : list (string * V) :=
  filter (fun kv => negb (String.eqb k (fst kv))) d.

(** [container = ...; self.active_containers[session_id] = container] *)
Definition register (session_id : string) (c : Container) : M unit :=
  fun s =>
    (Returns tt,
     {| active_containers := dict_set session_id c (active_containers s);
        local_container := Some c;
        local_temp_dir := local_temp_dir s;
        clock_reads := clock_reads s;
        run_calls := run_calls s;
        trace := trace s |}).

(** [DockerExecutor._get_empty_metrics] *)
Definition _get_empty_metrics : ResourceMetrics :=
  {| cpu_percent := 0; memory_usage_mb := 0; memory_limit_mb := 128;
     metrics_execution_time := 0; peak_memory_mb := 0;
     network_io := []; disk_io := [] |}.

(** The [ResourceMetrics] built from the statistics of a container and the
    time elapsed since [start_time]. *)
Definition metrics_of_stats (stats : Stats) (elapsed : Q) : ResourceMetrics :=
  let cpu_delta := (cpu_total_usage stats - precpu_total_usage stats)%Z in
  let system_delta :=
    (system_cpu_usage stats - presystem_cpu_usage stats)%Z in
  {| cpu_percent :=
       if (0 <? system_delta)%Z
       then (inject_Z cpu_delta / inject_Z system_delta * 100)%Q
       else 0%Q;
     memory_usage_mb :=
       (inject_Z (memory_stats_usage stats) / inject_Z (1024 * 1024))%Q;
     memory_limit_mb :=
       (inject_Z (memory_stats_limit stats) / inject_Z (1024 * 1024))%Q;
     metrics_execution_time := elapsed;
     peak_memory_mb :=
       (inject_Z (memory_stats_usage stats) / inject_Z (1024 * 1024))%Q;
     network_io := networks stats;
     disk_io := blkio_stats stats |}.

(** [DockerExecutor._collect_resource_metrics]: every exception inside is
    caught and answered by the empty metrics. *)
Definition _collect_resource_metrics (w : World) (container : Container)
    (start_time : Q) : M ResourceMetrics :=
  log EvStats ;;;
  match stats_answer container with
  | None => ret _get_empty_metrics
  | Some stats =>
      now <- perf_counter w ;;
      ret (metrics_of_stats stats (now - start_time)%Q)
  end.

(** The text 'O(n' + SUPERSCRIPT TWO (code point 178) + ')'. *)
Definition O_n_squared : string :=
  "O(n" ++ String (ascii_of_nat 178) ")".

(** [DockerExecutor._analyze_complexity] *)
Definition _analyze_complexity (execution_time : Q) (memory_usage : Z)
  : ComplexityAnalysis :=
  {| estimated_time_complexity :=
       if Qgtb execution_time (1 # 10) then O_n_squared
       else if Qgtb execution_time (1 # 100) then "O(n log n)"
       else if Qgtb execution_time (1 # 1000) then "O(n)"
       else "O(1)";
     estimated_space_complexity :=
       if (50 * 1024 * 1024 <? memory_usage)%Z then O_n_squared
       else if (10 * 1024 * 1024 <? memory_usage)%Z then "O(n)"
       else "O(1)";
     confidence := 7 # 10;
     analysis_method := "heuristic";
     analysis_execution_time := execution_time;
     memory_usage_bytes := memory_usage |}.

(** The dictionary used when the last line cannot be parsed. *)
Definition unparsed_payload : Payload :=
  JsonObject {| p_success := Some false;
                p_result := Some None;
                p_error := Some "Failed to parse execution result";
                p_execution_time := Some 0%Q;
                p_memory_peak := Some 0%Z |}.

(** [stdout.strip().split('\n')[-1]] *)
Definition last_line (out : string) : string :=
  last (split_on LF (strip out)) EmptyString.

(** The dictionary [exec_result] of [_monitor_execution]: the decoded last
    line, or the fallback when decoding fails. *)
Definition payload_of (w : World) (container : Container) : Payload :=
  match json_loads w (last_line (logs_stdout container)) with
  | Some payload => payload
  | None => unparsed_payload
  end.

(** [d[key]]: a [KeyError] whose text is the quoted key. *)
Definition subscript {A : Type} (key : string) (v : option A) : M A :=
  match v with
  | Some a => ret a
  | None => raise (OtherException ("'" ++ key ++ "'"))
  end.

(** [DockerExecutor._monitor_execution] *)
Definition _monitor_execution (w : World) (container : Container)
    (start_time : Q) : M ExecutionResult :=
  try_except
    (log EvWait ;;;
     match wait_answer container with
     | inl e => raise e
     | inr status_code =>
         log EvLogs ;;;
         let out := logs_stdout container in
         let err := logs_stderr container in
         let exec_result := payload_of w container in
         metrics <- _collect_resource_metrics w container start_time ;;
         match exec_result with
         | JsonOther attribute_error =>
             raise (OtherException attribute_error)
         | JsonObject o =>
             let analysis :=
               _analyze_complexity
                 (match p_execution_time o with Some t => t | None => 0%Q end)
                 (match p_memory_peak o with Some m => m | None => 0%Z end) in
             ok <- subscript "success" (p_success o) ;;
             res <- subscript "result" (p_result o) ;;
             time <- subscript "execution_time" (p_execution_time o) ;;
             ret {| success := ok;
                    result := res;
                    error := p_error o;
                    execution_time := time;
                    resource_metrics := metrics;
                    complexity_analysis := Some analysis;
                    stdout := out;
                    stderr := err;
                    exit_code := status_code |}
         end
     end)
    (fun e =>
       match e with
       | ContainerError msg exit_status =>
           now <- perf_counter w ;;
           ret {| success := false;
                  result := None;
                  error := Some ("Container error: " ++ msg);
                  execution_time := (now - start_time)%Q;
                  resource_metrics := _get_empty_metrics;
                  complexity_analysis := None;
                  stdout := "";
                  stderr := msg;
                  exit_code := exit_status |}
       | OtherException _ => raise e
       end).

(** The [finally] block of [execute_algorithm]: nothing in it raises. *)
Definition cleanup (session_id : string) (s : State) : State :=
  let s1 :=
    match local_container s with
    | Some _ =>
        {| active_containers := dict_del session_id (active_containers s);
           local_container := local_container s;
           local_temp_dir := local_temp_dir s;
           clock_reads := clock_reads s;
           run_calls := run_calls s;
           trace := trace s ++ [EvStopRemove] |}
    | None => s
    end in
  if local_temp_dir s1 then
    {| active_containers := active_containers s1;
       local_container := local_container s1;
       local_temp_dir := local_temp_dir s1;
       clock_reads := clock_reads s1;
       run_calls := run_calls s1;
       trace := trace s1 ++ [EvRmtree] |}
  else s1.

(** [DockerExecutor.execute_algorithm]; the code, the test data and the
    algorithm name only reach the scripts written by [prepare]. *)
Definition execute_algorithm (w : World) (algorithm_code : string)
    (test_data : Any) (algorithm_name session_id : string)
  : M ExecutionResult :=
  try_finally
    (try_except
       (prepare w ;;;
        start_time <- perf_counter w ;;
        container <- _create_container w ;;
        register session_id container ;;;
        _monitor_execution w container start_time)
       (fun e =>
          ret {| success := false;
                 result := None;
                 error := Some (str e);
                 execution_time := 0;
                 resource_metrics := _get_empty_metrics;
                 complexity_analysis := None;
                 stdout := "";
                 stderr := str e;
                 exit_code := (-1)%Z |}))
    (cleanup session_id).

(** A call from the initial state: the result and the final state. *)
Definition run_execute (w : World) (algorithm_code : string)
    (test_data : Any) (algorithm_name session_id : string)
  : outcome ExecutionResult * State :=
  execute_algorithm w algorithm_code test_data algorithm_name session_id
                    initial_state.

(** *** Notions used by the properties *)

(** How often an event occurs in a trace. *)
Definition occurrences (ev : Event) (t : list Event) : nat :=
  length (filter (event_eqb ev) t).

(** The sandbox has started when [containers.run] returned a container. *)
Definition sandbox_started (s : State) : bool :=
  match local_container s with Some _ => true | None => false end.

(** The exception raised before any container exists, if there is one:
    by [mkdtemp], by the writing of the scripts, or by [containers.run]. *)
Definition raised_before_start (w : World) : option Exception :=
  match mkdtemp_answer w, write_answer w, containers_run_answer w 0 with
  | Some e, _, _ => Some e
  | None, Some e, _ => Some e
  | None, None, inl e => Some e
  | None, None, inr _ => None
  end.

(** The container of a call whose sandbox starts. *)
Definition started_container (w : World) : option Container :=
  match mkdtemp_answer w, write_answer w, containers_run_answer w 0 with
  | None, None, inr c => Some c
  | _, _, _ => None
  end.

(** The metrics [_collect_resource_metrics] gives for a started container
    whose [wait] has returned: the clock was read once before, at the start. *)
Definition collected_metrics (w : World) (c : Container) : ResourceMetrics :=
  match stats_answer c with
  | None => _get_empty_metrics
  | Some stats =>
      metrics_of_stats stats
        (perf_counter_reading w 1 - perf_counter_reading w 0)%Q
  end.

(** An error message is present and not the empty string. *)
Definition nonempty_error (r : ExecutionResult) : bool :=
  match error r with
  | Some m => negb (String.eqb m EmptyString)
  | None => false
  end.

(** The result built by the handler of [execute_algorithm]. *)
Definition failure_result (e : Exception) : ExecutionResult :=
  {| success := false;
     result := None;
     error := Some (str e);
     execution_time := 0;
     resource_metrics := _get_empty_metrics;
     complexity_analysis := None;
     stdout := "";
     stderr := str e;
     exit_code := (-1)%Z |}.

(** *** Sample environments *)

Definition sample_stats : Stats :=
  {| cpu_total_usage := 2000; precpu_total_usage := 1000;
     system_cpu_usage := 50000; presystem_cpu_usage := 40000;
     memory_stats_usage := 20 * 1024 * 1024;
     memory_stats_limit := 128 * 1024 * 1024;
     networks := []; blkio_stats := [] |}.

(** A container whose run ends with the last output line [line]. *)
Definition container_printing (line : string) : Container :=
  {| container_name := "algo-exec-s1";
     wait_answer := inr 0%Z;
     logs_stdout := line;
     logs_stderr := "";
     stats_answer := Some sample_stats |}.

(** The payload the wrapper script prints when the algorithm raises an
    exception [e]: ['error'] is [str(e)]. *)
Definition raised_payload (message : string) : Payload :=
  JsonObject {| p_success := Some false;
                p_result := Some None;
                p_error := Some message;
                p_execution_time := Some 0%Q;
                p_memory_peak := Some 0%Z |}.

(** The algorithm [def f(x): raise ValueError()] runs in a container that
    starts and finishes normally; the wrapper reports [str(e)], which is
    empty. *)
Definition world_empty_message : World :=
  {| mkdtemp_answer := None;
     write_answer := None;
     perf_counter_reading := fun n => inject_Z (Z.of_nat n);
     containers_run_answer := fun _ => inr (container_printing "{...}");
     json_loads := fun _ => Some (raised_payload "") |}.

(** The container runs and prints nothing that [json.loads] accepts. *)
Definition world_unparsable_output : World :=
  {| mkdtemp_answer := None;
     write_answer := None;
     perf_counter_reading := fun n => inject_Z (Z.of_nat n);
     containers_run_answer := fun _ => inr (container_printing "Killed");
     json_loads := fun _ => None |}.

(** The container starts, and [container.wait(timeout=...)] raises (the
    wait timed out). *)
Definition world_wait_raises : World :=
  {| mkdtemp_answer := None;
     write_answer := None;
     perf_counter_reading := fun n => inject_Z (Z.of_nat n);
     containers_run_answer :=
       fun _ => inr {| container_name := "algo-exec-s1";
                       wait_answer := inl (OtherException "Read timed out.");
                       logs_stdout := "";
                       logs_stderr := "";
                       stats_answer := Some sample_stats |};
     json_loads := fun _ => None |}.

(** The container starts, and a [docker.errors.ContainerError] reaches the
    handler of [_monitor_execution]. *)
Definition world_container_error : World :=
  {| mkdtemp_answer := None;
     write_answer := None;
     perf_counter_reading := fun n => inject_Z (Z.of_nat n);
     containers_run_answer :=
       fun _ => inr {| container_name := "algo-exec-s1";
                       wait_answer := inl (ContainerError "exit 137" 137);
                       logs_stdout := "";
                       logs_stderr := "";
                       stats_answer := Some sample_stats |};
     json_loads := fun _ => None |}.

(** [containers.run] fails at its first call and would succeed at a
    second one. *)
Definition world_first_run_fails : World :=
  {| mkdtemp_answer := None;
     write_answer := None;
     perf_counter_reading := fun n => inject_Z (Z.of_nat n);
     containers_run_answer :=
       fun n => match n with
                | O => inl (OtherException "Cannot connect to the Docker daemon")
                | S _ => inr (container_printing "{...}")
                end;
     json_loads := fun _ => Some (raised_payload "boom") |}.

End DockerExecutor.

(** ** test_framework.py *)
Module TestFramework.
Import PyStr PerformanceAnalytics.

Definition Any := string.

(** [TestCase]; the data are kept as their source text. *)
Record TestCase := {
  name : string;
  input_data : Any;
  expected_output : Any;
  timeout : Q;
  memory_limit : Z;
  description : string;
  tags : option (list string)
}.

(** [TestCase(name, input_data, expected_output)] with the defaults. *)
Definition test_case (n : string) (input expected : Any) : TestCase :=
  {| name := n; input_data := input; expected_output := expected;
     timeout := 5; memory_limit := 128; description := ""; tags := None |}.

(** An entry of [benchmarks]:
    [{"input_size": ..., "iterations": ...}]. *)
Record Benchmark := {
  benchmark_input_size : Z;
  iterations : Z
}.

Record TestSuite := {
  suite_name_of : string;
  suite_algorithm_name : string;
  test_cases : list TestCase;
  setup_code : string;
  teardown_code : string;
  benchmarks : option (list Benchmark)
}.

Record TestResult := {
  test_name : string;
  passed : bool;
  test_execution_time : Q;
  test_memory_usage : Q;
  error_message : option string;
  output : string;
  expected : option Any;
  actual : option Any
}.

Record BenchmarkResult := {
  benchmark_name : string;
  input_size : Z;
  benchmark_execution_time : Q;
  benchmark_memory_usage : Q;
  throughput : Q;
  percentiles : list (string * Q)
}.

Record TestSuiteResult := {
  suite_name : string;
  algorithm_name : string;
  total_tests : Z;
  passed_tests : Z;
  failed_tests : Z;
  execution_time : Q;
  coverage_percentage : Q;
  test_results : list TestResult;
  benchmark_results : list BenchmarkResult;
  security_score : Q
}.

(** The suites built by [_load_algorithm_test_suites]. *)
Definition two_sum_suite : TestSuite :=
  {| suite_name_of := "Two Sum Complete Test Suite";
     suite_algorithm_name := "two_sum";
     test_cases :=
       [ test_case "basic_case" "{'nums': [2, 7, 11, 15], 'target': 9}" "[0, 1]";
         test_case "duplicate_numbers" "{'nums': [3, 3], 'target': 6}" "[0, 1]";
         test_case "negative_numbers"
                   "{'nums': [-1, -2, -3, -4, -5], 'target': -8}" "[2, 4]";
         test_case "large_array"
                   "{'nums': list(range(1000)), 'target': 1999}" "[999, 1000]";
         test_case "no_solution" "{'nums': [1, 2, 3], 'target': 7}" "[]";
         test_case "zero_target" "{'nums': [-1, 0, 1], 'target': 0}" "[0, 2]";
         test_case "single_element" "{'nums': [1], 'target': 1}" "[]";
         test_case "two_elements_match" "{'nums': [1, 2], 'target': 3}"
                   "[0, 1]" ];
     setup_code := "";
     teardown_code := "";
     benchmarks :=
       Some [ {| benchmark_input_size := 100; iterations := 1000 |};
              {| benchmark_input_size := 500; iterations := 500 |};
              {| benchmark_input_size := 1000; iterations := 100 |};
              {| benchmark_input_size := 5000; iterations := 20 |};
              {| benchmark_input_size := 10000; iterations := 10 |} ] |}.

Definition binary_search_suite : TestSuite :=
  {| suite_name_of := "Binary Search Test Suite";
     suite_algorithm_name := "binary_search";
     test_cases :=
       [ test_case "found_middle" "{'arr': [1, 2, 3, 4, 5], 'target': 3}" "2";
         test_case "found_first" "{'arr': [1, 2, 3, 4, 5], 'target': 1}" "0";
         test_case "found_last" "{'arr': [1, 2, 3, 4, 5], 'target': 5}" "4";
         test_case "not_found" "{'arr': [1, 2, 3, 4, 5], 'target': 6}" "-1";
         test_case "empty_array" "{'arr': [], 'target': 1}" "-1";
         test_case "single_element_found" "{'arr': [1], 'target': 1}" "0";
         test_case "single_element_not_found" "{'arr': [1], 'target': 2}" "-1";
         test_case "large_array"
                   "{'arr': list(range(10000)), 'target': 5555}" "5555" ];
     setup_code := "";
     teardown_code := "";
     benchmarks := None |}.

Definition container_water_suite : TestSuite :=
  {| suite_name_of := "Container With Most Water Test Suite";
     suite_algorithm_name := "max_area";
     test_cases :=
       [ test_case "basic_case" "{'height': [1, 8, 6, 2, 5, 4, 8, 3, 7]}" "49";
         test_case "two_elements" "{'height': [1, 1]}" "1";
         test_case "increasing_height" "{'height': [1, 2, 3, 4, 5]}" "6";
         test_case "decreasing_height" "{'height': [5, 4, 3, 2, 1]}" "6";
         test_case "same_height" "{'height': [5, 5, 5, 5, 5]}" "20";
         test_case "large_array"
                   "{'height': [i % 100 for i in range(1000)]}" "None" ];
     setup_code := "";
     teardown_code := "";
     benchmarks := None |}.

(** The dictionary [self.test_suites]. *)
Definition loaded_test_suites : list (string * TestSuite) :=
  [ ("two_sum", two_sum_suite);
    ("binary_search", binary_search_suite);
    ("container_water", container_water_suite) ].

(** [d.get(key)] *)
Fixpoint dict_get {V : Type} (key : string) (d : list (string * V))
  : option V :=
  match d with
  | [] => None
  | (k, v) :: d' => if String.eqb key k then Some v else dict_get key d'
  end.

(** *** What the environment answers *)

(** An entry of ['tests'] in [test_results.json]. *)
Record JsonTest := {
  nodeid : string;
  outcome_text : string;
  duration : option Q;
  call_longrepr : option string;
  call_stdout : option string
}.

(** An entry of ['benchmarks'] in [benchmark_results.json]. *)
Record JsonBenchmark := {
  json_benchmark_name : string;
  stats_mean : Q;
  stats_median : Q;
  stats_q95 : option Q;
  stats_q99 : option Q
}.

(** Reading one report file in the container: the [cat] fails (the file is
    skipped), the file is decoded, or something raises after [partial]
    entries were handled. *)
Inductive Report (A : Type) :=
| CatFailed
| Decoded (content : A)
| ReportRaises (partial : A).
Arguments CatFailed {A}.
Arguments Decoded {A} content.
Arguments ReportRaises {A} partial.

(** A started test container. *)
Record TestContainer := {
  wait_answer : string + Z;
  logs : string;
  test_report : Report (list JsonTest);
  benchmark_report : Report (list JsonBenchmark);
  coverage_report : Report (option Q)
}.

(** The environment of one call of [run_test_suite]; an exception is its
    text. *)
Record World := {
  (** [mkdtemp] and [_generate_test_files]: [Some e] when they raise *)
  generate_answer : option string;
  (** [_create_test_container] *)
  containers_run_answer : string + TestContainer
}.

(** *** The methods *)

(** [s.lower()] on one character, for code points below 256. *)
Definition lower_char (c : ascii) : ascii :=
  let n := nat_of_ascii c in
  if ((65 <=? n)%nat && (n <=? 90)%nat)
     || ((192 <=? n)%nat && (n <=? 222)%nat && negb (n =? 215)%nat)
  then ascii_of_nat (n + 32) else c.

Fixpoint lower (s : string) : string :=
  match s with
  | EmptyString => EmptyString
  | String a s' => String (lower_char a) (lower s')
  end.

(** [s.split(sep)] for a non-empty separator; [skip] characters of a
    separator just found are still to be passed over. *)
Fixpoint split_str (sep : string) (skip : nat) (s : string) : list string :=
  match s with
  | EmptyString => [EmptyString]
  | String a s' =>
      match skip with
      | S k => split_str sep k s'
      | O =>
          if String.prefix sep s
          then EmptyString :: split_str sep (String.length sep - 1) s'
          else match split_str sep 0 s' with
               | h :: t => String a h :: t
               | [] => [String a EmptyString]
               end
      end
  end.

(** The conversion of one entry of ['tests']. *)
Definition test_result_of_json (t : JsonTest) : TestResult :=
  let ok := String.eqb (outcome_text t) "passed" in
  {| test_name := nodeid t;
     passed := ok;
     test_execution_time := match duration t with Some d => d | None => 0%Q end;
     test_memory_usage := 0;
     error_message := if ok then None else call_longrepr t;
     output := match call_stdout t with Some o => o | None => "" end;
     expected := None;
     actual := None |}.

(** The conversion of one entry of ['benchmarks']. *)
Definition benchmark_result_of_json (b : JsonBenchmark) : BenchmarkResult :=
  {| benchmark_name := json_benchmark_name b;
     input_size := 0;
     benchmark_execution_time := stats_mean b;
     benchmark_memory_usage := 0;
     throughput := if Qgtb (stats_mean b) 0 then (1 / stats_mean b)%Q
                   else 0%Q;
     percentiles :=
       [ ("p50", stats_median b);
         ("p95", match stats_q95 b with Some q => q | None => 0%Q end);
         ("p99", match stats_q99 b with Some q => q | None => 0%Q end) ] |}.

(** [TestFramework._parse_logs_fallback] *)
Definition _parse_logs_fallback (log_text : string) (expected_count : nat)
  : list TestResult :=
  flat_map
    (fun line =>
       if contains "::" line
          && (contains "PASSED" line || contains "FAILED" line)
       then
         let parts := split_str "::" 0 line in
         let ok := contains "PASSED" line in
         [ {| test_name :=
                hd EmptyString (split_on " " (last parts EmptyString));
              passed := ok;
              test_execution_time := 0;
              test_memory_usage := 0;
              error_message := if ok then None else Some "Test failed";
              output := "";
              expected := None;
              actual := None |} ]
       else [])
    (split_on LF log_text).

(** [TestFramework._parse_test_results]: an exception anywhere in the three
    readings replaces the test results by those of the log. *)
Definition _parse_test_results (container : TestContainer)
  : list TestResult * list BenchmarkResult * Q :=
  match test_report container with
  | ReportRaises partial =>
      (_parse_logs_fallback (logs container) (length partial), [], 0%Q)
  | tests =>
      let results :=
        match tests with
        | Decoded ts => map test_result_of_json ts
        | _ => []
        end in
      match benchmark_report container with
      | ReportRaises partial =>
          (_parse_logs_fallback (logs container) (length results),
           map benchmark_result_of_json partial, 0%Q)
      | bench =>
          let bench_results :=
            match bench with
            | Decoded bs => map benchmark_result_of_json bs
            | _ => []
            end in
          match coverage_report container with
          | ReportRaises _ =>
              (_parse_logs_fallback (logs container) (length results),
               bench_results, 0%Q)
          | CatFailed => (results, bench_results, 0%Q)
          | Decoded percent =>
              (results, bench_results,
               match percent with Some p => p | None => 0%Q end)
          end
      end
  end.

(** [TestFramework._calculate_security_score] *)
Definition _calculate_security_score (results : list TestResult) : Q :=
  let security_tests :=
    filter (fun r => contains "security" (lower (test_name r))) results in
  match security_tests with
  | [] => 5 # 10
  | _ =>
      (inject_Z (Z.of_nat (length (filter passed security_tests)))
       / inject_Z (Z.of_nat (length security_tests)) * 100)%Q
  end.

(** [len(suite.benchmarks or [])] *)
Definition declared_benchmarks (suite : TestSuite) : nat :=
  match benchmarks suite with
  | Some bs => length bs
  | None => 0
  end.

(** [TestFramework._execute_tests]: an exception of [container.wait] is
    logged and raised again. *)
Definition _execute_tests (container : TestContainer) (suite : TestSuite)
  : string + TestSuiteResult :=
  match wait_answer container with
  | inl e => inl e
  | inr _ =>
      let '(results, bench_results, coverage) :=
        _parse_test_results container in
      let total :=
        (Z.of_nat (length (test_cases suite))
         + Z.of_nat (declared_benchmarks suite) + 2)%Z in
      let passed_count := Z.of_nat (length (filter passed results)) in
      inr {| suite_name := suite_name_of suite;
             algorithm_name := suite_algorithm_name suite;
             total_tests := total;
             passed_tests := passed_count;
             failed_tests := (total - passed_count)%Z;
             execution_time :=
               fold_left Qplus (map test_execution_time results) 0%Q;
             coverage_percentage := coverage;
             test_results := results;
             benchmark_results := bench_results;
             security_score := _calculate_security_score results |}
  end.

(** [not custom_test_cases]: [None] and the empty list are false values. *)
Definition no_custom_cases (custom : option (list TestCase)) : bool :=
  match custom with
  | None | Some [] => true
  | Some (_ :: _) => false
  end.

(** The suite a call works on: the loaded suite of that name, or the custom
    cases wrapped into a suite; [None] where the source raises
    [ValueError]. *)
Definition suite_of_call (suites : list (string * TestSuite))
    (algorithm : string) (custom_test_cases : option (list TestCase))
  : option TestSuite :=
  if no_custom_cases custom_test_cases then dict_get algorithm suites
  else Some {| suite_name_of := "Custom " ++ algorithm ++ " Tests";
               suite_algorithm_name := algorithm;
               test_cases :=
                 match custom_test_cases with Some cs => cs | None => [] end;
               setup_code := "";
               teardown_code := "";
               benchmarks := None |}.

(** [TestFramework.run_test_suite]: [inl] is the [ValueError] raised for an
    unknown algorithm; every other exception is turned into a result. The
    [finally] block only stops the container and removes the directory. *)
Definition run_test_suite (suites : list (string * TestSuite)) (w : World)
    (algorithm : string) (algorithm_code : string)
    (custom_test_cases : option (list TestCase))
  : string + TestSuiteResult :=
  match suite_of_call suites algorithm custom_test_cases with
  | None => inl ("No test suite found for algorithm: " ++ algorithm)
  | Some suite =>
      let attempt :=
        match generate_answer w with
        | Some e => inl e
        | None =>
            match containers_run_answer w with
            | inl e => inl e
            | inr container => _execute_tests container suite
            end
        end in
      match attempt with
      | inr r => inr r
      | inl _ =>
          inr {| suite_name := suite_name_of suite;
                 algorithm_name := algorithm;
                 total_tests := Z.of_nat (length (test_cases suite));
                 passed_tests := 0;
                 failed_tests := Z.of_nat (length (test_cases suite));
                 execution_time := 0;
                 coverage_percentage := 0;
                 test_results := [];
                 benchmark_results := [];
                 security_score := 0 |}
      end
  end.

(** *** Notions used by the properties *)

(** Declared test cases + declared benchmarks + 2. *)
Definition declared_total (suite : TestSuite) : Z :=
  (Z.of_nat (length (test_cases suite))
   + Z.of_nat (declared_benchmarks suite) + 2)%Z.

(** The tests were run: the files were written, the container was launched
    and [container.wait] returned. *)
Definition tests_ran (w : World) : bool :=
  match generate_answer w, containers_run_answer w with
  | None, inr container =>
      match wait_answer container with inr _ => true | inl _ => false end
  | _, _ => false
  end.

(** Launching the container fails. *)
Definition world_launch_fails : World :=
  {| generate_answer := None;
     containers_run_answer := inl "Cannot connect to the Docker daemon" |}.

(** The container is launched, the tests run, and only the log can be read:
    it shows one passed test. *)
Definition world_tests_run : World :=
  {| generate_answer := None;
     containers_run_answer :=
       inr {| wait_answer := inr 0%Z;
              logs := "test_two_sum.py::TestTwo_Sum::test_basic_case PASSED";
              test_report := ReportRaises [];
              benchmark_report := CatFailed;
              coverage_report := CatFailed |} |}.

End TestFramework.

(** ** The findings of a scan, read off the text *)
Module SecurityFindings.
Import PyStr SecurityManager.

(** The patterns of a list that occur in the code, in the order of the
    list. *)
Definition found_in (code : string) (patterns : list string) : list string :=
  filter (fun p => contains p code) patterns.

(** The module names of the import lines that are outside the allowlist, in
    the order of the lines. *)
Definition unauthorized_modules (cfg : SecurityConfig) (code : string)
  : list string :=
  flat_map (fun line => match unauthorized cfg line with
                        | Some m => [m]
                        | None => []
                        end)
           (import_lines code).

Definition expected_blocked_items (cfg : SecurityConfig) (code : string)
  : list string :=
  (map (append "Blocked function: ") (found_in code (blocked_functions cfg))
   ++ (if file_system_access cfg then []
       else map (append "File operation: ") (found_in code file_operations)))%list.

Definition expected_warnings (cfg : SecurityConfig) (code : string)
  : list string :=
  (map (append "Suspicious pattern: ") (found_in code suspicious_patterns)
   ++ map (append "Unauthorized import: ") (unauthorized_modules cfg code))%list.

(** The level that belongs to the findings: HIGH with a blocked item,
    otherwise MEDIUM with a warning, otherwise LOW. *)
Definition risk_of (blocked warned : list string) : RiskLevel :=
  match blocked, warned with
  | _ :: _, _ => HIGH
  | [], _ :: _ => MEDIUM
  | [], [] => LOW
  end.

Definition is_nil {A : Type} (l : list A) : bool :=
  match l with [] => true | _ :: _ => false end.

(** A report whose [safe] and [risk_level] are those of its two lists. *)
Definition report_exact (r : SecurityReport) : Prop :=
  safe r = is_nil (blocked_items r)
  /\ risk_level r = risk_of (blocked_items r) (warnings r).

(** The characters of a string. *)
Fixpoint chars (s : string) : list ascii :=
  match s with
  | EmptyString => []
  | String a s' => a :: chars s'
  end.

End SecurityFindings.

(** ** performance_analytics.py: the analytics engine *)
Module AnalyticsEngine.
Import PyStr PerformanceAnalytics ComplexityAnalyzer.

(** The text of a complexity label, as the dictionaries of the source spell
    it; the superscripts two and three are the code points 178 and 179. *)
Definition label_text (c : Complexity) : string :=
  match c with
  | O_1 => "O(1)"
  | O_log_n => "O(log n)"
  | O_n => "O(n)"
  | O_n_log_n => "O(n log n)"
  | O_n2 => "O(n" ++ String (ascii_of_nat 178) ")"
  | O_n3 => "O(n" ++ String (ascii_of_nat 179) ")"
  | O_2n => "O(2^n)"
  end.

Definition complexity_eqb (a b : Complexity) : bool :=
  match a, b with
  | O_1, O_1 | O_log_n, O_log_n | O_n, O_n | O_n_log_n, O_n_log_n
  | O_n2, O_n2 | O_n3, O_n3 | O_2n, O_2n => true
  | _, _ => false
  end.

(** [PerformanceAnalytics._complexity_score]: [scores.get(complexity, 5)]. *)
Definition _complexity_score (complexity : string) : Z :=
  match TestFramework.dict_get complexity
          [ (label_text O_1, 1%Z); (label_text O_log_n, 2%Z);
            (label_text O_n, 3%Z); (label_text O_n_log_n, 4%Z);
            (label_text O_n2, 5%Z); (label_text O_n3, 6%Z);
            (label_text O_2n, 7%Z) ] with
  | Some score => score
  | None => 5%Z
  end.

(** The place of a label in the enumeration, from 0. *)
Definition enumeration_index (c : Complexity) : nat :=
  match c with
  | O_1 => 0 | O_log_n => 1 | O_n => 2 | O_n_log_n => 3
  | O_n2 => 4 | O_n3 => 5 | O_2n => 6
  end.

(** A subscriber callback, known by its identity. *)
Definition Callback := string.

(** What a subscriber is called with: the event type and the data. *)
Inductive EventData :=
| PointData (p : PerformancePoint)
| OtherData (text : string).

Record PerformanceTrend := {
  trend_algorithm_name : string;
  data_points : nat;
  avg_execution_time : float;
  avg_memory_usage : float;
  avg_cpu_usage : float;
  time_complexity : ComplexityFit;
  space_complexity : ComplexityFit;
  performance_regression : bool;
  optimization_suggestions : list string
}.

(** The attributes of a [PerformanceAnalytics] object, and the calls made to
    the subscribers so far (a subscriber that raises is logged and passed
    over; the callbacks are taken to leave the engine as it is). *)
Record Engine := {
  max_history : nat;
  performance_history : list PerformancePoint;
  algorithm_trends : list (string * list PerformancePoint);
  subscribers : list Callback;
  calls : list (Callback * string * EventData)
}.

(** [PerformanceAnalytics(max_history)] *)
Definition new_engine (m : nat) : Engine :=
  {| max_history := m; performance_history := []; algorithm_trends := [];
     subscribers := []; calls := [] |}.

(** [deque.append] on a deque with [maxlen = m]: the element is appended and
    the leftmost one dropped when the deque has grown beyond [m]. *)
Definition deque_append {A : Type} (m : nat) (d : list A) (x : A) : list A :=
  let d' := (d ++ [x])%list in
  if (m <? length d')%nat then tl d' else d'.

(** [PerformanceAnalytics._notify_subscribers] *)
Definition _notify_subscribers (event_type : string) (data : EventData)
    (e : Engine) : Engine :=
  {| max_history := max_history e;
     performance_history := performance_history e;
     algorithm_trends := algorithm_trends e;
     subscribers := subscribers e;
     calls := (calls e
               ++ map (fun cb => (cb, event_type, data)) (subscribers e))%list |}.

(** [PerformanceAnalytics.add_performance_point] *)
Definition add_performance_point (e : Engine) (point : PerformancePoint)
  : Engine :=
  let name := algorithm_name point in
  let known :=
    match TestFramework.dict_get name (algorithm_trends e) with
    | Some l => l
    | None => []
    end in
  let grown := (known ++ [point])%list in
  let kept :=
    if (max_history e <? length grown)%nat
    then py_slice (Some (- Z.of_nat (max_history e))%Z) None grown
    else grown in
  _notify_subscribers "performance_point" (PointData point)
    {| max_history := max_history e;
       performance_history :=
         deque_append (max_history e) (performance_history e) point;
       algorithm_trends :=
         DockerExecutor.dict_set name kept (algorithm_trends e);
       subscribers := subscribers e;
       calls := calls e |}.

(** [PerformanceAnalytics.subscribe] *)
Definition subscribe (cb : Callback) (e : Engine) : Engine :=
  {| max_history := max_history e;
     performance_history := performance_history e;
     algorithm_trends := algorithm_trends e;
     subscribers := (subscribers e ++ [cb])%list;
     calls := calls e |}.

(** [list.remove(x)]: the first occurrence goes. *)
Fixpoint remove_first (x : string) (l : list string) : list string :=
  match l with
  | [] => []
  | y :: l' => if String.eqb x y then l' else y :: remove_first x l'
  end.

(** [PerformanceAnalytics.unsubscribe] *)
Definition unsubscribe (cb : Callback) (e : Engine) : Engine :=
  if mem cb (subscribers e) then
    {| max_history := max_history e;
       performance_history := performance_history e;
       algorithm_trends := algorithm_trends e;
       subscribers := remove_first cb (subscribers e);
       calls := calls e |}
  else e.

(** [PerformanceAnalytics._generate_optimization_suggestions] *)
Definition _generate_optimization_suggestions (time_fit space_fit : ComplexityFit)
    (points : list PerformancePoint) : list string :=
  let s1 :=
    if complexity_eqb (best_fit time_fit) O_n2 then
      ["Consider using hash maps or sorting to reduce time complexity to O(n) or O(n log n)"]
    else if complexity_eqb (best_fit time_fit) O_2n then
      ["Use dynamic programming or memoization to avoid exponential time complexity"]
    else [] in
  let s2 :=
    if complexity_eqb (best_fit space_fit) O_n2
       || complexity_eqb (best_fit space_fit) O_n3 then
      ["Optimize memory usage by using in-place algorithms or better data structures"]
    else [] in
  let s3 :=
    if (5 <? length points)%nat then
      if float_gt
           (np_mean (map memory_usage (py_slice (Some (-3)%Z) None points)))
           100
      then ["High memory usage detected - consider memory optimization"]
      else []
    else [] in
  match (s1 ++ s2 ++ s3)%list with
  | [] => ["Algorithm performance looks good!"]
  | suggestions => suggestions
  end.

(** [min(items, key=...)] of a non-empty list given as head and tail: an
    item replaces the running best when its key is less, by the comparison
    [less] of the keys. *)
Fixpoint py_min_by {A K : Type} (less : K -> K -> bool) (key : A -> K)
    (best : A) (l : list A) : A :=
  match l with
  | [] => best
  | x :: l' =>
      py_min_by less key (if less (key x) (key best) then x else best) l'
  end.

(** [max(values)] and [min(values)] of a non-empty list of floats. *)
Definition py_max_list (x : float) (l : list float) : float :=
  fold_left (fun best y => if float_gt y best then y else best) l x.
Definition py_min_list (x : float) (l : list float) : float :=
  fold_left (fun best y => if float_lt y best then y else best) l x.

(** [PerformanceAnalytics._generate_comparison_recommendations], for the
    non-empty list of trends it is called with. *)
Definition _generate_comparison_recommendations (trends : list PerformanceTrend)
  : list string :=
  let complexities := map (fun t => best_fit (time_complexity t)) trends in
  let r1 :=
    if existsb (complexity_eqb O_n2) complexities
       && existsb (complexity_eqb O_n) complexities
    then ["Consider using the O(n) algorithm for better scalability"]
    else [] in
  let r2 :=
    match map avg_memory_usage trends with
    | [] => []
    | m :: ms =>
        if float_gt (py_max_list m ms) (py_min_list m ms * 2)%float
        then ["Significant memory usage difference detected - choose based on memory constraints"]
        else []
    end in
  match (r1 ++ r2)%list with
  | [] => ["All algorithms perform similarly"]
  | recommendations => recommendations
  end.

(** An entry of ["algorithms"] in the comparison. *)
Record ComparisonEntry := {
  entry_name : string;
  entry_avg_time : float;
  entry_avg_memory : float;
  entry_complexity : Complexity;
  entry_confidence : float
}.

(** The dictionary ["analysis"] of the comparison. *)
Record ComparisonAnalysis := {
  fastest : string;
  most_memory_efficient : string;
  best_complexity : string;
  recommendations : list string
}.

(** The dictionary returned by [get_comparative_analysis]; [analysis] is
    [None] for the empty dictionary. *)
Record Comparison := {
  algorithms : list ComparisonEntry;
  winner : option string;
  analysis : option ComparisonAnalysis
}.

Section Trends.

(** The numeric libraries of the complexity fit, and [np.mean] on a list
    of any length (NumPy adds long lists in blocks). *)
Variable np_log2 : Z -> float.
Variable np_sqrt : nat -> float.
Variable np_square : float -> float.
Variable linregress : NpArray -> list float -> option LinregressResult.
Variable np_mean_of : list float -> float.

(** [PerformanceAnalytics.get_algorithm_trend] *)
Definition get_algorithm_trend (e : Engine) (name : string)
  : option PerformanceTrend :=
  match TestFramework.dict_get name (algorithm_trends e) with
  | None => None
  | Some points =>
      if (length points <? 2)%nat then None
      else
        let input_sizes := map input_size points in
        let execution_times := map execution_time points in
        let memory_usages := map memory_usage points in
        let cpu_usages := map cpu_usage points in
        let time_fit :=
          analyze_time_complexity np_log2 np_sqrt np_square linregress
                                  input_sizes execution_times in
        let space_fit :=
          analyze_time_complexity np_log2 np_sqrt np_square linregress
                                  input_sizes memory_usages in
        Some {| trend_algorithm_name := name;
                data_points := length points;
                avg_execution_time := np_mean_of execution_times;
                avg_memory_usage := np_mean_of memory_usages;
                avg_cpu_usage := np_mean_of cpu_usages;
                time_complexity := time_fit;
                space_complexity := space_fit;
                performance_regression :=
                  _detect_performance_regression points;
                optimization_suggestions :=
                  _generate_optimization_suggestions time_fit space_fit
                                                     points |}
  end.

(** The trends of the names that have one, in the order of the names. *)
Definition trends_of (e : Engine) (algorithm_names : list string)
  : list PerformanceTrend :=
  flat_map (fun name => match get_algorithm_trend e name with
                        | Some t => [t]
                        | None => []
                        end)
           algorithm_names.

(** [PerformanceAnalytics.get_comparative_analysis] *)
Definition get_comparative_analysis (e : Engine)
    (algorithm_names : list string) : Comparison :=
  let trends := trends_of e algorithm_names in
  let entries :=
    map (fun t => {| entry_name := trend_algorithm_name t;
                     entry_avg_time := avg_execution_time t;
                     entry_avg_memory := avg_memory_usage t;
                     entry_complexity := best_fit (time_complexity t);
                     entry_confidence := r_squared (time_complexity t) |})
        trends in
  match trends with
  | [] => {| algorithms := entries; winner := None; analysis := None |}
  | t :: ts =>
      let best := py_min_by float_lt avg_execution_time t ts in
      {| algorithms := entries;
         winner := Some (trend_algorithm_name best);
         analysis :=
           Some {| fastest := trend_algorithm_name best;
                   most_memory_efficient :=
                     trend_algorithm_name
                       (py_min_by float_lt avg_memory_usage t ts);
                   best_complexity :=
                     trend_algorithm_name
                       (py_min_by Z.ltb
                          (fun t => _complexity_score
                                      (label_text
                                         (best_fit (time_complexity t))))
                          t ts);
                   recommendations :=
                     _generate_comparison_recommendations trends |} |}
  end.

End Trends.

(** *** Notions used by the properties *)

(** The points of one algorithm among the points added, in arrival order. *)
Definition points_of (name : string) (points : list PerformancePoint)
  : list PerformancePoint :=
  filter (fun p => String.eqb (algorithm_name p) name) points.

(** The engine after the points were added one after the other. *)
Definition add_all (e : Engine) (points : list PerformancePoint) : Engine :=
  fold_left add_performance_point points e.

(** What is kept of the points of one algorithm: all of them when
    [max_history] is 0, the last [max_history] otherwise. *)
Definition kept_of (m : nat) (l : list PerformancePoint)
  : list PerformancePoint :=
  if (m =? 0)%nat then l else last_n m l.

(** How often a callback is subscribed. *)
Definition subscriptions (cb : Callback) (l : list Callback) : nat :=
  length (filter (String.eqb cb) l).

(** A point of an algorithm. *)
Definition point_for (name : string) (size : Z) (time memory : float)
  : PerformancePoint :=
  {| timestamp := 0; input_size := size; execution_time := time;
     memory_usage := memory; cpu_usage := 0;
     algorithm_name := name; session_id := "s" |}.

End AnalyticsEngine.

(** ** security_manager.py: resource limits *)
Module ResourceMonitor.
Import PyStr PerformanceAnalytics ComplexityAnalyzer.

(** The limits of a [SecurityConfig]; the integer limits are taken to be
    below 2^53, so that they are floats themselves when a float is compared
    with them. *)
Record ResourceLimits := {
  max_execution_time : Z;
  max_memory_mb : Z;
  max_cpu_percent : float;
  max_open_files : Z;
  network_access : bool
}.

(** [SecurityConfig()] *)
Definition default_limits : ResourceLimits :=
  {| max_execution_time := 30; max_memory_mb := 128; max_cpu_percent := 50;
     max_open_files := 64; network_access := false |}.

Record ResourceUsage := {
  cpu_percent : float;
  memory_mb : float;
  execution_time : float;
  open_files : Z;
  network_connections : Z;
  disk_io_read : Z;
  disk_io_write : Z
}.

(** What [process.wait(timeout=5)] does. *)
Inductive WaitAnswer :=
| Exited
| TimeoutExpired
| WaitRaises.

(** A [psutil.Process], described by what its methods will do. *)
Record Process := {
  terminate_raises : bool;
  wait_answer : WaitAnswer;
  kill_raises : bool
}.

(** A call made on the process of a session. *)
Inductive Action :=
| Terminate
| Kill.

(** The attributes of a [SecurityManager] that the resource checks use (a
    monitor is its list ['violations']), and the calls made on processes. *)
Record Manager := {
  active_processes : list (string * Process);
  resource_monitors : list (string * list string);
  actions : list (string * Action)
}.

Definition act (session_id : string) (a : Action) (m : Manager) : Manager :=
  {| active_processes := active_processes m;
     resource_monitors := resource_monitors m;
     actions := (actions m ++ [(session_id, a)])%list |}.

Definition forget_process (session_id : string) (m : Manager) : Manager :=
  {| active_processes :=
       DockerExecutor.dict_del session_id (active_processes m);
     resource_monitors := resource_monitors m;
     actions := actions m |}.

(** [SecurityManager.terminate_execution]: the process is forgotten only
    when no call on it raised. *)
Definition terminate_execution (session_id reason : string) (m : Manager)
  : Manager :=
  match TestFramework.dict_get session_id (active_processes m) with
  | None => m
  | Some process =>
      let m1 := act session_id Terminate m in
      if terminate_raises process then m1
      else
        match wait_answer process with
        | Exited => forget_process session_id m1
        | WaitRaises => m1
        | TimeoutExpired =>
            let m2 := act session_id Kill m1 in
            if kill_raises process then m2 else forget_process session_id m2
        end
  end.

Definition critical_violations : list string :=
  ["Memory usage"; "Execution time"; "Unauthorized network"].

(** [any(critical in violation for critical in critical_violations)] *)
Definition is_critical (violation : string) : bool :=
  existsb (fun critical => contains critical violation) critical_violations.

Section Formatting.

(** The formatting of numbers in f-strings: [{x:.1f}] on a float, [{x}] on
    an int and [{x}] on a float. *)
Variable format_1f : float -> string.
Variable str_int : Z -> string.
Variable str_float : float -> string.

(** The five messages of [_check_resource_violations]. *)
Definition memory_message (cfg : ResourceLimits) (usage : ResourceUsage)
  : string :=
  "Memory usage (" ++ format_1f (memory_mb usage) ++ "MB) exceeds limit ("
    ++ str_int (max_memory_mb cfg) ++ "MB)".

Definition cpu_message (cfg : ResourceLimits) (usage : ResourceUsage)
  : string :=
  "CPU usage (" ++ format_1f (cpu_percent usage) ++ "%) exceeds limit ("
    ++ str_float (max_cpu_percent cfg) ++ "%)".

Definition time_message (cfg : ResourceLimits) (usage : ResourceUsage)
  : string :=
  "Execution time (" ++ format_1f (execution_time usage)
    ++ "s) exceeds limit (" ++ str_int (max_execution_time cfg) ++ "s)".

Definition files_message (cfg : ResourceLimits) (usage : ResourceUsage)
  : string :=
  "Open files (" ++ str_int (open_files usage) ++ ") exceeds limit ("
    ++ str_int (max_open_files cfg) ++ ")".

Definition network_message (usage : ResourceUsage) : string :=
  "Unauthorized network connections detected ("
    ++ str_int (network_connections usage) ++ ")".

(** The list [violations] built by [_check_resource_violations]. *)
Definition violations_of (cfg : ResourceLimits) (usage : ResourceUsage)
  : list string :=
  ((if float_gt (memory_mb usage) (float_of_int64 (max_memory_mb cfg))
    then [memory_message cfg usage] else [])
   ++ (if float_gt (cpu_percent usage) (max_cpu_percent cfg)
       then [cpu_message cfg usage] else [])
   ++ (if float_gt (execution_time usage)
                   (float_of_int64 (max_execution_time cfg))
       then [time_message cfg usage] else [])
   ++ (if (max_open_files cfg <? open_files usage)%Z
       then [files_message cfg usage] else [])
   ++ (if negb (network_access cfg) && (0 <? network_connections usage)%Z
       then [network_message usage] else []))%list.

(** [SecurityManager._check_resource_violations]: the violations are added
    to the monitor of the session, and the first critical one terminates
    the execution. *)
Definition _check_resource_violations (cfg : ResourceLimits)
    (session_id : string) (usage : ResourceUsage) (m : Manager) : Manager :=
  match violations_of cfg usage with
  | [] => m
  | violations =>
      let known :=
        match TestFramework.dict_get session_id (resource_monitors m) with
        | Some l => l
        | None => []
        end in
      let m1 :=
        {| active_processes := active_processes m;
           resource_monitors :=
             DockerExecutor.dict_set session_id (known ++ violations)%list
                                     (resource_monitors m);
           actions := actions m |} in
      match find is_critical violations with
      | Some violation =>
          terminate_execution session_id
                              ("Security violation: " ++ violation) m1
      | None => m1
      end
  end.

End Formatting.

(** *** Notions used by the properties *)

(** The usage exceeds no limit of the configuration: no measure is greater
    than its limit (a measure equal to its limit is not, and NaN is greater
    than nothing). *)
Definition within_limits (cfg : ResourceLimits) (usage : ResourceUsage)
  : Prop :=
  float_gt (memory_mb usage) (float_of_int64 (max_memory_mb cfg)) = false
  /\ float_gt (cpu_percent usage) (max_cpu_percent cfg) = false
  /\ float_gt (execution_time usage)
              (float_of_int64 (max_execution_time cfg)) = false
  /\ (open_files usage <= max_open_files cfg)%Z
  /\ (network_access cfg = true \/ (network_connections usage <= 0)%Z).

(** One of the limits whose violation is critical is exceeded: memory,
    execution time, or a network connection without network access. *)
Definition critical_excess (cfg : ResourceLimits) (usage : ResourceUsage)
  : bool :=
  float_gt (memory_mb usage) (float_of_int64 (max_memory_mb cfg))
  || float_gt (execution_time usage)
              (float_of_int64 (max_execution_time cfg))
  || (negb (network_access cfg) && (0 <? network_connections usage)%Z).

Local Abbreviation letters := SecurityFindings.chars.

(** Does the character occur in the text? *)
Definition occurs (c : ascii) (s : string) : bool :=
  existsb (Ascii.eqb c) (letters s).

(** A text without capital letters 'A' .. 'Z'. *)
Definition no_capital (s : string) : bool :=
  forallb (fun c => let n := nat_of_ascii c in
                    negb ((65 <=? n)%nat && (n <=? 90)%nat))
          (letters s).

(** *** Stand-ins for the formatting, for the sample runs *)

Definition digit (n : Z) : ascii := ascii_of_nat (48 + Z.to_nat (n mod 10)).

Fixpoint decimal (fuel : nat) (n : Z) : string :=
  match fuel with
  | O => EmptyString
  | S fuel' =>
      if (n <? 10)%Z then String (digit n) EmptyString
      else decimal fuel' (n / 10) ++ String (digit n) EmptyString
  end.

(** The decimal text of an integer. *)
Definition decimal_int (n : Z) : string :=
  if (n <? 0)%Z then "-" ++ decimal (S (Z.to_nat (Z.log2 (- n)))) (- n)
  else decimal (S (Z.to_nat (Z.log2 n))) n.

(** A non-negative number with one decimal, rounded half up; 'nan' for a
    float that stands for no number. *)
Definition one_decimal (x : float) : string :=
  match float_value x with
  | Some q =>
      let tenths :=
        ((2 * 10 * Qnum q + Zpos (Qden q)) / (2 * Zpos (Qden q)))%Z in
      decimal_int (tenths / 10) ++ "." ++ String (digit tenths) EmptyString
  | None => "nan"
  end.

Definition steady_process : Process :=
  {| terminate_raises := false; wait_answer := Exited; kill_raises := false |}.

End ResourceMonitor.

(** ** docker_executor.py: the registry of running containers *)
Module ExecutorRegistry.
Import PyStr DockerExecutor.


Section Stopping.

(** Does [container.stop(timeout=5)] followed by [container.remove()]
    raise? *)
Variable stop_raises : Container -> bool.

(** [DockerExecutor.stop_execution]: the returned flag and the registry
    afterwards. *)
Definition stop_execution (session_id : string)
    (registry : list (string * Container))
  : bool * list (string * Container) :=
  match TestFramework.dict_get session_id registry with
  | Some container =>
      if stop_raises container then (false, registry)
      else (true, dict_del session_id registry)
  | None => (false, registry)
  end.

(** [DockerExecutor.get_active_executions] *)
Definition get_active_executions (registry : list (string * Container))
  : list string :=
  map fst registry.

(** [DockerExecutor.cleanup_all]: the registry afterwards. *)
Definition cleanup_all (registry : list (string * Container))
  : list (string * Container) :=
  fold_left (fun d session_id => snd (stop_execution session_id d))
            (get_active_executions registry) registry.

End Stopping.


(** *** Notions used by the properties *)







(** A container of the sample runs whose stop fails: the one named
    'stuck'. *)
Definition stuck_only (c : Container) : bool :=
  String.eqb (container_name c) "stuck".

Definition container_named (n : string) : Container :=
  {| container_name := n; wait_answer := inr 0%Z; logs_stdout := "";
     logs_stderr := ""; stats_answer := None |}.

End ExecutorRegistry.

(** ** test_framework.py: the registry of test suites *)
Module TestSuites.
Import PyStr PerformanceAnalytics TestFramework.

(** [TestFramework.add_custom_test_suite] *)
Definition add_custom_test_suite (suite : TestSuite)
    (suites : list (string * TestSuite)) : list (string * TestSuite) :=
  DockerExecutor.dict_set (suite_algorithm_name suite) suite suites.

(** [TestFramework.get_available_test_suites] *)
Definition get_available_test_suites (suites : list (string * TestSuite))
  : list string :=
  map fst suites.

(** *** Notions used by the properties *)

(** A line of the log that the fallback reads as a passed test. *)
Definition passed_line (line : string) : bool :=
  contains "::" line && contains "PASSED" line.

(** Reading the report raised. *)
Definition report_raises {A : Type} (r : Report A) : bool :=
  match r with ReportRaises _ => true | _ => false end.

(** One of the three readings of [_parse_test_results] raises, so that the
    test results are taken from the log. *)
Definition fallback_used (container : TestContainer) : bool :=
  report_raises (test_report container)
  || report_raises (benchmark_report container)
  || report_raises (coverage_report container).

End TestSuites.

(** ** enhanced_server.py: the data of the benchmarks *)
Module Gateway.

(** The value returned by [_generate_test_data]: one of three dictionaries
    or a plain list. *)
Inductive TestData :=
| TwoSumData (nums : list Z) (target : Z)
| BinarySearchData (arr : list Z) (target : Z)
| ContainerWaterData (height : list Z)
| RangeData (values : list Z).

(** [list(range(n))]: empty for [n <= 0]. *)
Definition py_range (n : Z) : list Z := map Z.of_nat (seq 0 (Z.to_nat n)).

(** [EnhancedWebSocketServer._generate_test_data]; [//] and [%] are the
    floor division and its remainder. *)
Definition _generate_test_data (algorithm_name : string) (size : Z)
  : TestData :=
  if String.eqb algorithm_name "two_sum" then
    TwoSumData (py_range size) (size + size / 2)
  else if String.eqb algorithm_name "binary_search" then
    BinarySearchData (py_range size) (size / 2)
  else if String.eqb algorithm_name "container_water" then
    ContainerWaterData (map (fun i => (i mod 100 + 1)%Z) (py_range size))
  else RangeData (py_range size).

(** The sizes [handle_performance_benchmark] runs. *)
Definition input_sizes : list Z := [100; 500; 1000; 2500; 5000]%Z.

(** *** Notions used by the properties *)

(** Two different positions of the list hold numbers that add up to the
    target. *)
Definition has_pair (nums : list Z) (target : Z) : Prop :=
  exists i j a b,
    (i < j)%nat /\ nth_error nums i = Some a /\ nth_error nums j = Some b
    /\ (a + b = target)%Z.

End Gateway.

(** * Properties *)

(** ** Security validator *)
Section SecurityFacts.
Import PyStr SecurityManager.

Lemma risk_le_refl l : risk_le l l.
Proof. unfold risk_le; lia. Qed.

Lemma risk_le_trans a b c : risk_le a b -> risk_le b c -> risk_le a c.
Proof. unfold risk_le; lia. Qed.

Lemma risk_le_HIGH l : risk_le l HIGH.
Proof. destruct l; unfold risk_le; simpl; lia. Qed.

Lemma risk_HIGH_le l : risk_le HIGH l -> l = HIGH.
Proof. destruct l; unfold risk_le; simpl; intros; (reflexivity || lia). Qed.

Lemma escalate_ge l : risk_le l (escalate_to_medium l).
Proof. destruct l; unfold risk_le; simpl; lia. Qed.

Lemma escalate_medium l : risk_le MEDIUM (escalate_to_medium l).
Proof. destruct l; unfold risk_le; simpl; lia. Qed.

Lemma escalate_HIGH l : l = HIGH -> escalate_to_medium l = HIGH.
Proof. intros ->; reflexivity. Qed.

Lemma app_single_not_nil (A : Type) (l : list A) (x : A) :
  (l ++ [x])%list <> [].
Proof. destruct l; discriminate. Qed.

Lemma initial_report_ok : report_ok initial_report.
Proof.
  split; simpl.
  - split; [discriminate | intros H; now elim H].
  - discriminate.
  - intros H; now elim H.
Qed.

Lemma blocking_step_ok r item :
  report_ok {| safe := false; warnings := warnings r;
               blocked_items := blocked_items r ++ [item];
               risk_level := HIGH |}.
Proof.
  split; simpl.
  - split; [intros _; apply app_single_not_nil | reflexivity].
  - reflexivity.
  - intros _; apply risk_le_HIGH.
Qed.

Lemma warning_step_ok r item :
  report_ok r ->
  report_ok {| safe := safe r; warnings := warnings r ++ [item];
               blocked_items := blocked_items r;
               risk_level := escalate_to_medium (risk_level r) |}.
Proof.
  intros [Hsb Hhigh Hw]; split; simpl.
  - exact Hsb.
  - intros Hs; apply escalate_HIGH, Hhigh, Hs.
  - intros _; apply escalate_medium.
Qed.

Lemma check_blocked_function_ok code func :
  check_ok (fun r => check_blocked_function code r func).
Proof.
  split; intros r; unfold check_blocked_function;
    destruct (contains func code); simpl;
    auto using risk_le_refl, risk_le_HIGH, incl_refl, incl_appl,
               blocking_step_ok.
Qed.

Lemma check_suspicious_pattern_ok code pattern :
  check_ok (fun r => check_suspicious_pattern code r pattern).
Proof.
  split; intros r; unfold check_suspicious_pattern;
    destruct (contains pattern code); simpl;
    auto using risk_le_refl, escalate_ge, incl_refl, warning_step_ok.
Qed.

Lemma check_import_line_ok cfg line :
  check_ok (fun r => check_import_line cfg r line).
Proof.
  split; intros r; unfold check_import_line;
    destruct (unauthorized cfg line); simpl;
    auto using risk_le_refl, escalate_ge, incl_refl, warning_step_ok.
Qed.

Lemma check_file_operation_ok cfg code op :
  check_ok (fun r => check_file_operation cfg code r op).
Proof.
  split; intros r; unfold check_file_operation;
    destruct (contains op code); destruct (file_system_access cfg); simpl;
    auto using risk_le_refl, risk_le_HIGH, incl_refl, incl_appl,
               blocking_step_ok.
Qed.

Lemma Forall_map_intro (A B : Type) (P : B -> Prop) (f : A -> B) (l : list A) :
  (forall x, P (f x)) -> Forall P (map f l).
Proof. intros H; induction l; simpl; constructor; auto. Qed.

Lemma scan_checks_ok cfg code : Forall check_ok (scan_checks cfg code).
Proof.
  unfold scan_checks.
  repeat (apply Forall_app; split); apply Forall_map_intro; intros x.
  - apply check_blocked_function_ok.
  - apply check_suspicious_pattern_ok.
  - apply check_import_line_ok.
  - apply check_file_operation_ok.
Qed.

Lemma fold_left_map_checks (A : Type) (f : SecurityReport -> A -> SecurityReport)
      (l : list A) (r : SecurityReport) :
  apply_checks (map (fun x acc => f acc x) l) r = fold_left f l r.
Proof.
  unfold apply_checks; revert r; induction l; simpl; intros; auto.
Qed.

Lemma apply_checks_app cs1 cs2 r :
  apply_checks (cs1 ++ cs2) r = apply_checks cs2 (apply_checks cs1 r).
Proof. unfold apply_checks; apply fold_left_app. Qed.

(** The four loops of [validate_code_security] are the checks of
    [scan_checks] run in order. *)
Lemma validate_as_checks cfg code :
  validate_code_security cfg code
  = apply_checks (scan_checks cfg code) initial_report.
Proof.
  unfold validate_code_security, scan_checks.
  rewrite !apply_checks_app, !fold_left_map_checks. reflexivity.
Qed.

Lemma run_checks_last cs r d :
  last (run_checks r cs) d = apply_checks cs r.
Proof.
  revert r; induction cs as [|c cs IH]; intros r; [reflexivity|].
  change (run_checks r (c :: cs)) with (r :: run_checks (c r) cs).
  change (apply_checks (c :: cs) r) with (apply_checks cs (c r)).
  rewrite <- IH.
  destruct cs; reflexivity.
Qed.

Lemma run_checks_above cs :
  Forall check_ok cs ->
  forall r r', In r' (run_checks r cs) ->
               risk_le (risk_level r) (risk_level r').
Proof.
  induction 1 as [|c cs Hc _ IH]; intros r r' Hin; simpl in Hin.
  - destruct Hin as [<- | []]. apply risk_le_refl.
  - destruct Hin as [<- | Hin]; [apply risk_le_refl|].
    eapply risk_le_trans; [apply (step_risk _ Hc) | apply IH, Hin].
Qed.

Lemma run_checks_sorted cs :
  Forall check_ok cs ->
  forall r i j ri rj,
    (i <= j)%nat ->
    nth_error (run_checks r cs) i = Some ri ->
    nth_error (run_checks r cs) j = Some rj ->
    risk_le (risk_level ri) (risk_level rj).
Proof.
  induction 1 as [|c cs Hc Hcs IH]; intros r i j ri rj Hij Hi Hj.
  - destruct i, j; simpl in *; try lia.
    + injection Hi as <-; injection Hj as <-. apply risk_le_refl.
    + destruct j; discriminate.
    + destruct i; discriminate.
  - destruct i.
    + injection Hi as <-.
      apply (run_checks_above (c :: cs)); [constructor; assumption|].
      eapply nth_error_In, Hj.
    + destruct j; [lia|]. simpl in Hi, Hj.
      apply (IH (c r) i j); (assumption || lia).
Qed.

Lemma apply_checks_ok cs :
  Forall check_ok cs ->
  forall r, report_ok r -> report_ok (apply_checks cs r).
Proof.
  induction 1 as [|c cs Hc _ IH]; intros r Hr; [exact Hr|].
  apply IH, (step_ok _ Hc), Hr.
Qed.

Lemma apply_checks_blocked cs :
  Forall check_ok cs ->
  forall r, incl (blocked_items r) (blocked_items (apply_checks cs r)).
Proof.
  induction 1 as [|c cs Hc _ IH]; intros r; [apply incl_refl|].
  eapply incl_tran; [apply (step_blocked _ Hc) | apply IH].
Qed.

Lemma validate_report_ok cfg code :
  report_ok (validate_code_security cfg code).
Proof.
  rewrite validate_as_checks.
  apply apply_checks_ok; [apply scan_checks_ok | apply initial_report_ok].
Qed.

(** The loop over the denylist records every name it finds in the code. *)
Lemma blocked_loop_records code func l r :
  In func l -> contains func code = true ->
  In ("Blocked function: " ++ func)
     (blocked_items (fold_left (check_blocked_function code) l r)).
Proof.
  revert r; induction l as [|f l IH]; intros r Hin Hc; [destruct Hin|].
  simpl. destruct Hin as [-> | Hin]; [|apply IH; assumption].
  rewrite <- fold_left_map_checks.
  apply (apply_checks_blocked
           (map (fun x acc => check_blocked_function code acc x) l)).
  - apply Forall_map_intro; intros; apply check_blocked_function_ok.
  - unfold check_blocked_function; rewrite Hc; simpl.
    apply in_or_app; right; left; reflexivity.
Qed.

(** C3. A code string in which a name of the denylist occurs -- in
    particular one whose only disallowed construct is a single call of that
    name -- gets a report with [safe = false], risk level HIGH and an entry
    for that name in the blocked items. *)
Theorem blocked_call_is_rejected cfg code func :
  In func (blocked_functions cfg) ->
  contains func code = true ->
  let r := validate_code_security cfg code in
  safe r = false /\ risk_level r = HIGH
  /\ In ("Blocked function: " ++ func) (blocked_items r).
Proof.
  intros Hin Hc r.
  assert (Hitem : In ("Blocked function: " ++ func) (blocked_items r)).
  { subst r. unfold validate_code_security. cbv zeta.
    rewrite <- (fold_left_map_checks _ (check_file_operation cfg code)).
    rewrite <- (fold_left_map_checks _ (check_import_line cfg)).
    rewrite <- (fold_left_map_checks _ (check_suspicious_pattern code)).
    rewrite <- !apply_checks_app.
    apply apply_checks_blocked.
    - repeat (apply Forall_app; split); apply Forall_map_intro; intros x;
        auto using check_suspicious_pattern_ok, check_import_line_ok,
                   check_file_operation_ok.
    - apply blocked_loop_records; assumption. }
  destruct (validate_report_ok cfg code) as [Hsb Hhigh _]. fold r in Hsb, Hhigh.
  assert (Hs : safe r = false).
  { apply Hsb. intros E; rewrite E in Hitem; destruct Hitem. }
  auto.
Qed.

Lemma blocked_call_is_rejected_witness :
  let r := validate_code_security default_config "x = eval(y)" in
  safe r = false /\ risk_level r = HIGH
  /\ In "Blocked function: eval" (blocked_items r).
Proof.
  apply (blocked_call_is_rejected default_config "x = eval(y)" "eval").
  - simpl; auto.
  - vm_compute; reflexivity.
Defined.

(** C10. In every report, [safe] is false exactly when the list of blocked
    items is not empty, and an unsafe report has risk level HIGH. *)
Theorem unsafe_iff_blocked cfg code :
  let r := validate_code_security cfg code in
  (safe r = false <-> blocked_items r <> [])
  /\ (safe r = false -> risk_level r = HIGH).
Proof.
  destruct (validate_report_ok cfg code) as [Hsb Hhigh _]. split; assumption.
Qed.

Lemma unsafe_iff_blocked_witness :
  safe (validate_code_security default_config "f = open('a')") = false
  /\ blocked_items (validate_code_security default_config "f = open('a')")
     <> []
  /\ risk_level (validate_code_security default_config "f = open('a')") = HIGH.
Proof.
  destruct (unsafe_iff_blocked default_config "f = open('a')") as [Hiff Hhigh].
  assert (Hs : safe (validate_code_security default_config "f = open('a')")
               = false) by (vm_compute; reflexivity).
  split; [exact Hs|]. split; [apply Hiff, Hs | apply Hhigh, Hs].
Defined.

(** C9. Within one scan the risk level never goes down from one check to a
    later one: the reports after the successive checks, from the initial
    report to the returned one, carry non-decreasing levels; and the level
    of the returned report is at least the severity of every finding
    recorded in it. *)
Theorem risk_level_monotonic cfg code :
  (forall i j ri rj,
      (i <= j)%nat ->
      nth_error (scan_trace cfg code) i = Some ri ->
      nth_error (scan_trace cfg code) j = Some rj ->
      risk_le (risk_level ri) (risk_level rj))
  /\ hd_error (scan_trace cfg code) = Some initial_report
  /\ last (scan_trace cfg code) initial_report
     = validate_code_security cfg code
  /\ (forall f, In f (findings (validate_code_security cfg code)) ->
                risk_le (severity f)
                        (risk_level (validate_code_security cfg code))).
Proof.
  split; [|split; [|split]].
  - intros i j ri rj. apply run_checks_sorted, scan_checks_ok.
  - unfold scan_trace. destruct (scan_checks cfg code); reflexivity.
  - unfold scan_trace. rewrite run_checks_last. symmetry.
    apply validate_as_checks.
  - intros f Hf. destruct (validate_report_ok cfg code) as [Hsb Hhigh Hw].
    unfold findings in Hf. apply in_app_or in Hf.
    destruct Hf as [Hf | Hf]; apply in_map_iff in Hf;
      destruct Hf as (s & <- & Hs); simpl.
    + apply Hw. intros E; rewrite E in Hs; destruct Hs.
    + rewrite Hhigh; [apply risk_le_refl|].
      apply Hsb. intros E; rewrite E in Hs; destruct Hs.
Qed.

Lemma risk_level_monotonic_witness :
  map risk_level (scan_trace default_config "getattr(x); f.read()")
  = (repeat LOW 26 ++ repeat MEDIUM 6 ++ repeat HIGH 2)%list
  /\ risk_le (risk_level initial_report)
             (risk_level (validate_code_security default_config
                                                 "getattr(x); f.read()"))
  /\ risk_le (severity (Warning "Suspicious pattern: getattr"))
             (risk_level (validate_code_security default_config
                                                 "getattr(x); f.read()")).
Proof.
  destruct (risk_level_monotonic default_config "getattr(x); f.read()")
    as (Hmono & _ & _ & Hsev).
  split; [vm_compute; reflexivity|]. split.
  - apply (Hmono 0%nat 33%nat initial_report
                  (validate_code_security default_config
                                          "getattr(x); f.read()"));
      [lia | vm_compute; reflexivity | vm_compute; reflexivity].
  - apply Hsev. vm_compute. left. reflexivity.
Defined.

Lemma mem_In x l : mem x l = true <-> In x l.
Proof.
  unfold mem. rewrite existsb_exists. split.
  - intros (y & Hy & E). apply String.eqb_eq in E. subst. exact Hy.
  - intros H. exists x. split; [exact H | apply String.eqb_refl].
Qed.

Lemma fold_left_id (A B : Type) (f : A -> B -> A) (l : list B) (a : A) :
  (forall x, In x l -> forall r, f r x = r) -> fold_left f l a = a.
Proof.
  revert a; induction l as [|x l IH]; intros a H; simpl; [reflexivity|].
  rewrite (H x (or_introl eq_refl)). apply IH.
  intros y Hy; apply H; right; exact Hy.
Qed.

(** C4 (as the code has it). When none of the denylisted names, suspicious
    patterns and file-operation patterns occurs in the text, and every line
    that begins -- once stripped -- with "import " or "from " names as its
    first token, cut at the first dot, a module of the allowlist (or
    nothing), the report has risk level LOW: it is the initial report, safe
    and without findings. *)
Theorem clean_code_is_low cfg code :
  (forall f, In f (blocked_functions cfg) -> contains f code = false) ->
  (forall p, In p suspicious_patterns -> contains p code = false) ->
  (forall o, In o file_operations -> contains o code = false) ->
  (forall line m,
      In line (import_lines code) ->
      _extract_module_name line = Some m ->
      m = EmptyString \/ In m (allowed_imports cfg)) ->
  risk_level (validate_code_security cfg code) = LOW
  /\ validate_code_security cfg code = initial_report.
Proof.
  intros Hb Hs Hf Hi.
  assert (E : validate_code_security cfg code = initial_report).
  { unfold validate_code_security. cbv zeta.
    rewrite (fold_left_id _ _ (check_blocked_function code)).
    2:{ intros f Hin r. unfold check_blocked_function. now rewrite Hb. }
    rewrite (fold_left_id _ _ (check_suspicious_pattern code)).
    2:{ intros p Hin r. unfold check_suspicious_pattern. now rewrite Hs. }
    rewrite (fold_left_id _ _ (check_import_line cfg)).
    2:{ intros l Hin r. unfold check_import_line, unauthorized.
        destruct (_extract_module_name l) as [m|] eqn:Hm; [|reflexivity].
        destruct (Hi l m Hin Hm) as [-> | Hallowed]; [reflexivity|].
        apply mem_In in Hallowed. rewrite Hallowed.
        rewrite andb_false_r. reflexivity. }
    apply fold_left_id.
    intros o Hin r. unfold check_file_operation. now rewrite Hf. }
  rewrite E. split; reflexivity.
Qed.

Ltac each_member H :=
  simpl in H;
  repeat (destruct H as [<- | H]; [vm_compute; reflexivity|]);
  destruct H.

Lemma clean_code_is_low_witness :
  risk_level (validate_code_security default_config
                "from collections import deque") = LOW
  /\ validate_code_security default_config "from collections import deque"
     = initial_report.
Proof.
  apply (clean_code_is_low default_config "from collections import deque").
  - intros f Hf. each_member Hf.
  - intros p Hp. each_member Hp.
  - intros o Ho. each_member Ho.
  - intros line m Hl Hm. right.
    change (import_lines "from collections import deque")
      with ["from collections import deque"] in Hl.
    destruct Hl as [<- | []].
    change (_extract_module_name "from collections import deque")
      with (Some "collections") in Hm.
    injection Hm as <-. simpl. auto 10.
Defined.

(** C4 as stated fails on legal code that only imports allowlisted modules
    and contains no denylisted name, suspicious pattern or file operation:
    a docstring line that begins with "from" is read as an import of its
    second word, and of [import math, json] the name ["math,"] is looked up;
    both reports carry a warning and risk level MEDIUM. *)
Lemma allowlisted_imports_counterexample :
  (forall f, In f (blocked_functions default_config ++ suspicious_patterns
                   ++ file_operations)%list ->
             contains f docstring_sample = false
             /\ contains f import_list_sample = false)
  /\ validate_code_security default_config docstring_sample
     = {| safe := true;
          warnings := ["Unauthorized import: the"];
          blocked_items := [];
          risk_level := MEDIUM |}
  /\ _extract_module_name import_list_sample = Some "math,"
  /\ validate_code_security default_config import_list_sample
     = {| safe := true;
          warnings := ["Unauthorized import: math,"];
          blocked_items := [];
          risk_level := MEDIUM |}.
Proof.
  split; [|split; [|split]].
  - intros f Hf. simpl in Hf.
    repeat (destruct Hf as [<- | Hf]; [split; vm_compute; reflexivity|]).
    destruct Hf.
  - vm_compute; reflexivity.
  - vm_compute; reflexivity.
  - vm_compute; reflexivity.
Qed.

End SecurityFacts.

(** ** Regression detector *)
Section RegressionFacts.
Import PerformanceAnalytics.

Lemma Qgtb_true a b : Qgtb a b = true <-> (b < a)%Q.
Proof.
  unfold Qgtb. rewrite negb_true_iff. split.
  - intros H. apply Qnot_le_lt. intros Hle.
    apply Qle_bool_iff in Hle. congruence.
  - intros H. destruct (Qle_bool a b) eqn:E; [|reflexivity].
    apply Qle_bool_iff in E. exfalso. apply (Qlt_not_le _ _ H E).
Qed.

Lemma Qgtb_false a b : Qgtb a b = false <-> (a <= b)%Q.
Proof.
  unfold Qgtb. rewrite negb_false_iff. apply Qle_bool_iff.
Qed.










End RegressionFacts.

(** ** The order of the floats *)
Section FloatOrder.
Import PerformanceAnalytics.

(** Splits the comparisons of exponents and mantissas in the goal and its
    premises, and closes the case by arithmetic. *)
Ltac compare_cases :=
  repeat match goal with
         | H : context [Pos.compare_cont Eq ?x ?y] |- _ =>
             change (Pos.compare_cont Eq x y) with (Pos.compare x y) in H
         | |- context [Pos.compare_cont Eq ?x ?y] =>
             change (Pos.compare_cont Eq x y) with (Pos.compare x y)
         end;
  repeat match goal with
         | H : context [Z.compare ?x ?y] |- _ =>
             destruct (Z.compare_spec x y); simpl in H; try discriminate
         | H : context [Pos.compare ?x ?y] |- _ =>
             destruct (Pos.compare_spec x y); simpl in H; try discriminate
         | |- context [Z.compare ?x ?y] =>
             destruct (Z.compare_spec x y); simpl
         | |- context [Pos.compare ?x ?y] =>
             destruct (Pos.compare_spec x y); simpl
         end;
  subst; try reflexivity; try discriminate; try lia; auto.

Lemma SFltb_trans a b c :
  SFltb a b = true -> SFltb b c = true -> SFltb a c = true.
Proof.
  unfold SFltb, SFcompare.
  destruct a as [sa | sa | | sa ma ea], b as [sb | sb | | sb mb eb],
    c as [sc | sc | | sc mc ec];
    try destruct sa; try destruct sb; try destruct sc;
    intros H1 H2; try discriminate; try reflexivity; compare_cases.
Qed.

(** If [r] is not greater than [b] and [b] is less than [c], then [r] is
    less than [c], unless [r] is NaN. *)
Lemma SFltb_not_gt a r c :
  SFltb a r = false -> SFltb a c = true ->
  SFltb r c = true \/ r = S754_nan.
Proof.
  unfold SFltb, SFcompare.
  destruct a as [sa | sa | | sa ma ea], r as [sr | sr | | sr mr er],
    c as [sc | sc | | sc mc ec];
    try destruct sa; try destruct sr; try destruct sc;
    intros H1 H2; try discriminate; try (right; reflexivity);
    left; try reflexivity; compare_cases.
Qed.

Lemma float_lt_trans a b c :
  float_lt a b = true -> float_lt b c = true -> float_lt a c = true.
Proof. unfold float_lt. rewrite !ltb_spec. apply SFltb_trans. Qed.

Lemma float_lt_nan_right a r :
  Prim2SF r = S754_nan -> float_lt a r = false.
Proof.
  unfold float_lt. rewrite ltb_spec. intros ->.
  unfold SFltb, SFcompare. destruct (Prim2SF a); reflexivity.
Qed.

(** If [r] is not greater than [b], [b] is less than [c] and [r] is greater
    than some float, then [r] is less than [c]. *)
Lemma float_lt_of_not_gt a r c low :
  float_gt r a = false -> float_lt a c = true -> float_gt r low = true ->
  float_lt r c = true.
Proof.
  intros H1 H2 H3.
  pose proof (float_lt_nan_right low r) as Hnan.
  unfold float_gt, float_lt in *.
  rewrite ltb_spec in H1, H2. rewrite ltb_spec.
  destruct (SFltb_not_gt _ _ _ H1 H2) as [H | H]; [exact H|].
  rewrite (Hnan H) in H3. discriminate.
Qed.

End FloatOrder.

(** ** Complexity fit *)
Section FitFacts.
Import PerformanceAnalytics ComplexityAnalyzer.

Variable np_log2 : Z -> float.
Variable np_sqrt : nat -> float.
Variable np_square : float -> float.
Variable linregress : NpArray -> list float -> option LinregressResult.

Local Abbreviation candidates := (complexity_functions np_log2).
Local Abbreviation step := (fit_step np_square linregress).
Local Abbreviation evaluated_of := (evaluated_among np_square linregress).

Lemma evaluated_among_app cands1 cands2 sizes times :
  evaluated_of (cands1 ++ cands2) sizes times
  = (evaluated_of cands1 sizes times ++ evaluated_of cands2 sizes times)%list.
Proof. unfold evaluated_among. apply flat_map_app. Qed.

(** The loop keeps the first maximum of the selectable candidates seen so
    far. *)
Lemma fit_loop_invariant sizes times cands :
  loop_inv (fold_left (step sizes times) cands initial_best)
           (evaluated_of cands sizes times).
Proof.
  induction cands as [|cand cands IH] using rev_ind.
  - left; split; [reflexivity | intros c r []].
  - rewrite fold_left_app, evaluated_among_app. simpl fold_left.
    set (best := fold_left (step sizes times) cands initial_best) in *.
    set (ev := evaluated_of cands sizes times) in *.
    unfold evaluated_among at 1, fit_step. simpl flat_map.
    destruct (fit_candidate linregress sizes times cand) as [[lr vals]|].
    2:{ rewrite !app_nil_r. exact IH. }
    rewrite app_nil_r. cbv zeta.
    destruct (float_gt (np_square (r_value lr)) (b_r_squared best)) eqn:Hgt.
    + right. exists ev, [], (fst cand). cbn [b_r_squared b_fit].
      split; [reflexivity|]. split; [reflexivity|].
      destruct IH as [[Hbest Hnone]
                     | (pre & post & c & Hev & _ & Hsel & Hpre & Hpost)].
      * split; [rewrite Hbest in Hgt; exact Hgt|].
        split; [|intros ? ? []].
        intros c' r Hin Hr. rewrite (Hnone _ _ Hin) in Hr. discriminate.
      * split; [apply (float_lt_trans _ _ _ Hsel Hgt)|].
        split; [|intros ? ? []].
        intros c' r Hin Hr. rewrite Hev in Hin. apply in_app_or in Hin.
        destruct Hin as [Hin | [Hin | Hin]].
        -- apply (float_lt_trans _ _ _ (Hpre _ _ Hin Hr) Hgt).
        -- injection Hin as _ <-. exact Hgt.
        -- apply (float_lt_of_not_gt _ _ _ _ (Hpost _ _ Hin) Hgt Hr).
    + destruct IH as [[Hbest Hnone]
                     | (pre & post & c & Hev & Hfit & Hsel & Hpre & Hpost)].
      * left. split; [exact Hbest|].
        intros c' r Hin. apply in_app_or in Hin.
        destruct Hin as [Hin | [Hin | []]]; [apply (Hnone _ _ Hin)|].
        injection Hin as _ <-. rewrite Hbest in Hgt. exact Hgt.
      * right.
        exists pre, (post ++ [(fst cand, np_square (r_value lr))])%list, c.
        split; [rewrite Hev, <- app_assoc; reflexivity|].
        split; [exact Hfit|]. split; [exact Hsel|]. split; [exact Hpre|].
        intros c' r Hin. apply in_app_or in Hin.
        destruct Hin as [Hin | [Hin | []]]; [apply (Hpost _ _ Hin)|].
        injection Hin as _ <-. exact Hgt.
Qed.

(** The evaluated candidates keep the order of the table. *)
Lemma evaluated_subsequence sizes times cands :
  subsequence (map fst (evaluated_of cands sizes times)) (map fst cands).
Proof.
  induction cands as [|cand cands IH]; [constructor|].
  unfold evaluated_among in *. simpl.
  destruct (fit_candidate linregress sizes times cand) as [[lr vals]|]; simpl.
  - apply sub_take, IH.
  - apply sub_skip, IH.
Qed.

Lemma evaluated_was_fitted sizes times cands c :
  In c (map fst (evaluated_of cands sizes times)) ->
  exists cand, In cand cands /\ fst cand = c
               /\ fit_candidate linregress sizes times cand <> None.
Proof.
  induction cands as [|cand cands IH]; [intros []|].
  unfold evaluated_among in *. simpl. rewrite map_app. intros Hin.
  apply in_app_or in Hin. destruct Hin as [Hin | Hin].
  - exists cand.
    destruct (fit_candidate linregress sizes times cand) as [[lr vals]|];
      [|destruct Hin].
    destruct Hin as [<- | []]. split; [left; reflexivity|].
    split; [reflexivity | discriminate].
  - destruct (IH Hin) as (cand' & Hc & Hf & Hn).
    exists cand'. split; [right; exact Hc | split; assumption].
Qed.

(** C7 (as the code has it). With at least three observations: the
    candidates evaluated come in the order of the enumeration. An R^2 can be
    selected when it is greater than -1, which NaN is not. When an
    evaluated candidate has such an R^2, the returned label is an evaluated
    candidate with such an R^2 that no evaluated candidate exceeds, and
    every evaluated candidate before it in the enumeration that could be
    selected has a strictly smaller R^2. When no evaluated candidate has
    such an R^2 -- none was evaluated, or every regression gave NaN -- the
    returned label is the default 'O(n)'. And 'O(2^n)' is not evaluated
    when the largest input size exceeds 20. *)
Theorem best_fit_is_first_maximum sizes times :
  (3 <= length sizes)%nat ->
  let fit := analyze_time_complexity np_log2 np_sqrt np_square linregress
                                     sizes times in
  let ev := evaluated np_log2 np_square linregress sizes times in
  subsequence (map fst ev) enumeration
  /\ ((exists c r, In (c, r) ev /\ selectable r = true) ->
      exists pre post,
        ev = (pre ++ (best_fit fit, r_squared fit) :: post)%list
        /\ selectable (r_squared fit) = true
        /\ (forall c r, In (c, r) pre -> selectable r = true ->
                        float_lt r (r_squared fit) = true)
        /\ (forall c r, In (c, r) post ->
                        float_gt r (r_squared fit) = false))
  /\ ((forall c r, In (c, r) ev -> selectable r = false) ->
      best_fit fit = O_n)
  /\ ((20 < list_max sizes)%Z -> ~ In O_2n (map fst ev)).
Proof.
  intros Hlen fit ev.
  assert (Hfit : fit =
    let best := fold_left (step sizes times) candidates initial_best in
    {| best_fit := match b_fit best with Some c => c | None => O_n end;
       r_squared := b_r_squared best;
       coefficients := b_coeffs best;
       residuals := b_residuals best;
       confidence_interval :=
         _calculate_confidence_interval np_sqrt (b_r_squared best)
                                        (length sizes) |}).
  { subst fit. unfold analyze_time_complexity.
    destruct (Nat.ltb_spec (length sizes) 3); [lia | reflexivity]. }
  pose proof (fit_loop_invariant sizes times candidates) as Hinv.
  fold (evaluated np_log2 np_square linregress sizes times) in Hinv.
  fold ev in Hinv.
  split; [|split; [|split]].
  - apply (evaluated_subsequence sizes times candidates).
  - intros (c0 & r0 & Hin0 & Hsel0).
    destruct Hinv as [[_ Hnone]
                     | (pre & post & c & Hev & Hc & Hsel & Hpre & Hpost)].
    { rewrite (Hnone _ _ Hin0) in Hsel0. discriminate. }
    exists pre, post. rewrite Hfit. cbv zeta. cbn [best_fit r_squared].
    rewrite Hc. auto.
  - intros Hnone.
    destruct Hinv as [[Hbest _] | (pre & post & c & Hev & _ & Hsel & _)].
    + rewrite Hfit. cbv zeta. cbn [best_fit r_squared].
      rewrite Hbest. reflexivity.
    + rewrite (Hnone c (b_r_squared
                          (fold_left (step sizes times) candidates
                                     initial_best))) in Hsel;
        [discriminate|].
      rewrite Hev. apply in_or_app. right. left. reflexivity.
  - intros Hmax Hin.
    apply evaluated_was_fitted in Hin.
    destruct Hin as (cand & _ & Hc & Hn).
    apply Hn. unfold fit_candidate. rewrite Hc. simpl.
    apply Z.ltb_lt in Hmax. rewrite Hmax. reflexivity.
Qed.

(** C8. With fewer than three observations the fit returns, without
    evaluating any candidate, the default [ComplexityFit] with label 'O(n)',
    R^2 = 0 and no coefficients, residuals or interval. *)
Theorem too_few_observations_default sizes times :
  (length sizes < 3)%nat ->
  analyze_time_complexity np_log2 np_sqrt np_square linregress sizes times
  = {| best_fit := O_n; r_squared := 0; coefficients := [];
       residuals := []; confidence_interval := [] |}.
Proof.
  intros H. unfold analyze_time_complexity.
  destruct (Nat.ltb_spec (length sizes) 3); [reflexivity | lia].
Qed.

End FitFacts.

Section FitRuns.
Import PerformanceAnalytics ComplexityAnalyzer.

Lemma best_fit_is_first_maximum_witness :
  let sizes := [1; 2; 3; 4]%Z in
  let times := [2; 4; 6; 8]%float in
  let fit := analyze_time_complexity log2_floor sqrt_floor square
                                     linregress_model sizes times in
  let ev := evaluated log2_floor square linregress_model sizes times in
  (best_fit fit = O_n /\ r_squared fit = 1%float)
  /\ subsequence (map fst ev) enumeration
  /\ ((exists c r, In (c, r) ev /\ selectable r = true) ->
      exists pre post,
        ev = (pre ++ (best_fit fit, r_squared fit) :: post)%list
        /\ selectable (r_squared fit) = true
        /\ (forall c r, In (c, r) pre -> selectable r = true ->
                        float_lt r (r_squared fit) = true)
        /\ (forall c r, In (c, r) post ->
                        float_gt r (r_squared fit) = false))
  /\ ((forall c r, In (c, r) ev -> selectable r = false) ->
      best_fit fit = O_n)
  /\ ((20 < list_max sizes)%Z -> ~ In O_2n (map fst ev)).
Proof.
  cbv zeta. split; [split; vm_compute; reflexivity|].
  apply (best_fit_is_first_maximum log2_floor sqrt_floor square
           linregress_model [1; 2; 3; 4]%Z [2; 4; 6; 8]%float).
  simpl; lia.
Defined.

(** C7 as stated fails when no candidate can be selected. The regression
    raises for every candidate when the two lists differ in length, and
    when all input sizes are the same (scipy refuses identical x values):
    no candidate is evaluated. And when all the metric values are the same,
    the regression of every candidate it accepts gives NaN as correlation:
    six candidates are evaluated and none is selected. The fit is then the
    default 'O(n)', which is not an evaluated candidate in the first two
    cases and not the candidate of the highest R^2 in the third. *)
Lemma best_fit_counterexample :
  (let sizes := [1; 2; 3]%Z in
   let times := [1; 2]%float in
   (3 <= length sizes)%nat
   /\ evaluated log2_floor square linregress_model sizes times = []
   /\ best_fit (analyze_time_complexity log2_floor sqrt_floor square
                                        linregress_model sizes times) = O_n)
  /\ (let sizes := [5; 5; 5]%Z in
      let times := [1; 2; 3]%float in
      (3 <= length sizes)%nat
      /\ evaluated log2_floor square linregress_model sizes times = []
      /\ best_fit (analyze_time_complexity log2_floor sqrt_floor square
                                           linregress_model sizes times)
         = O_n)
  /\ (let sizes := [1; 2; 4; 8]%Z in
      let times := [5; 5; 5; 5]%float in
      let fit := analyze_time_complexity log2_floor sqrt_floor square
                                         linregress_model sizes times in
      let ev := evaluated log2_floor square linregress_model sizes times in
      map fst ev = [O_log_n; O_n; O_n_log_n; O_n2; O_n3; O_2n]
      /\ forallb (fun cr => PrimFloat.is_nan (snd cr)) ev = true
      /\ best_fit fit = O_n
      /\ r_squared fit = (-1)%float).
Proof.
  cbv zeta. split; [|split].
  - split; [simpl; lia|]. split; vm_compute; reflexivity.
  - split; [simpl; lia|]. split; vm_compute; reflexivity.
  - repeat split; vm_compute; reflexivity.
Qed.

Lemma too_few_observations_default_witness :
  (length [100; 500]%Z < 3)%nat
  /\ analyze_time_complexity log2_floor sqrt_floor square linregress_model
                             [100; 500]%Z [1; 2]%float
     = {| best_fit := O_n; r_squared := 0; coefficients := [];
          residuals := []; confidence_interval := [] |}.
Proof.
  split; [simpl; lia|].
  apply (too_few_observations_default log2_floor sqrt_floor square
           linregress_model [100; 500]%Z [1; 2]%float).
  simpl; lia.
Defined.

End FitRuns.

(** ** Sandbox executor *)
Section ExecutorFacts.
Import DockerExecutor.

(** C2 as stated fails after the sandbox has started. An algorithm that
    raises an exception without a message gives a result with
    [success = false] and the empty error message. A [container.wait] that
    raises after the container was started, and a [ContainerError] handled
    by [_monitor_execution], give a result with [success = false] and the
    empty metrics of [_get_empty_metrics], although the statistics of the
    started container were available. *)
Lemma failure_after_start_counterexample :
  (let (r, s) := run_execute world_empty_message
                             "def f(x): raise ValueError()" "[1]" "f" "s1" in
   sandbox_started s = true
   /\ exists res, r = Returns res /\ success res = false
                  /\ error res = Some EmptyString
                  /\ nonempty_error res = false)
  /\ (let (r, s) := run_execute world_wait_raises
                                "def f(x): return x" "[1]" "f" "s1" in
      sandbox_started s = true
      /\ exists res, r = Returns res /\ success res = false
                     /\ resource_metrics res = _get_empty_metrics)
  /\ (let (r, s) := run_execute world_container_error
                                "def f(x): return x" "[1]" "f" "s1" in
      sandbox_started s = true
      /\ exists res, r = Returns res /\ success res = false
                     /\ error res = Some "Container error: exit 137"
                     /\ resource_metrics res = _get_empty_metrics).
Proof.
  split; [|split].
  - vm_compute. split; [reflexivity|]. eexists. repeat split.
  - vm_compute. split; [reflexivity|]. eexists. repeat split.
  - vm_compute. split; [reflexivity|]. eexists. repeat split.
Qed.

(** Closes a case of the analysis of a call: the premises that do not hold
    in the case are refuted, the others are computed with. *)
Ltac close_call_case :=
  repeat split; intros;
  repeat match goal with
         | H : Some _ = Some _ |- _ => injection H as H
         | H : inr _ = inr _ |- _ => injection H as H
         | H : inl _ = inl _ |- _ => injection H as H
         | H : JsonObject _ = JsonObject _ |- _ => injection H as H
         | H : _ = _ |- _ => discriminate H
         end;
  subst; cbn in *;
  repeat match goal with
         | Hf : ?f ?x = _, H : context [match ?f ?x with _ => _ end] |- _ =>
             rewrite Hf in H
         end;
  unfold unparsed_payload in *;
  repeat match goal with
         | H : Some _ = Some _ |- _ => injection H as H
         | H : JsonObject _ = JsonObject _ |- _ => injection H as H
         | H : _ = _ |- _ => discriminate H
         end;
  subst; cbn in *;
  repeat match goal with
         | H : Some _ = Some _ |- _ => injection H as H
         | H : _ = _ |- _ => discriminate H
         end;
  subst;
  try congruence;
  try (eexists; repeat split; reflexivity).

(** C2 (as the code has it). A failure before the sandbox has started --
    [mkdtemp], the writing of the scripts or [containers.run] raises [e] --
    gives the result with [success = false], the error message [str(e)] and
    the zeroed metrics of [_get_empty_metrics]. When the sandbox has started
    and its run ends with a failure payload (the algorithm raised) or with an
    unparsable last line, the result has [success = false], the error entry
    of the payload -- 'Failed to parse execution result' for a parse error
    -- and the metrics collected from the statistics of the container, which
    are the zeroed ones only when collecting them fails. *)
Theorem failed_result_contents w code data name sid :
  let (r, s) := run_execute w code data name sid in
  (forall e, raised_before_start w = Some e ->
             sandbox_started s = false /\ r = Returns (failure_result e))
  /\ (forall c status o res0 t,
        started_container w = Some c ->
        wait_answer c = inr status ->
        payload_of w c = JsonObject o ->
        p_success o = Some false ->
        p_result o = Some res0 ->
        p_execution_time o = Some t ->
        sandbox_started s = true
        /\ exists res,
             r = Returns res /\ success res = false
             /\ error res = p_error o
             /\ resource_metrics res = collected_metrics w c)
  /\ (forall c status,
        started_container w = Some c ->
        wait_answer c = inr status ->
        json_loads w (last_line (logs_stdout c)) = None ->
        sandbox_started s = true
        /\ exists res,
             r = Returns res /\ success res = false
             /\ error res = Some "Failed to parse execution result"
             /\ resource_metrics res = collected_metrics w c).
Proof.
  unfold run_execute, execute_algorithm, try_finally, try_except, bind,
    prepare, _create_container, register, _monitor_execution, try_except,
    _collect_resource_metrics, payload_of, log, perf_counter, subscript,
    ret, raise, bind, cleanup, initial_state,
    raised_before_start, started_container, collected_metrics.
  destruct w as [mk wr clock run loads]. cbn.
  destruct mk as [e0|]; cbn; [close_call_case|].
  destruct wr as [e0|]; cbn; [close_call_case|].
  destruct (run 0%nat) as [e0 | c] eqn:Hrun; cbn; [close_call_case|].
  destruct c as [cname cwait cout cerr cstats]; cbn.
  destruct cwait as [[msg status | msg] | status]; cbn;
    [close_call_case | close_call_case |].
  match goal with
  | |- context [loads ?line] =>
      destruct (loads line) as [[o | attr]|] eqn:Hloads
  end; cbn;
    destruct cstats as [st|]; cbn;
    try destruct o as [[ok|] [res|] err [time|] mem]; cbn;
    close_call_case.
Qed.

Lemma failed_result_contents_witness :
  fst (run_execute world_first_run_fails "def f(x): return x" "[1]" "f" "s1")
  = Returns (failure_result
               (OtherException "Cannot connect to the Docker daemon"))
  /\ (exists res,
        fst (run_execute world_empty_message
                         "def f(x): raise ValueError()" "[1]" "f" "s1")
        = Returns res
        /\ success res = false
        /\ error res = Some EmptyString
        /\ resource_metrics res
           = metrics_of_stats sample_stats (1 - 0)%Q)
  /\ (exists res,
        fst (run_execute world_unparsable_output
                         "def f(x): return x" "[1]" "f" "s1")
        = Returns res
        /\ success res = false
        /\ error res = Some "Failed to parse execution result"
        /\ resource_metrics res
           = metrics_of_stats sample_stats (1 - 0)%Q).
Proof.
  split; [|split].
  - pose proof (failed_result_contents world_first_run_fails
                  "def f(x): return x" "[1]" "f" "s1") as H.
    destruct (run_execute world_first_run_fails
                          "def f(x): return x" "[1]" "f" "s1") as [r s].
    destruct H as (H & _ & _).
    apply (H (OtherException "Cannot connect to the Docker daemon") eq_refl).
  - pose proof (failed_result_contents world_empty_message
                  "def f(x): raise ValueError()" "[1]" "f" "s1") as H.
    destruct (run_execute world_empty_message
                          "def f(x): raise ValueError()" "[1]" "f" "s1")
      as [r s].
    destruct H as (_ & H & _).
    destruct (H (container_printing "{...}") 0%Z
                {| p_success := Some false; p_result := Some None;
                   p_error := Some EmptyString; p_execution_time := Some 0%Q;
                   p_memory_peak := Some 0%Z |}
                None 0%Q eq_refl eq_refl eq_refl eq_refl eq_refl eq_refl)
      as (_ & res & Hr & Hs & He & Hm).
    exists res. repeat split; assumption.
  - pose proof (failed_result_contents world_unparsable_output
                  "def f(x): return x" "[1]" "f" "s1") as H.
    destruct (run_execute world_unparsable_output
                          "def f(x): return x" "[1]" "f" "s1") as [r s].
    destruct H as (_ & _ & H).
    destruct (H (container_printing "Killed") 0%Z eq_refl eq_refl eq_refl)
      as (_ & res & Hr & Hs & He & Hm).
    exists res. repeat split; assumption.
Defined.

(** Closes a case in which the creation of the container did not fail. *)
Ltac no_creation_failure :=
  split; [eexists; reflexivity|];
  split; [lia|];
  split; [lia|];
  intros; discriminate.

(** C5 (as the code has it). [execute_algorithm] always returns a result;
    it calls [containers.run] at most once and waits for the container at
    most once, whatever fails; and when the single creation attempt fails
    with an exception [e], the failure is surfaced at once as the result
    [success = false, error = str(e)], without a second attempt. *)
Theorem sandbox_creation_not_retried w code data name sid :
  let (r, s) := run_execute w code data name sid in
  (exists res, r = Returns res)
  /\ (occurrences EvContainersRun (trace s) <= 1)%nat
  /\ (occurrences EvWait (trace s) <= 1)%nat
  /\ (forall e,
        mkdtemp_answer w = None -> write_answer w = None ->
        containers_run_answer w 0 = inl e ->
        r = Returns (failure_result e)
        /\ occurrences EvContainersRun (trace s) = 1%nat
        /\ run_calls s = 1%nat
        /\ sandbox_started s = false).
Proof.
  unfold run_execute, execute_algorithm, try_finally, try_except, bind,
    prepare, _create_container, register, _monitor_execution, try_except,
    _collect_resource_metrics, payload_of, log, perf_counter, subscript,
    ret, raise, bind, cleanup, initial_state.
  destruct w as [mk wr clock run loads]. cbn.
  destruct mk as [e0|]; cbn; [no_creation_failure|].
  destruct wr as [e0|]; cbn; [no_creation_failure|].
  destruct (run 0%nat) as [e0 | c] eqn:Hrun; cbn.
  { split; [eexists; reflexivity|]. split; [lia|]. split; [lia|].
    intros e _ _ He. injection He as <-. repeat split. }
  destruct c as [cname cwait cout cerr cstats]; cbn.
  destruct cwait as [[msg status | msg] | status]; cbn;
    [no_creation_failure | no_creation_failure |].
  match goal with
  | |- context [loads ?line] => destruct (loads line) as [[o | attr]|]
  end; cbn;
    destruct cstats as [st|]; cbn;
    try destruct o as [[ok|] [res|] err [time|] mem]; cbn;
    no_creation_failure.
Qed.

Lemma sandbox_creation_not_retried_witness :
  fst (run_execute world_first_run_fails "def f(x): return x" "[1]" "f" "s1")
  = Returns (failure_result
               (OtherException "Cannot connect to the Docker daemon"))
  /\ occurrences EvContainersRun
       (trace (snd (run_execute world_first_run_fails
                                "def f(x): return x" "[1]" "f" "s1")))
     = 1%nat.
Proof.
  pose proof (sandbox_creation_not_retried
                world_first_run_fails "def f(x): return x" "[1]" "f" "s1")
    as H.
  destruct (run_execute world_first_run_fails
                        "def f(x): return x" "[1]" "f" "s1") as [r s].
  destruct H as (_ & _ & _ & H).
  destruct (H (OtherException "Cannot connect to the Docker daemon")
              eq_refl eq_refl eq_refl) as (Hr & Hn & _).
  split; assumption.
Defined.

(** C5 as stated fails: when the first [containers.run] raises -- and a
    second call would have succeeded -- the creation is attempted once, not
    twice, and the caller gets the failure. *)
Lemma creation_retry_counterexample :
  (exists c, containers_run_answer world_first_run_fails 1 = inr c)
  /\ occurrences EvContainersRun
       (trace (snd (run_execute world_first_run_fails
                                "def f(x): return x" "[1]" "f" "s1")))
     <> 2%nat
  /\ exists res,
       fst (run_execute world_first_run_fails
                        "def f(x): return x" "[1]" "f" "s1") = Returns res
       /\ success res = false.
Proof.
  split; [eexists; reflexivity|]. split.
  - vm_compute. discriminate.
  - eexists. split; vm_compute; reflexivity.
Qed.

End ExecutorFacts.

(** ** Test harness *)
Section HarnessFacts.
Import TestFramework.

Lemma _execute_tests_total container suite r :
  _execute_tests container suite = inr r ->
  total_tests r = declared_total suite.
Proof.
  unfold _execute_tests.
  destruct (wait_answer container); [discriminate|].
  destruct (_parse_test_results container) as [[results bench] coverage].
  intros H; injection H as <-. reflexivity.
Qed.

(** The total of a returned result, path by path: declared cases +
    declared benchmarks + 2 when the tests were run, and the number of
    declared cases alone when anything failed before. *)
Lemma total_tests_by_path suites w alg code custom suite r :
  suite_of_call suites alg custom = Some suite ->
  run_test_suite suites w alg code custom = inr r ->
  total_tests r
  = if tests_ran w then declared_total suite
    else Z.of_nat (length (test_cases suite)).
Proof.
  intros Hs. unfold run_test_suite, tests_ran. rewrite Hs.
  destruct (generate_answer w) as [e|].
  { intros H; injection H as <-; reflexivity. }
  destruct (containers_run_answer w) as [e | container].
  { intros H; injection H as <-; reflexivity. }
  destruct (_execute_tests container suite) as [e | r'] eqn:He.
  - unfold _execute_tests in He.
    destruct (wait_answer container).
    + intros H; injection H as <-; reflexivity.
    + destruct (_parse_test_results container) as [[? ?] ?]. discriminate.
  - intros H; injection H as <-.
    rewrite (_execute_tests_total _ _ _ He).
    unfold _execute_tests in He.
    destruct (wait_answer container); [discriminate | reflexivity].
Qed.

(** C1 (the harness when the sandbox cannot be launched). For the two_sum
    suite -- 8 declared cases and 5 declared benchmarks, so 15 tests with the
    two security probes -- a run of the tests gives [total_tests = 15], and a
    failing launch gives a result with [total_tests = 8]. *)
Theorem total_tests_on_launch_failure :
  suite_of_call loaded_test_suites "two_sum" None = Some two_sum_suite
  /\ declared_total two_sum_suite = 15%Z
  /\ (exists r,
        run_test_suite loaded_test_suites world_tests_run "two_sum"
                       "def two_sum(nums, target): return []" None = inr r
        /\ total_tests r = 15%Z)
  /\ run_test_suite loaded_test_suites world_launch_fails "two_sum"
                    "def two_sum(nums, target): return []" None
     = inr {| suite_name := "Two Sum Complete Test Suite";
              algorithm_name := "two_sum";
              total_tests := 8;
              passed_tests := 0;
              failed_tests := 8;
              execution_time := 0;
              coverage_percentage := 0;
              test_results := [];
              benchmark_results := [];
              security_score := 0 |}.
Proof.
  split; [reflexivity|]. split; [reflexivity|]. split; [|reflexivity].
  eexists. split; [vm_compute; reflexivity | reflexivity].
Qed.

End HarnessFacts.

(** ** Security validator: the report in full *)
Section SecurityReportFacts.
Import PyStr SecurityManager SecurityFindings.

Lemma prefix_app (a s : string) :
  String.prefix a s = true <-> exists t, s = a ++ t.
Proof.
  revert s; induction a as [|c a IH]; intros s; simpl.
  - destruct s; split; intros; try reflexivity; eexists; reflexivity.
  - destruct s as [|d s]; simpl.
    + split; [discriminate | intros [t Ht]; discriminate].
    + destruct (ascii_dec c d) as [-> | Hne].
      * destruct (IH s) as [H1 H2]. split.
        -- intros H. destruct (H1 H) as [t Ht]. exists t. congruence.
        -- intros [t Ht]. apply H2. exists t. congruence.
      * split; [discriminate | intros [t Ht]; congruence].
Qed.

Lemma contains_app (a s : string) :
  contains a s = true <-> exists pre post, s = pre ++ a ++ post.
Proof.
  induction s as [|d s IH]; cbn [contains].
  - rewrite orb_false_r. split.
    + intros H. apply prefix_app in H. destruct H as [t Ht].
      exists EmptyString, t. exact Ht.
    + intros (pre & post & H). apply prefix_app.
      destruct pre; [exists post; exact H | discriminate].
  - destruct IH as [IH1 IH2]. split.
    + intros H. apply orb_true_iff in H. destruct H as [H | H].
      * apply prefix_app in H. destruct H as [t Ht].
        exists EmptyString, t. exact Ht.
      * destruct (IH1 H) as (pre & post & E).
        exists (String d pre), post. simpl. congruence.
    + intros (pre & post & H). apply orb_true_iff.
      destruct pre as [|e pre]; simpl in H.
      * left. apply prefix_app. exists post. exact H.
      * right. apply IH2. exists pre, post. congruence.
Qed.

Lemma append_assoc (a b c : string) : (a ++ b) ++ c = a ++ (b ++ c).
Proof. induction a; simpl; congruence. Qed.

(** A substring of a substring is a substring. *)
Lemma contains_trans (a b s : string) :
  contains a b = true -> contains b s = true -> contains a s = true.
Proof.
  rewrite !contains_app. intros (p1 & q1 & ->) (p2 & q2 & ->).
  exists (p2 ++ p1), (q1 ++ q2). rewrite !append_assoc. reflexivity.
Qed.

Lemma blocked_loop_contents code l r :
  let r' := fold_left (check_blocked_function code) l r in
  blocked_items r'
  = (blocked_items r ++ map (append "Blocked function: ") (found_in code l))%list
  /\ warnings r' = warnings r.
Proof.
  revert r; induction l as [|f l IH]; intros r; simpl.
  - rewrite app_nil_r. split; reflexivity.
  - destruct (IH (check_blocked_function code r f)) as [Hb Hw].
    rewrite Hb, Hw. unfold check_blocked_function.
    destruct (contains f code); simpl; [|split; reflexivity].
    rewrite <- app_assoc. split; reflexivity.
Qed.

Lemma suspicious_loop_contents code l r :
  let r' := fold_left (check_suspicious_pattern code) l r in
  blocked_items r' = blocked_items r
  /\ warnings r'
     = (warnings r ++ map (append "Suspicious pattern: ") (found_in code l))%list.
Proof.
  revert r; induction l as [|f l IH]; intros r; simpl.
  - rewrite app_nil_r. split; reflexivity.
  - destruct (IH (check_suspicious_pattern code r f)) as [Hb Hw].
    rewrite Hb, Hw. unfold check_suspicious_pattern.
    destruct (contains f code); simpl; [|split; reflexivity].
    rewrite <- app_assoc. split; reflexivity.
Qed.

Lemma import_loop_contents cfg l r :
  let r' := fold_left (check_import_line cfg) l r in
  blocked_items r' = blocked_items r
  /\ warnings r'
     = (warnings r
        ++ map (append "Unauthorized import: ")
               (flat_map (fun line => match unauthorized cfg line with
                                      | Some m => [m]
                                      | None => []
                                      end) l))%list.
Proof.
  revert r; induction l as [|f l IH]; intros r; simpl.
  - rewrite app_nil_r. split; reflexivity.
  - destruct (IH (check_import_line cfg r f)) as [Hb Hw].
    rewrite Hb, Hw. unfold check_import_line.
    destruct (unauthorized cfg f); simpl; [|split; reflexivity].
    rewrite <- app_assoc. split; reflexivity.
Qed.

Lemma file_loop_contents cfg code l r :
  let r' := fold_left (check_file_operation cfg code) l r in
  blocked_items r'
  = (blocked_items r
     ++ (if file_system_access cfg then []
         else map (append "File operation: ") (found_in code l)))%list
  /\ warnings r' = warnings r.
Proof.
  revert r; induction l as [|f l IH]; intros r; simpl.
  - destruct (file_system_access cfg); rewrite app_nil_r; split; reflexivity.
  - destruct (IH (check_file_operation cfg code r f)) as [Hb Hw].
    rewrite Hb, Hw. unfold check_file_operation.
    destruct (contains f code); destruct (file_system_access cfg); simpl;
      try (split; reflexivity).
    rewrite <- app_assoc. split; reflexivity.
Qed.

Lemma report_contents cfg code :
  blocked_items (validate_code_security cfg code)
  = expected_blocked_items cfg code
  /\ warnings (validate_code_security cfg code) = expected_warnings cfg code.
Proof.
  unfold validate_code_security, expected_blocked_items, expected_warnings,
    unauthorized_modules.
  cbv zeta.
  destruct (file_loop_contents cfg code file_operations
              (fold_left (check_import_line cfg) (import_lines code)
                 (fold_left (check_suspicious_pattern code) suspicious_patterns
                    (fold_left (check_blocked_function code)
                       (blocked_functions cfg) initial_report)))) as [Hb4 Hw4].
  destruct (import_loop_contents cfg (import_lines code)
              (fold_left (check_suspicious_pattern code) suspicious_patterns
                 (fold_left (check_blocked_function code)
                    (blocked_functions cfg) initial_report))) as [Hb3 Hw3].
  destruct (suspicious_loop_contents code suspicious_patterns
              (fold_left (check_blocked_function code)
                 (blocked_functions cfg) initial_report)) as [Hb2 Hw2].
  destruct (blocked_loop_contents code (blocked_functions cfg) initial_report)
    as [Hb1 Hw1].
  cbv zeta in *.
  rewrite Hb4, Hw4, Hb3, Hw3, Hb2, Hw2, Hb1, Hw1. simpl.
  split; reflexivity.
Qed.

(** The two lists of the report, entry by entry: the denylisted names found
    in the text and then -- unless file-system access is enabled -- the
    file-operation patterns found; the suspicious patterns found and then
    the unauthorized imports. *)
Theorem report_lists cfg code :
  blocked_items (validate_code_security cfg code)
  = expected_blocked_items cfg code
  /\ warnings (validate_code_security cfg code) = expected_warnings cfg code.
Proof. apply report_contents. Qed.

Lemma apply_checks_preserves (P : SecurityReport -> Prop) cs :
  Forall (fun c : check => forall r, P r -> P (c r)) cs ->
  forall r, P r -> P (apply_checks cs r).
Proof.
  induction 1 as [|c cs Hc _ IH]; intros r Hr; [exact Hr|].
  apply IH, Hc, Hr.
Qed.

Lemma risk_of_snoc_blocked b w x : risk_of (b ++ [x]) w = HIGH.
Proof. destruct b; reflexivity. Qed.

Lemma is_nil_snoc (A : Type) (l : list A) (x : A) : is_nil (l ++ [x]) = false.
Proof. destruct l; reflexivity. Qed.

Lemma escalate_risk_of b w x :
  escalate_to_medium (risk_of b w) = risk_of b (w ++ [x]).
Proof. destruct b, w; reflexivity. Qed.

Lemma scan_checks_exact cfg code :
  Forall (fun c : check => forall r, report_exact r -> report_exact (c r))
         (scan_checks cfg code).
Proof.
  unfold scan_checks.
  repeat (apply Forall_app; split); apply Forall_map_intro;
    intros x r [Hs Hr]; unfold report_exact.
  - unfold check_blocked_function. destruct (contains x code); simpl; auto.
    rewrite is_nil_snoc, risk_of_snoc_blocked. auto.
  - unfold check_suspicious_pattern. destruct (contains x code); simpl; auto.
    split; [exact Hs | rewrite Hr; apply escalate_risk_of].
  - unfold check_import_line. destruct (unauthorized cfg x); simpl; auto.
    split; [exact Hs | rewrite Hr; apply escalate_risk_of].
  - unfold check_file_operation.
    destruct (contains x code), (file_system_access cfg); simpl; auto.
    rewrite is_nil_snoc, risk_of_snoc_blocked. auto.
Qed.

Lemma validate_report_exact cfg code :
  report_exact (validate_code_security cfg code).
Proof.
  rewrite validate_as_checks.
  apply (apply_checks_preserves report_exact).
  - apply scan_checks_exact.
  - split; reflexivity.
Qed.

(** The risk level of a report is exactly that of its findings: HIGH when
    something is blocked, MEDIUM when nothing is blocked and there is a
    warning, LOW when there is no finding at all. *)
Theorem risk_level_of_findings cfg code :
  let r := validate_code_security cfg code in
  risk_level r = risk_of (blocked_items r) (warnings r).
Proof.
  cbv zeta. apply validate_report_exact.
Qed.

Lemma found_in_nonempty code l :
  found_in code l <> [] <-> exists p, In p l /\ contains p code = true.
Proof.
  unfold found_in. split.
  - intros H. destruct (filter _ l) as [|p t] eqn:E; [now elim H|].
    assert (Hin : In p (filter (fun p => contains p code) l))
      by (rewrite E; left; reflexivity).
    apply filter_In in Hin. exists p. exact Hin.
  - intros (p & Hin & Hc) E.
    assert (Hp : In p (filter (fun p => contains p code) l))
      by (apply filter_In; split; assumption).
    rewrite E in Hp. destruct Hp.
Qed.

Lemma unsafe_characterised cfg code :
  safe (validate_code_security cfg code) = false
  <-> (exists f, In f (blocked_functions cfg) /\ contains f code = true)
      \/ (file_system_access cfg = false
          /\ exists o, In o file_operations /\ contains o code = true).
Proof.
  destruct (validate_report_exact cfg code) as [Hs _]. rewrite Hs.
  destruct (report_contents cfg code) as [Hb _]. rewrite Hb.
  unfold expected_blocked_items.
  rewrite <- !found_in_nonempty.
  generalize (found_in code (blocked_functions cfg)) as found_names.
  generalize (found_in code file_operations) as found_operations.
  intros [|o os] [|f fs]; destruct (file_system_access cfg);
    cbn [map app is_nil];
    (split; [try discriminate; intros _ | try reflexivity]).
  - intros [H | [H _]]; [now elim H | discriminate].
  - intros [H | [_ H]]; now elim H.
  - left; discriminate.
  - left; discriminate.
  - intros [H | [H _]]; [now elim H | discriminate].
  - right. split; [reflexivity | discriminate].
  - left; discriminate.
  - left; discriminate.
Qed.

(** The verdict [safe = false] is given exactly when a name of the denylist
    occurs in the text, or file-system access is disabled and one of the
    file-operation patterns occurs; warnings never make a report unsafe. *)
Theorem unsafe_exactly cfg code :
  safe (validate_code_security cfg code) = false
  <-> (exists f, In f (blocked_functions cfg) /\ contains f code = true)
      \/ (file_system_access cfg = false
          /\ exists o, In o file_operations /\ contains o code = true).
Proof. apply unsafe_characterised. Qed.

(** A pattern that includes a denylisted name blocks the code whatever the
    file-system policy is: with 'open' on the denylist, code containing
    'open(' or 'with open' is unsafe even when file-system access is
    enabled. *)
Theorem blocked_name_inside_pattern cfg code f p :
  In f (blocked_functions cfg) ->
  contains f p = true ->
  contains p code = true ->
  safe (validate_code_security cfg code) = false.
Proof.
  intros Hin Hfp Hpc. apply unsafe_characterised. left.
  exists f. split; [exact Hin|]. apply (contains_trans f p code Hfp Hpc).
Qed.

Lemma blocked_name_inside_pattern_witness :
  safe (validate_code_security
          {| allowed_imports := allowed_imports default_config;
             blocked_functions := blocked_functions default_config;
             file_system_access := true |}
          "with open(path) as handle: pass") = false.
Proof.
  apply (blocked_name_inside_pattern _ _ "open" "with open").
  - simpl; auto 10.
  - vm_compute; reflexivity.
  - vm_compute; reflexivity.
Defined.

Lemma hd_split_on_chars (sep : ascii) (s : string) (c : ascii) :
  In c (chars (hd EmptyString (split_on sep s))) ->
  c <> sep /\ In c (chars s).
Proof.
  induction s as [|a s IH]; simpl; [intros []|].
  destruct (Ascii.eqb_spec a sep) as [-> | Hne]; simpl; [intros []|].
  destruct (split_on sep s) as [|h t] eqn:E; simpl in *.
  - intros [<- | []]. split; [exact Hne | left; reflexivity].
  - intros [<- | Hin]; [split; [exact Hne | left; reflexivity]|].
    destruct (IH Hin) as [H1 H2]. split; [exact H1 | right; exact H2].
Qed.

Lemma split_ws_no_space (s tok : string) (c : ascii) :
  In tok (split_ws s) -> In c (chars tok) -> isspace c = false.
Proof.
  revert tok; induction s as [|a s IH]; intros tok; simpl; [intros []|].
  destruct (isspace a) eqn:Ha; [apply IH|].
  destruct s as [|b s'].
  - intros [<- | []] [<- | []]. exact Ha.
  - destruct (isspace b) eqn:Hb.
    + intros [<- | Hin]; [intros [<- | []]; exact Ha | apply IH, Hin].
    + destruct (split_ws (String b s')) as [|h t] eqn:E.
      * intros [<- | []] [<- | []]. exact Ha.
      * intros [<- | Hin].
        -- intros [<- | Hc]; [exact Ha|].
           apply (IH h); [left; reflexivity | exact Hc].
        -- apply IH. right. exact Hin.
Qed.

(** A module name taken from an import line contains neither a dot nor a
    whitespace character: of [import os.path] and [from a.b import c] only
    the top-level package is looked up in the allowlist. *)
Theorem module_name_is_top_level line m c :
  _extract_module_name line = Some m ->
  In c (chars m) ->
  c <> "."%char /\ isspace c = false.
Proof.
  unfold _extract_module_name.
  destruct (startswith line "import ").
  - destruct (split_ws (drop 7 line)) as [|tok toks] eqn:E; [discriminate|].
    intros H Hc; injection H as <-.
    destruct (hd_split_on_chars _ _ _ Hc) as [H1 H2]. split; [exact H1|].
    apply (split_ws_no_space (drop 7 line) tok); [rewrite E; left; reflexivity|].
    exact H2.
  - destruct (startswith line "from "); [|discriminate].
    destruct (split_ws (drop 5 line)) as [|tok toks] eqn:E; [discriminate|].
    intros H Hc; injection H as <-.
    destruct (hd_split_on_chars _ _ _ Hc) as [H1 H2]. split; [exact H1|].
    apply (split_ws_no_space (drop 5 line) tok); [rewrite E; left; reflexivity|].
    exact H2.
Qed.

Lemma module_name_is_top_level_witness :
  _extract_module_name "from os.path import join" = Some "os"
  /\ ("o"%char <> "."%char /\ isspace "o" = false).
Proof.
  split; [vm_compute; reflexivity|].
  apply (module_name_is_top_level "from os.path import join" "os" "o"%char).
  - vm_compute; reflexivity.
  - simpl; auto.
Defined.

End SecurityReportFacts.

(** ** Analytics engine *)
Section EngineFacts.
Import PyStr PerformanceAnalytics ComplexityAnalyzer AnalyticsEngine.

Lemma dict_get_set_same (V : Type) (k : string) (v : V) d :
  TestFramework.dict_get k (DockerExecutor.dict_set k v d) = Some v.
Proof.
  induction d as [|[k' v'] d IH]; simpl.
  - rewrite String.eqb_refl. reflexivity.
  - destruct (String.eqb k k') eqn:E; simpl.
    + rewrite String.eqb_refl. reflexivity.
    + rewrite E. exact IH.
Qed.

Lemma dict_get_set_other (V : Type) (k k0 : string) (v : V) d :
  k0 <> k ->
  TestFramework.dict_get k0 (DockerExecutor.dict_set k v d)
  = TestFramework.dict_get k0 d.
Proof.
  intros Hne. induction d as [|[k' v'] d IH]; simpl.
  - apply String.eqb_neq in Hne. rewrite Hne. reflexivity.
  - destruct (String.eqb k k') eqn:E; simpl.
    + apply String.eqb_eq in E. subst k'.
      apply String.eqb_neq in Hne. rewrite Hne. reflexivity.
    + destruct (String.eqb k0 k'); [reflexivity | exact IH].
Qed.

Lemma tl_skipn (A : Type) (n : nat) (l : list A) :
  tl (skipn n l) = skipn (S n) l.
Proof.
  change (tl (skipn n l)) with (skipn 1 (skipn n l)).
  rewrite skipn_skipn. reflexivity.
Qed.

Lemma last_n_snoc (A : Type) (m : nat) (l : list A) (x : A) :
  (1 <= m)%nat ->
  last_n m (l ++ [x]) = (skipn (S (length l) - m) l ++ [x])%list.
Proof.
  intros Hm. unfold last_n. rewrite length_app, skipn_app. simpl length.
  replace (length l + 1 - m)%nat with (S (length l) - m)%nat by lia.
  replace (S (length l) - m - length l)%nat with 0%nat by lia.
  reflexivity.
Qed.

(** Appending to a bounded deque keeps the last [m] elements. *)
Lemma deque_append_last_n (A : Type) (m : nat) (l : list A) (x : A) :
  deque_append m (last_n m l) x = last_n m (l ++ [x]).
Proof.
  unfold deque_append.
  destruct m as [|m].
  - unfold last_n. rewrite !Nat.sub_0_r, !skipn_all. reflexivity.
  - rewrite last_n_snoc by lia. unfold last_n.
    rewrite length_app, length_skipn. simpl length.
    destruct (Nat.ltb_spec (S m) (length l - (length l - S m) + 1)) as [H | H].
    + destruct (skipn (length l - S m) l) as [|y t] eqn:E.
      * apply (f_equal (@length A)) in E. rewrite length_skipn in E.
        simpl in E. lia.
      * simpl tl. f_equal.
        change t with (tl (y :: t)). rewrite <- E, tl_skipn.
        f_equal. lia.
    + f_equal. f_equal. lia.
Qed.

Lemma py_slice_last_n (A : Type) (m : nat) (l : list A) :
  (m < length l)%nat ->
  py_slice (Some (- Z.of_nat m)%Z) None l
  = if (m =? 0)%nat then l else last_n m l.
Proof.
  intros H. unfold py_slice, slice_bound, last_n.
  destruct m as [|m].
  - change (- Z.of_nat 0)%Z with 0%Z. change (0 <? 0)%Z with false.
    cbv iota zeta.
    replace (Z.max 0 (Z.min (Z.of_nat (length l)) 0)) with 0%Z by lia.
    rewrite Z.sub_0_r, Nat2Z.id. apply firstn_all.
  - change (S m =? 0)%nat with false. cbv iota.
    destruct (Z.ltb_spec (- Z.of_nat (S m)) 0) as [_ | Hge]; [|lia].
    replace (Z.to_nat (Z.max 0 (Z.min (Z.of_nat (length l))
                                      (- Z.of_nat (S m) + Z.of_nat (length l)))))
      with (length l - S m)%nat by lia.
    apply firstn_all2. rewrite length_skipn. lia.
Qed.

Lemma kept_snoc m l p :
  let grown := (kept_of m l ++ [p])%list in
  (if (m <? length grown)%nat
   then py_slice (Some (- Z.of_nat m)%Z) None grown
   else grown)
  = kept_of m (l ++ [p]).
Proof.
  cbv zeta. unfold kept_of. destruct m as [|m].
  - simpl Nat.eqb. cbv iota.
    rewrite length_app. simpl length.
    destruct (Nat.ltb_spec 0 (length l + 1)) as [H | H]; [|lia].
    rewrite py_slice_last_n by (rewrite length_app; simpl; lia).
    reflexivity.
  - change (S m =? 0)%nat with false. cbv iota.
    rewrite (last_n_snoc _ (S m) l p) by lia.
    unfold last_n at 1 2. rewrite length_app, length_skipn. simpl length.
    destruct (Nat.ltb_spec (S m) (length l - (length l - S m) + 1)) as [H | H].
    + rewrite py_slice_last_n
        by (rewrite length_app, length_skipn; simpl; lia).
      change (S m =? 0)%nat with false. cbv iota.
      rewrite last_n_snoc by lia. rewrite length_skipn, skipn_skipn.
      do 2 f_equal. lia.
    + unfold last_n. do 2 f_equal. lia.
Qed.

Lemma max_history_add e p :
  max_history (add_performance_point e p) = max_history e.
Proof. reflexivity. Qed.

Lemma add_all_snoc e pts p :
  add_all e (pts ++ [p]) = add_performance_point (add_all e pts) p.
Proof. unfold add_all. rewrite fold_left_app. reflexivity. Qed.

Lemma max_history_add_all e pts :
  max_history (add_all e pts) = max_history e.
Proof.
  induction pts as [|p pts IH] using rev_ind; [reflexivity|].
  rewrite add_all_snoc, max_history_add. exact IH.
Qed.

Lemma points_of_snoc name pts p :
  points_of name (pts ++ [p])
  = (points_of name pts
     ++ (if String.eqb (algorithm_name p) name then [p] else []))%list.
Proof. unfold points_of. rewrite filter_app. reflexivity. Qed.

(** The histories after any sequence of additions to a new engine. *)
Lemma add_all_contents m pts :
  let e := add_all (new_engine m) pts in
  performance_history e = last_n m pts
  /\ forall name,
       TestFramework.dict_get name (algorithm_trends e)
       = match points_of name pts with
         | [] => None
         | l => Some (kept_of m l)
         end.
Proof.
  cbv zeta. induction pts as [|p pts IH] using rev_ind.
  - split; [reflexivity | intros name; reflexivity].
  - destruct IH as [IHh IHt].
    rewrite add_all_snoc.
    set (e := add_all (new_engine m) pts) in *.
    assert (Hm : max_history e = m) by apply max_history_add_all.
    split.
    + unfold add_performance_point. simpl performance_history.
      rewrite Hm, IHh. apply deque_append_last_n.
    + intros name. unfold add_performance_point. simpl algorithm_trends.
      rewrite points_of_snoc, Hm.
      destruct (String.eqb_spec (algorithm_name p) name) as [Heq | Hne].
      * subst name. rewrite dict_get_set_same, IHt.
        destruct (points_of (algorithm_name p) pts) as [|q l] eqn:E.
        -- pose proof (kept_snoc m [] p) as K. cbv zeta in K.
           replace (kept_of m []) with (@nil PerformancePoint) in K
             by (destruct m; reflexivity).
           simpl app in *. rewrite K. reflexivity.
        -- pose proof (kept_snoc m (q :: l) p) as K. cbv zeta in K.
           rewrite K.
           destruct ((q :: l) ++ [p])%list eqn:E2; [discriminate|].
           reflexivity.
      * rewrite dict_get_set_other by congruence.
        rewrite app_nil_r. apply IHt.
Qed.

Lemma last_n_length (A : Type) (m : nat) (l : list A) :
  (length (last_n m l) <= m)%nat.
Proof. unfold last_n. rewrite length_skipn. lia. Qed.

(** Bounded history. After any points were added to a new engine, the
    global history holds the last [max_history] points added, and -- for a
    [max_history] of at least 1 -- the history of every algorithm holds the
    last [max_history] points of that algorithm, oldest first: older points
    are evicted first in, first out, and no history exceeds the bound. *)
Theorem history_is_bounded m pts name :
  (1 <= m)%nat ->
  let e := add_all (new_engine m) pts in
  performance_history e = last_n m pts
  /\ (length (performance_history e) <= m)%nat
  /\ TestFramework.dict_get name (algorithm_trends e)
     = match points_of name pts with
       | [] => None
       | l => Some (last_n m l)
       end
  /\ (forall l, TestFramework.dict_get name (algorithm_trends e) = Some l ->
                (length l <= m)%nat).
Proof.
  intros Hm e. destruct (add_all_contents m pts) as [Hh Ht]. fold e in Hh, Ht.
  assert (Hk : forall l, kept_of m l = last_n m l).
  { intros l. unfold kept_of. destruct m; [lia | reflexivity]. }
  split; [exact Hh|]. split; [rewrite Hh; apply last_n_length|].
  split.
  - rewrite Ht. destruct (points_of name pts); [reflexivity|].
    rewrite Hk. reflexivity.
  - intros l. rewrite Ht. destruct (points_of name pts); [discriminate|].
    intros H; injection H as <-. rewrite Hk. apply last_n_length.
Qed.

Lemma history_is_bounded_witness :
  let e := add_all (new_engine 2)
                   [ point_for "a" 1 1 1; point_for "b" 1 2 1;
                     point_for "a" 2 3 1; point_for "a" 3 4 1 ] in
  performance_history e = [point_for "a" 2 3 1; point_for "a" 3 4 1]
  /\ TestFramework.dict_get "a" (algorithm_trends e)
     = Some [point_for "a" 2 3 1; point_for "a" 3 4 1].
Proof.
  destruct (history_is_bounded 2
              [ point_for "a" 1 1 1; point_for "b" 1 2 1;
                point_for "a" 2 3 1; point_for "a" 3 4 1 ] "a")
    as (Hh & _ & Ht & _); [lia|].
  split; [exact Hh | exact Ht].
Defined.

(** With [max_history = 0] the global history stays empty, while the
    per-algorithm histories are never trimmed ([l[-0:]] is the whole list):
    every point ever added for an algorithm is kept. *)
Theorem zero_history_keeps_everything pts name :
  let e := add_all (new_engine 0) pts in
  performance_history e = []
  /\ TestFramework.dict_get name (algorithm_trends e)
     = match points_of name pts with
       | [] => None
       | l => Some l
       end.
Proof.
  cbv zeta. destruct (add_all_contents 0 pts) as [Hh Ht].
  split.
  - rewrite Hh. unfold last_n. rewrite Nat.sub_0_r. apply skipn_all.
  - rewrite Ht. reflexivity.
Qed.

Lemma subscriptions_remove_first cb cb' l :
  subscriptions cb' (remove_first cb l)
  = if String.eqb cb' cb then pred (subscriptions cb' l)
    else subscriptions cb' l.
Proof.
  unfold subscriptions. induction l as [|y l IH]; simpl.
  - destruct (String.eqb cb' cb); reflexivity.
  - destruct (String.eqb_spec cb y) as [<- | Hne].
    + destruct (String.eqb cb' cb) eqn:E; reflexivity.
    + simpl. destruct (String.eqb cb' y) eqn:E2; [|exact IH].
      apply String.eqb_eq in E2. subst y.
      assert (E : String.eqb cb' cb = false)
        by (apply String.eqb_neq; congruence).
      rewrite E in *. simpl. f_equal. exact IH.
Qed.

Lemma mem_subscriptions cb l :
  mem cb l = false -> subscriptions cb l = 0%nat.
Proof.
  unfold mem, subscriptions. induction l as [|y l IH]; simpl; [reflexivity|].
  destruct (String.eqb cb y); simpl; [discriminate | exact IH].
Qed.

(** [unsubscribe] cancels one subscription of the callback and no other:
    a callback that was subscribed twice is still subscribed once, and
    unsubscribing a callback that is not subscribed changes nothing. *)
Theorem unsubscribe_cancels_one cb cb' e :
  subscriptions cb' (subscribers (unsubscribe cb e))
  = if String.eqb cb' cb then pred (subscriptions cb' (subscribers e))
    else subscriptions cb' (subscribers e).
Proof.
  unfold unsubscribe. destruct (mem cb (subscribers e)) eqn:E.
  - apply subscriptions_remove_first.
  - destruct (String.eqb_spec cb' cb) as [-> | _]; [|reflexivity].
    rewrite (mem_subscriptions _ _ E). reflexivity.
Qed.

Lemma remove_first_snoc cb l :
  mem cb l = false -> remove_first cb (l ++ [cb]) = l.
Proof.
  unfold mem. induction l as [|y l IH]; simpl.
  - rewrite String.eqb_refl. reflexivity.
  - destruct (String.eqb cb y); simpl; [discriminate|].
    intros H. rewrite (IH H). reflexivity.
Qed.

Lemma mem_snoc cb l : mem cb (l ++ [cb]) = true.
Proof.
  unfold mem. rewrite existsb_app. simpl. rewrite String.eqb_refl.
  rewrite orb_true_r. reflexivity.
Qed.

(** Subscribing a callback that is not yet subscribed and unsubscribing it
    again restores the list of subscribers. *)
Theorem subscribe_unsubscribe cb e :
  mem cb (subscribers e) = false ->
  subscribers (unsubscribe cb (subscribe cb e)) = subscribers e.
Proof.
  intros H. unfold unsubscribe, subscribe. simpl subscribers.
  rewrite mem_snoc. simpl. apply remove_first_snoc, H.
Qed.

Lemma subscribe_unsubscribe_witness :
  subscribers (unsubscribe "ui" (subscribe "ui" (subscribe "log" (new_engine 5))))
  = ["log"].
Proof.
  apply (subscribe_unsubscribe "ui" (subscribe "log" (new_engine 5))).
  reflexivity.
Defined.

(** The score of a label is its place in the enumeration, so it grows
    strictly from 'O(1)' to 'O(2^n)'; any other text scores 5, like the
    quadratic label. *)
Theorem complexity_score_order :
  (forall c, _complexity_score (label_text c)
             = Z.of_nat (S (enumeration_index c)))
  /\ (forall c1 c2, (enumeration_index c1 < enumeration_index c2)%nat ->
                    (_complexity_score (label_text c1)
                     < _complexity_score (label_text c2))%Z)
  /\ (forall text, (forall c, text <> label_text c) ->
                   _complexity_score text = 5%Z).
Proof.
  assert (H : forall c, _complexity_score (label_text c)
                        = Z.of_nat (S (enumeration_index c)))
    by (intros []; vm_compute; reflexivity).
  split; [exact H|]. split.
  - intros c1 c2 Hlt. rewrite !H. lia.
  - intros text Hno. unfold _complexity_score, TestFramework.dict_get.
    repeat match goal with
           | |- context [String.eqb text (label_text ?c)] =>
               let E := fresh in
               destruct (String.eqb_spec text (label_text c)) as [E | _];
               [elim (Hno c E)|]
           end.
    reflexivity.
Qed.

Lemma complexity_score_order_witness :
  (_complexity_score (label_text O_n) < _complexity_score (label_text O_n2))%Z
  /\ _complexity_score "O(n!)" = 5%Z.
Proof.
  destruct complexity_score_order as (_ & Hlt & Hother).
  split.
  - apply Hlt. simpl. lia.
  - apply Hother. intros []; discriminate.
Defined.

(** The suggestions are never empty, and the message that all is well is
    given only alone: it never accompanies an advice. *)
Theorem suggestions_never_empty time_fit space_fit points :
  let s := _generate_optimization_suggestions time_fit space_fit points in
  s <> []
  /\ (In "Algorithm performance looks good!" s ->
      s = ["Algorithm performance looks good!"]).
Proof.
  cbv zeta. unfold _generate_optimization_suggestions.
  destruct (best_fit time_fit), (best_fit space_fit);
    cbn [complexity_eqb orb app];
    destruct (5 <? length points)%nat; cbn [app];
    try destruct (float_gt _ 100); cbn [app];
    (split; [discriminate|]);
    intros Hin; simpl in Hin;
    repeat (destruct Hin as [Hin | Hin]; [try discriminate; try reflexivity|]);
    try destruct Hin.
Qed.

Section TrendFacts.

Variable np_log2 : Z -> float.
Variable np_sqrt : nat -> float.
Variable np_square : float -> float.
Variable linregress : NpArray -> list float -> option LinregressResult.
Variable np_mean_of : list float -> float.

Local Abbreviation trend_of :=
  (get_algorithm_trend np_log2 np_sqrt np_square linregress np_mean_of).
Local Abbreviation all_trends :=
  (trends_of np_log2 np_sqrt np_square linregress np_mean_of).

(** A trend needs two points, and one computed from exactly two points
    carries no analysis yet: both fits are the default 'O(n)' with zero
    confidence, no regression is flagged and the only suggestion is that
    all is well. *)
Theorem trend_of_two_points e name p1 p2 :
  TestFramework.dict_get name (algorithm_trends e) = Some [p1; p2] ->
  exists t,
    trend_of e name = Some t
    /\ data_points t = 2%nat
    /\ best_fit (time_complexity t) = O_n
    /\ r_squared (time_complexity t) = 0%float
    /\ best_fit (space_complexity t) = O_n
    /\ r_squared (space_complexity t) = 0%float
    /\ performance_regression t = false
    /\ optimization_suggestions t = ["Algorithm performance looks good!"].
Proof.
  intros H. unfold get_algorithm_trend. rewrite H.
  eexists. split; [reflexivity|]. repeat split.
Qed.

Lemma float_lt_irrefl a : float_lt a a = false.
Proof.
  unfold float_lt. rewrite ltb_spec. unfold SFltb, SFcompare.
  destruct (Prim2SF a) as [s | s | | s m e]; try destruct s;
    try reflexivity.
  - rewrite Z.compare_refl.
    change (Pos.compare_cont Eq m m) with (Pos.compare m m).
    rewrite Pos.compare_refl. reflexivity.
  - rewrite Z.compare_refl.
    change (Pos.compare_cont Eq m m) with (Pos.compare m m).
    rewrite Pos.compare_refl. reflexivity.
Qed.

(** [min] with a key: for a comparison of the keys that is transitive and
    never holds between a key and itself, the item found has a key that is
    not above the key of any item. *)
Lemma py_min_by_spec (A K : Type) (less : K -> K -> bool) (key : A -> K) :
  (forall a b c, less a b = true -> less b c = true -> less a c = true) ->
  (forall a, less a a = false) ->
  forall (l : list A) (best : A),
    let found := py_min_by less key best l in
    In found (best :: l)
    /\ (found = best \/ less (key found) (key best) = true)
    /\ forall x, In x (best :: l) -> less (key x) (key found) = false.
Proof.
  intros Htrans Hirr. induction l as [|y l IH]; intros best; cbv zeta.
  - simpl. split; [left; reflexivity|]. split; [left; reflexivity|].
    intros x [<- | []]. apply Hirr.
  - cbn [py_min_by].
    destruct (IH (if less (key y) (key best) then y else best))
      as (Hin & Hbest & Hmin).
    set (found := py_min_by less key
                    (if less (key y) (key best) then y else best) l) in *.
    destruct (less (key y) (key best)) eqn:E.
    + split; [right; exact Hin|]. split.
      * right. destruct Hbest as [-> | Hlt]; [exact E|].
        apply (Htrans _ _ _ Hlt E).
      * intros x [<- | Hx]; [|apply Hmin, Hx].
        destruct (less (key best) (key found)) eqn:E2; [|reflexivity].
        exfalso. destruct Hbest as [Hf | Hlt].
        -- rewrite Hf in E2. pose proof (Htrans _ _ _ E E2) as H.
           rewrite Hirr in H. discriminate.
        -- pose proof (Htrans _ _ _ (Htrans _ _ _ Hlt E) E2) as H.
           rewrite Hirr in H. discriminate.
    + split.
      { destruct Hin as [Hin | Hin]; [left; exact Hin | right; right; exact Hin]. }
      split; [exact Hbest|].
      intros x [<- | [<- | Hx]].
      * apply Hmin. left. reflexivity.
      * destruct Hbest as [-> | Hlt]; [exact E|].
        destruct (less (key y) (key found)) eqn:E2; [|reflexivity].
        rewrite (Htrans _ _ _ E2 Hlt) in E. discriminate.
      * apply Hmin. right. exact Hx.
Qed.

Lemma trend_name e name t :
  trend_of e name = Some t ->
  trend_algorithm_name t = name.
Proof.
  unfold get_algorithm_trend.
  destruct (TestFramework.dict_get name (algorithm_trends e)); [|discriminate].
  destruct (length l <? 2)%nat; [discriminate|].
  intros H; injection H as <-. reflexivity.
Qed.

Lemma in_trends_of e names t :
  In t (all_trends e names)
  <-> exists name,
        In name names
        /\ trend_of e name = Some t.
Proof.
  unfold trends_of. rewrite in_flat_map. split.
  - intros (name & Hin & Ht). exists name. split; [exact Hin|].
    destruct (trend_of e name);
      [|destruct Ht].
    destruct Ht as [<- | []]. reflexivity.
  - intros (name & Hin & Ht). exists name. split; [exact Hin|].
    rewrite Ht. left. reflexivity.
Qed.

(** The winner of a comparison is one of the named algorithms that have a
    trend, and none of them has a smaller average execution time; there is
    no winner exactly when none of the named algorithms has a trend. *)
Theorem comparison_winner e names :
  let c := get_comparative_analysis np_log2 np_sqrt np_square linregress
                                    np_mean_of e names in
  (winner c = None
   <-> forall name, In name names -> trend_of e name = None)
  /\ (forall w, winner c = Some w ->
        In w names
        /\ exists t,
             trend_of e w = Some t
             /\ forall name t',
                  In name names -> trend_of e name = Some t' ->
                  float_lt (avg_execution_time t') (avg_execution_time t)
                  = false).
Proof.
  cbv zeta. unfold get_comparative_analysis.
  destruct (all_trends e names) as [|t ts] eqn:E.
  - simpl. split.
    + split; [|reflexivity]. intros _ name Hin.
      destruct (trend_of e name) as [t|] eqn:Ht; [|reflexivity].
      assert (Hx : In t (all_trends e names))
        by (apply in_trends_of; exists name; split; assumption).
      rewrite E in Hx. destruct Hx.
    + discriminate.
  - cbn [winner]. split.
    + split; [discriminate|]. intros Hnone.
      assert (Hx : In t (all_trends e names))
        by (rewrite E; left; reflexivity).
      apply in_trends_of in Hx. destruct Hx as (name & Hin & Ht).
      rewrite (Hnone name Hin) in Ht. discriminate.
    + intros w Hw. injection Hw as <-.
      destruct (py_min_by_spec _ _ float_lt avg_execution_time
                  float_lt_trans float_lt_irrefl ts t)
        as (Hin & _ & Hmin).
      rewrite <- E in Hin.
      apply in_trends_of in Hin. destruct Hin as (name & Hname & Ht).
      rewrite (trend_name _ _ _ Ht). split; [exact Hname|].
      exists (py_min_by float_lt avg_execution_time t ts).
      split; [exact Ht|].
      intros name' t' Hin' Ht'. apply Hmin. rewrite <- E.
      apply in_trends_of. exists name'. split; assumption.
Qed.

End TrendFacts.

Lemma trend_of_two_points_witness :
  let e := add_all (new_engine 1000)
                   [point_for "two_sum" 100 0.01 20;
                    point_for "two_sum" 500 0.05 21] in
  exists t,
    get_algorithm_trend log2_floor sqrt_floor square linregress_model np_mean
                        e "two_sum"
    = Some t
    /\ data_points t = 2%nat
    /\ best_fit (time_complexity t) = O_n
    /\ r_squared (time_complexity t) = 0%float
    /\ best_fit (space_complexity t) = O_n
    /\ r_squared (space_complexity t) = 0%float
    /\ performance_regression t = false
    /\ optimization_suggestions t = ["Algorithm performance looks good!"].
Proof.
  cbv zeta.
  apply (trend_of_two_points log2_floor sqrt_floor square linregress_model
           np_mean _ "two_sum" (point_for "two_sum" 100 0.01 20)
           (point_for "two_sum" 500 0.05 21)).
  reflexivity.
Defined.

End EngineFacts.

(** ** Resource limits *)
Section ResourceFacts.
Import PyStr PerformanceAnalytics ComplexityAnalyzer SecurityFindings
  ResourceMonitor.

Local Abbreviation letters := chars.

Lemma letters_app (x y : string) :
  chars (x ++ y) = (chars x ++ chars y)%list.
Proof. induction x; simpl; congruence. Qed.

Lemma occurs_app c x y : occurs c (x ++ y) = occurs c x || occurs c y.
Proof. unfold occurs. rewrite letters_app. apply existsb_app. Qed.

Lemma prefix_first_char c p a s :
  Ascii.eqb c a = false -> String.prefix (String c p) (String a s) = false.
Proof.
  intros H. simpl. destruct (ascii_dec c a) as [-> | _]; [|reflexivity].
  rewrite Ascii.eqb_refl in H. discriminate.
Qed.

(** A text in which the first character of a pattern does not occur does
    not contain the pattern. *)
Lemma contains_occurs c p s :
  occurs c s = false -> contains (String c p) s = false.
Proof.
  unfold occurs. induction s as [|a s IH]; intros H.
  - reflexivity.
  - simpl in H. apply orb_false_iff in H. destruct H as [Ha Hs].
    change (contains (String c p) (String a s))
      with (String.prefix (String c p) (String a s) || contains (String c p) s).
    rewrite (prefix_first_char _ _ _ _ Ha), (IH Hs). reflexivity.
Qed.

Lemma contains_cons c p a s :
  contains (String c p) (String a s)
  = String.prefix (String c p) (String a s) || contains (String c p) s.
Proof. reflexivity. Qed.

Lemma no_capital_occurs c s :
  no_capital s = true ->
  (let n := nat_of_ascii c in (65 <=? n)%nat && (n <=? 90)%nat) = true ->
  occurs c s = false.
Proof.
  unfold no_capital, occurs. cbv zeta. intros Hs Hc.
  induction (letters s) as [|a l IH]; [reflexivity|].
  simpl in *. apply andb_true_iff in Hs. destruct Hs as [Ha Hl].
  rewrite (IH Hl), orb_false_r.
  destruct (Ascii.eqb_spec c a) as [<- | _]; [|reflexivity].
  rewrite Hc in Ha. discriminate.
Qed.

Lemma contains_own_prefix (p rest : string) : contains p (p ++ rest) = true.
Proof.
  assert (H : String.prefix p (p ++ rest) = true).
  { induction p as [|a p IH]; simpl.
    - destruct rest; reflexivity.
    - destruct (ascii_dec a a); [exact IH | congruence]. }
  destruct (p ++ rest); simpl in *; rewrite H; reflexivity.
Qed.

Ltac no_occurrence c Ha Hb :=
  rewrite !occurs_app, (no_capital_occurs c _ Ha eq_refl),
    (no_capital_occurs c _ Hb eq_refl);
  reflexivity.

Section Formatted.

Variable format_1f : float -> string.
Variable str_int : Z -> string.
Variable str_float : float -> string.

Local Abbreviation violations := (violations_of format_1f str_int str_float).
Local Abbreviation check :=
  (_check_resource_violations format_1f str_int str_float).

Lemma memory_message_critical cfg usage :
  is_critical (memory_message format_1f str_int cfg usage) = true.
Proof.
  unfold is_critical, critical_violations, memory_message. cbn [existsb].
  change ("Memory usage (" ++ format_1f (memory_mb usage)
            ++ "MB) exceeds limit (" ++ str_int (max_memory_mb cfg) ++ "MB)")
    with ("Memory usage"
            ++ (" (" ++ format_1f (memory_mb usage)
                  ++ "MB) exceeds limit (" ++ str_int (max_memory_mb cfg)
                  ++ "MB)")).
  rewrite contains_own_prefix. reflexivity.
Qed.

Lemma time_message_critical cfg usage :
  is_critical (time_message format_1f str_int cfg usage) = true.
Proof.
  unfold is_critical, critical_violations, time_message. cbn [existsb].
  change ("Execution time (" ++ format_1f (execution_time usage)
            ++ "s) exceeds limit (" ++ str_int (max_execution_time cfg)
            ++ "s)")
    with ("Execution time"
            ++ (" (" ++ format_1f (execution_time usage)
                  ++ "s) exceeds limit (" ++ str_int (max_execution_time cfg)
                  ++ "s)")).
  rewrite contains_own_prefix. rewrite orb_true_r. reflexivity.
Qed.

Lemma network_message_critical usage :
  is_critical (network_message str_int usage) = true.
Proof.
  unfold is_critical, critical_violations, network_message. cbn [existsb].
  change ("Unauthorized network connections detected ("
            ++ str_int (network_connections usage) ++ ")")
    with ("Unauthorized network"
            ++ (" connections detected ("
                  ++ str_int (network_connections usage) ++ ")")).
  rewrite contains_own_prefix. rewrite !orb_true_r. reflexivity.
Qed.

Lemma cpu_message_not_critical cfg usage :
  no_capital (format_1f (cpu_percent usage)) = true ->
  no_capital (str_float (max_cpu_percent cfg)) = true ->
  is_critical (cpu_message format_1f str_float cfg usage) = false.
Proof.
  intros Ha Hb.
  unfold is_critical, critical_violations, cpu_message. cbn [existsb].
  rewrite (contains_occurs "M") by (no_occurrence "M"%char Ha Hb).
  rewrite (contains_occurs "E") by (no_occurrence "E"%char Ha Hb).
  set (rest := format_1f (cpu_percent usage) ++ _).
  cbn [append]. rewrite !contains_cons. subst rest.
  rewrite (contains_occurs "U") by (no_occurrence "U"%char Ha Hb).
  reflexivity.
Qed.

Lemma files_message_not_critical cfg usage :
  no_capital (str_int (open_files usage)) = true ->
  no_capital (str_int (max_open_files cfg)) = true ->
  is_critical (files_message str_int cfg usage) = false.
Proof.
  intros Ha Hb.
  unfold is_critical, critical_violations, files_message. cbn [existsb].
  rewrite (contains_occurs "M") by (no_occurrence "M"%char Ha Hb).
  rewrite (contains_occurs "E") by (no_occurrence "E"%char Ha Hb).
  rewrite (contains_occurs "U") by (no_occurrence "U"%char Ha Hb).
  reflexivity.
Qed.

Lemma within_limits_no_violation cfg usage :
  within_limits cfg usage <-> violations cfg usage = [].
Proof.
  unfold within_limits, violations_of. split.
  - intros (Hm & Hc & Ht & Hf & Hn).
    rewrite Hm, Hc, Ht.
    apply Z.ltb_ge in Hf. rewrite Hf.
    destruct Hn as [-> | Hn]; [reflexivity|].
    apply Z.ltb_ge in Hn. rewrite Hn, andb_false_r. reflexivity.
  - destruct (float_gt (memory_mb usage)
                       (float_of_int64 (max_memory_mb cfg))) eqn:Hm;
      [discriminate|].
    destruct (float_gt (cpu_percent usage) (max_cpu_percent cfg)) eqn:Hc;
      [discriminate|].
    destruct (float_gt (execution_time usage)
                       (float_of_int64 (max_execution_time cfg))) eqn:Ht;
      [discriminate|].
    destruct (max_open_files cfg <? open_files usage)%Z eqn:Hf;
      [discriminate|].
    destruct (negb (network_access cfg)
              && (0 <? network_connections usage)%Z) eqn:Hn;
      [discriminate|].
    intros _. apply Z.ltb_ge in Hf.
    repeat split; try assumption; try reflexivity.
    apply andb_false_iff in Hn. destruct Hn as [Hn | Hn].
    + left. destruct (network_access cfg); [reflexivity | discriminate].
    + right. apply Z.ltb_ge, Hn.
Qed.

(** A usage that exceeds no limit leaves the manager as it is: nothing is
    recorded and no process is touched. The comparisons are strict, so a
    usage exactly at a limit is no violation. *)
Theorem usage_within_limits_is_ignored cfg session_id usage m :
  within_limits cfg usage ->
  check cfg session_id usage m = m.
Proof.
  intros H. apply within_limits_no_violation in H.
  unfold _check_resource_violations. rewrite H. reflexivity.
Qed.

Lemma find_critical_excess cfg usage :
  critical_excess cfg usage = true ->
  exists v, find is_critical (violations cfg usage) = Some v.
Proof.
  unfold critical_excess, violations_of. intros H.
  destruct (float_gt (memory_mb usage)
                     (float_of_int64 (max_memory_mb cfg))).
  { cbn [app find]. rewrite memory_message_critical. eauto. }
  cbn [app orb] in *.
  destruct (float_gt (cpu_percent usage) (max_cpu_percent cfg));
    cbn [app find];
    [destruct (is_critical (cpu_message format_1f str_float cfg usage));
       [eauto|]|];
    (destruct (float_gt (execution_time usage)
                        (float_of_int64 (max_execution_time cfg)));
     [cbn [app find]; rewrite time_message_critical; eauto|]);
    cbn [app orb] in *;
    (destruct (max_open_files cfg <? open_files usage)%Z; cbn [app find];
     [destruct (is_critical (files_message str_int cfg usage)); [eauto|]|]);
    rewrite H; cbn [find]; rewrite network_message_critical; eauto.
Qed.

Lemma violations_nonempty_of_find cfg usage v :
  find is_critical (violations cfg usage) = Some v ->
  violations cfg usage <> [].
Proof. destruct (violations cfg usage); [discriminate | discriminate]. Qed.

(** A memory, execution-time or network violation terminates the
    execution, once, however many limits are exceeded: [terminate] is
    called on the registered process, [kill] only after the wait timed out,
    and the process is forgotten when none of these calls raised. *)
Theorem critical_violation_terminates cfg session_id usage m process :
  critical_excess cfg usage = true ->
  TestFramework.dict_get session_id (active_processes m) = Some process ->
  let m' := check cfg session_id usage m in
  actions m'
  = (actions m
     ++ (session_id, Terminate)
        :: (if negb (terminate_raises process)
            then match wait_answer process with
                 | TimeoutExpired => [(session_id, Kill)]
                 | _ => []
                 end
            else []))%list
  /\ (terminate_raises process = false ->
      wait_answer process = Exited
      \/ (wait_answer process = TimeoutExpired
          /\ kill_raises process = false) ->
      active_processes m'
      = DockerExecutor.dict_del session_id (active_processes m)).
Proof.
  intros Hc Hp. cbv zeta.
  destruct (find_critical_excess cfg usage Hc) as [v Hv].
  unfold _check_resource_violations.
  pose proof (violations_nonempty_of_find cfg usage v Hv) as Hne.
  destruct (violations cfg usage) as [|v0 vs] eqn:E; [congruence|].
  rewrite Hv. unfold terminate_execution. cbn [active_processes].
  rewrite Hp.
  destruct (terminate_raises process); cbn [negb].
  - split; [reflexivity|]. discriminate.
  - destruct (wait_answer process); cbn [act actions].
    + split; [reflexivity|]. intros _ _. reflexivity.
    + destruct (kill_raises process); cbn [act forget_process actions].
      * split; [rewrite <- app_assoc; reflexivity|].
        intros _ [H | [_ H]]; discriminate.
      * split; [rewrite <- app_assoc; reflexivity|].
        intros _ _. reflexivity.
    + split; [reflexivity|]. intros _ [H | [H _]]; discriminate.
Qed.

(** Exceeding only the CPU or the open-files limit never terminates the
    execution: whatever is exceeded is recorded in the monitor of the
    session, and no process is touched or forgotten. (The formatted
    numbers hold no capital letter.) *)
Theorem only_critical_violations_terminate cfg session_id usage m :
  no_capital (format_1f (cpu_percent usage)) = true ->
  no_capital (str_float (max_cpu_percent cfg)) = true ->
  no_capital (str_int (open_files usage)) = true ->
  no_capital (str_int (max_open_files cfg)) = true ->
  critical_excess cfg usage = false ->
  let m' := check cfg session_id usage m in
  actions m' = actions m
  /\ active_processes m' = active_processes m
  /\ (violations cfg usage <> [] ->
      TestFramework.dict_get session_id (resource_monitors m')
      = Some (match TestFramework.dict_get session_id (resource_monitors m)
              with Some l => l | None => [] end
              ++ violations cfg usage)%list).
Proof.
  intros H1 H2 H3 H4 Hc. cbv zeta.
  unfold critical_excess in Hc.
  apply orb_false_iff in Hc. destruct Hc as [Hc Hn].
  apply orb_false_iff in Hc. destruct Hc as [Hm Ht].
  assert (Hfind : find is_critical (violations cfg usage) = None).
  { unfold violations_of. rewrite Hm, Ht, Hn. cbn [app].
    destruct (float_gt (cpu_percent usage) (max_cpu_percent cfg));
    cbn [app find];
      [rewrite (cpu_message_not_critical cfg usage H1 H2)|];
      (destruct (max_open_files cfg <? open_files usage)%Z; cbn [app find];
       [rewrite (files_message_not_critical cfg usage H3 H4)|]);
      reflexivity. }
  unfold _check_resource_violations.
  destruct (violations cfg usage) as [|v vs] eqn:E.
  - repeat split. intros H; now elim H.
  - rewrite Hfind. cbn [actions active_processes resource_monitors].
    repeat split. intros _. apply dict_get_set_same.
Qed.

(** The violations of a session accumulate in its monitor, check after
    check, and the monitors of the other sessions are never touched. *)
Theorem violations_accumulate cfg session_id usage m other :
  other <> session_id ->
  let m' := check cfg session_id usage m in
  TestFramework.dict_get other (resource_monitors m')
  = TestFramework.dict_get other (resource_monitors m)
  /\ match violations cfg usage with
     | [] => resource_monitors m' = resource_monitors m
     | vs =>
         TestFramework.dict_get session_id (resource_monitors m')
         = Some (match TestFramework.dict_get session_id (resource_monitors m)
                 with Some l => l | None => [] end ++ vs)%list
     end.
Proof.
  intros Hne. cbv zeta. unfold _check_resource_violations.
  destruct (violations cfg usage) as [|v vs] eqn:E.
  - split; reflexivity.
  - assert (Hterm : forall reason m1,
               resource_monitors (terminate_execution session_id reason m1)
               = resource_monitors m1).
    { intros reason m1. unfold terminate_execution.
      destruct (TestFramework.dict_get session_id (active_processes m1));
        [|reflexivity].
      destruct (terminate_raises p); [reflexivity|].
      destruct (wait_answer p); [reflexivity| |reflexivity].
      destruct (kill_raises p); reflexivity. }
    destruct (find is_critical (v :: vs)); rewrite ?Hterm;
      cbn [resource_monitors];
      (split; [apply dict_get_set_other; exact Hne
              | apply dict_get_set_same]).
Qed.

End Formatted.

Lemma usage_within_limits_is_ignored_witness :
  let at_limit :=
    {| cpu_percent := 50; memory_mb := 128; execution_time := 30;
       open_files := 64; network_connections := 0;
       disk_io_read := 0; disk_io_write := 0 |} in
  let m := {| active_processes := [("s1", steady_process)];
              resource_monitors := []; actions := [] |} in
  _check_resource_violations one_decimal decimal_int one_decimal
                             default_limits "s1" at_limit m = m.
Proof.
  cbv zeta.
  apply (usage_within_limits_is_ignored one_decimal decimal_int one_decimal).
  unfold within_limits; simpl.
  repeat split; try (vm_compute; reflexivity); lia.
Defined.

Lemma critical_violation_terminates_witness :
  let usage :=
    {| cpu_percent := 10; memory_mb := 300; execution_time := 45;
       open_files := 3; network_connections := 2;
       disk_io_read := 0; disk_io_write := 0 |} in
  let m := {| active_processes := [("s1", steady_process)];
              resource_monitors := []; actions := [] |} in
  let m' := _check_resource_violations one_decimal decimal_int one_decimal
                                       default_limits "s1" usage m in
  actions m' = [("s1", Terminate)] /\ active_processes m' = [].
Proof.
  cbv zeta.
  destruct (critical_violation_terminates one_decimal decimal_int one_decimal
              default_limits "s1"
              {| cpu_percent := 10; memory_mb := 300; execution_time := 45;
                 open_files := 3; network_connections := 2;
                 disk_io_read := 0; disk_io_write := 0 |}
              {| active_processes := [("s1", steady_process)];
                 resource_monitors := []; actions := [] |}
              steady_process) as [Ha Hp].
  - vm_compute; reflexivity.
  - reflexivity.
  - split; [exact Ha|]. apply Hp; [reflexivity | left; reflexivity].
Defined.

Lemma only_critical_violations_terminate_witness :
  let usage :=
    {| cpu_percent := 97; memory_mb := 100; execution_time := 12;
       open_files := 200; network_connections := 0;
       disk_io_read := 0; disk_io_write := 0 |} in
  let m := {| active_processes := [("s1", steady_process)];
              resource_monitors := []; actions := [] |} in
  let m' := _check_resource_violations one_decimal decimal_int one_decimal
                                       default_limits "s1" usage m in
  actions m' = [] /\ active_processes m' = [("s1", steady_process)]
  /\ TestFramework.dict_get "s1" (resource_monitors m')
     = Some ["CPU usage (97.0%) exceeds limit (50.0%)";
             "Open files (200) exceeds limit (64)"].
Proof.
  cbv zeta.
  destruct (only_critical_violations_terminate
              one_decimal decimal_int one_decimal default_limits "s1"
              {| cpu_percent := 97; memory_mb := 100; execution_time := 12;
                 open_files := 200; network_connections := 0;
                 disk_io_read := 0; disk_io_write := 0 |}
              {| active_processes := [("s1", steady_process)];
                 resource_monitors := []; actions := [] |})
    as (Ha & Hp & Hm); try (vm_compute; reflexivity).
  split; [exact Ha|]. split; [exact Hp|].
  rewrite Hm; [vm_compute; reflexivity | vm_compute; discriminate].
Defined.

Lemma violations_accumulate_witness :
  let usage :=
    {| cpu_percent := 97; memory_mb := 100; execution_time := 12;
       open_files := 3; network_connections := 0;
       disk_io_read := 0; disk_io_write := 0 |} in
  let m := {| active_processes := [];
              resource_monitors := [("s2", ["earlier"])]; actions := [] |} in
  TestFramework.dict_get "s2"
    (resource_monitors
       (_check_resource_violations one_decimal decimal_int one_decimal
                                   default_limits "s1" usage m))
  = Some ["earlier"].
Proof.
  cbv zeta.
  apply (violations_accumulate one_decimal decimal_int one_decimal
           default_limits "s1"
           {| cpu_percent := 97; memory_mb := 100; execution_time := 12;
              open_files := 3; network_connections := 0;
              disk_io_read := 0; disk_io_write := 0 |}
           {| active_processes := [];
              resource_monitors := [("s2", ["earlier"])]; actions := [] |}
           "s2").
  discriminate.
Defined.

End ResourceFacts.

(** ** The registry of running containers *)
Section RegistryFacts.
Import PyStr DockerExecutor ExecutorRegistry.

Lemma dict_get_del_same (V : Type) (k : string) (d : list (string * V)) :
  TestFramework.dict_get k (dict_del k d) = None.
Proof.
  unfold dict_del. induction d as [|[k' v] d IH]; simpl; [reflexivity|].
  destruct (String.eqb k k') eqn:E; simpl; [exact IH|].
  rewrite E. exact IH.
Qed.

Lemma dict_get_del_other (V : Type) (k k0 : string) (d : list (string * V)) :
  k0 <> k ->
  TestFramework.dict_get k0 (dict_del k d) = TestFramework.dict_get k0 d.
Proof.
  intros Hne. unfold dict_del.
  induction d as [|[k' v] d IH]; simpl; [reflexivity|].
  destruct (String.eqb_spec k k') as [<- | Hk]; simpl.
  - apply String.eqb_neq in Hne. rewrite Hne. exact IH.
  - destruct (String.eqb k0 k'); [reflexivity | exact IH].
Qed.

Lemma dict_del_absent (V : Type) (k : string) (d : list (string * V)) :
  ~ In k (map fst d) -> dict_del k d = d.
Proof.
  unfold dict_del. induction d as [|[k' v] d IH]; simpl; intros H;
    [reflexivity|].
  destruct (String.eqb_spec k k') as [-> | Hk]; simpl.
  - elim H. left. reflexivity.
  - f_equal. apply IH. intros Hin. apply H. right. exact Hin.
Qed.

Lemma dict_get_absent (V : Type) (k : string) (d : list (string * V)) :
  ~ In k (map fst d) -> TestFramework.dict_get k d = None.
Proof.
  induction d as [|[k' v] d IH]; simpl; intros H; [reflexivity|].
  destruct (String.eqb_spec k k') as [-> | Hk].
  - elim H. left. reflexivity.
  - apply IH. intros Hin. apply H. right. exact Hin.
Qed.

Lemma dict_get_app_absent (V : Type) (k : string) (d1 d2 : list (string * V)) :
  ~ In k (map fst d1) ->
  TestFramework.dict_get k (d1 ++ d2)%list = TestFramework.dict_get k d2.
Proof.
  induction d1 as [|[k' v] d1 IH]; simpl; intros H; [reflexivity|].
  destruct (String.eqb_spec k k') as [-> | Hk].
  - elim H. left. reflexivity.
  - apply IH. intros Hin. apply H. right. exact Hin.
Qed.

Lemma dict_del_app (V : Type) (k : string) (d1 d2 : list (string * V)) :
  dict_del k (d1 ++ d2)%list = (dict_del k d1 ++ dict_del k d2)%list.
Proof. unfold dict_del. apply filter_app. Qed.

Section Stopped.

Variable stop_raises : Container -> bool.

Lemma cleanup_all_loop (done todo : list (string * Container)) :
  NoDup (map fst (done ++ todo)%list) ->
  fold_left (fun d session_id => snd (stop_execution stop_raises session_id d))
            (map fst todo) (done ++ todo)%list
  = (done ++ filter (fun kv => stop_raises (snd kv)) todo)%list.
Proof.
  revert done. induction todo as [|[k c] todo IH]; intros done Hnd.
  - reflexivity.
  - assert (Hk1 : ~ In k (map fst done)).
    { rewrite map_app in Hnd. simpl in Hnd.
      apply NoDup_remove_2 in Hnd. intros H. apply Hnd.
      apply in_or_app. left. exact H. }
    assert (Hk2 : ~ In k (map fst todo)).
    { rewrite map_app in Hnd. simpl in Hnd.
      apply NoDup_remove_2 in Hnd. intros H. apply Hnd.
      apply in_or_app. right. exact H. }
    cbn [map fst fold_left filter snd].
    unfold stop_execution at 2.
    rewrite dict_get_app_absent by exact Hk1.
    cbn [TestFramework.dict_get]. rewrite String.eqb_refl.
    destruct (stop_raises c) eqn:E; cbn [snd].
    + change (done ++ (k, c) :: todo)%list
        with (done ++ [(k, c)] ++ todo)%list.
      rewrite app_assoc. rewrite IH.
      * rewrite <- app_assoc. reflexivity.
      * rewrite <- app_assoc. exact Hnd.
    + rewrite dict_del_app. cbn [dict_del filter fst].
      rewrite String.eqb_refl. cbn [negb].
      rewrite (dict_del_absent _ k done Hk1).
      change (filter (fun kv : string * Container =>
                        negb (String.eqb k (fst kv))) todo)
        with (dict_del k todo).
      rewrite (dict_del_absent _ k todo Hk2).
      apply IH.
      rewrite map_app in *. simpl in Hnd.
      apply NoDup_remove_1 in Hnd. exact Hnd.
Qed.

(** [cleanup_all] unregisters exactly the containers it could stop and
    remove: a container whose stop or removal raises stays registered, in
    its place, and is reported by [get_active_executions] afterwards. *)
Theorem cleanup_all_keeps_failures (registry : list (string * Container)) :
  NoDup (map fst registry) ->
  cleanup_all stop_raises registry
  = filter (fun kv => stop_raises (snd kv)) registry.
Proof.
  intros H. unfold cleanup_all, get_active_executions.
  apply (cleanup_all_loop [] registry H).
Qed.

(** [stop_execution] answers [True] exactly for a registered session whose
    container could be stopped and removed, and only then changes the
    registry: that session is unregistered and no other. After a failed
    stop the container is still registered. *)
Theorem stop_execution_outcome session_id registry :
  let (stopped, registry') := stop_execution stop_raises session_id registry in
  (stopped = true
   <-> exists c, TestFramework.dict_get session_id registry = Some c
                 /\ stop_raises c = false)
  /\ (stopped = true ->
      TestFramework.dict_get session_id registry' = None
      /\ forall other, other <> session_id ->
           TestFramework.dict_get other registry'
           = TestFramework.dict_get other registry)
  /\ (stopped = false -> registry' = registry).
Proof.
  unfold stop_execution.
  destruct (TestFramework.dict_get session_id registry) as [c|] eqn:E.
  - destruct (stop_raises c) eqn:Es.
    + split; [|split]; try discriminate; try reflexivity.
      split; [discriminate|]. intros (c' & Hc & Hs). congruence.
    + split; [|split]; try discriminate.
      * split; [|reflexivity]. intros _. exists c. split; [reflexivity|exact Es].
      * intros _. split; [apply dict_get_del_same|].
        intros other Hne. apply dict_get_del_other, Hne.
  - split; [|split]; try discriminate; try reflexivity.
    split; [discriminate|]. intros (c' & Hc & _). discriminate.
Qed.

End Stopped.

Lemma cleanup_all_keeps_failures_witness :
  cleanup_all stuck_only
              [ ("s1", container_named "algo-exec-s1");
                ("s2", container_named "stuck");
                ("s3", container_named "algo-exec-s3") ]
  = [ ("s2", container_named "stuck") ].
Proof.
  apply (cleanup_all_keeps_failures stuck_only
           [ ("s1", container_named "algo-exec-s1");
             ("s2", container_named "stuck");
             ("s3", container_named "algo-exec-s3") ]).
  repeat constructor; simpl; intuition discriminate.
Defined.



End RegistryFacts.

(** ** Malformed output of the container *)
Section PayloadFacts.
Import PyStr DockerExecutor ExecutorRegistry.



End PayloadFacts.


(** ** The function the wrapper calls *)
Section FunctionNameFacts.
Import PyStr DockerExecutor ExecutorRegistry SecurityFindings.


















End FunctionNameFacts.


(** ** Test suites and their results *)
Section SuiteFacts.
Import PyStr PerformanceAnalytics TestFramework TestSuites.

(** In every result of [run_test_suite] the passed and the failed tests add
    up to the total, and the passed tests are the passed entries of the
    test results -- none where the run itself failed. *)
Theorem counts_add_up suites w algorithm code custom r :
  run_test_suite suites w algorithm code custom = inr r ->
  (passed_tests r + failed_tests r = total_tests r)%Z
  /\ passed_tests r = Z.of_nat (length (filter passed (test_results r))).
Proof.
  unfold run_test_suite.
  destruct (suite_of_call suites algorithm custom) as [suite|];
    [|discriminate].
  destruct (generate_answer w) as [e|].
  { intros H; injection H as <-. simpl. split; [lia | reflexivity]. }
  destruct (containers_run_answer w) as [e | container].
  { intros H; injection H as <-. simpl. split; [lia | reflexivity]. }
  unfold _execute_tests.
  destruct (wait_answer container) as [e | status].
  { intros H; injection H as <-. simpl. split; [lia | reflexivity]. }
  destruct (_parse_test_results container) as [[results bench] coverage].
  intros H; injection H as <-. simpl. split; [lia | reflexivity].
Qed.

Lemma counts_add_up_witness :
  exists r,
    run_test_suite loaded_test_suites world_tests_run "two_sum"
                   "def two_sum(nums, target): return []" None = inr r
    /\ (passed_tests r + failed_tests r = total_tests r)%Z
    /\ passed_tests r = 1%Z.
Proof.
  eexists. split; [vm_compute; reflexivity|].
  destruct (counts_add_up loaded_test_suites world_tests_run "two_sum"
              "def two_sum(nums, target): return []" None _ eq_refl)
    as [H1 H2].
  split; [exact H1 | exact H2].
Defined.

(** [run_test_suite] raises its [ValueError] exactly when the algorithm has
    no registered suite and no custom test case is given -- [None] and the
    empty list alike; in every other case it returns a result. *)
Theorem value_error_exactly suites w algorithm code custom :
  (forall message,
     run_test_suite suites w algorithm code custom = inl message
     <-> dict_get algorithm suites = None
         /\ no_custom_cases custom = true
         /\ message = "No test suite found for algorithm: " ++ algorithm)
  /\ ((exists r, run_test_suite suites w algorithm code custom = inr r)
      <-> ~ (dict_get algorithm suites = None
             /\ no_custom_cases custom = true)).
Proof.
  unfold run_test_suite, suite_of_call.
  destruct (no_custom_cases custom) eqn:Hc.
  - destruct (dict_get algorithm suites) as [suite|] eqn:Hs.
    + split.
      * intros message. split.
        -- destruct (generate_answer w); [discriminate|].
           destruct (containers_run_answer w); [discriminate|].
           destruct (_execute_tests t suite); discriminate.
        -- intros (H & _). discriminate.
      * split; [intros _ (H & _); discriminate|]. intros _.
        destruct (generate_answer w); [eauto|].
        destruct (containers_run_answer w); [eauto|].
        destruct (_execute_tests t suite); eauto.
    + split.
      * intros message. split.
        -- intros H; injection H as <-. repeat split.
        -- intros (_ & _ & ->). reflexivity.
      * split; [intros [r H]; discriminate|].
        intros H. elim H. split; reflexivity.
  - split.
    + intros message. split.
      * destruct (generate_answer w); [discriminate|].
        destruct (containers_run_answer w); [discriminate|].
        match goal with
        | |- context [_execute_tests ?c ?s] =>
            destruct (_execute_tests c s); discriminate
        end.
      * intros (_ & H & _). discriminate.
    + split; [intros _ (_ & H); discriminate|]. intros _.
      destruct (generate_answer w); [eauto|].
      destruct (containers_run_answer w); [eauto|].
      match goal with
      | |- context [_execute_tests ?c ?s] =>
          destruct (_execute_tests c s); eauto
      end.
Qed.

Lemma keys_dict_set (V : Type) (k : string) (v : V) d :
  map fst (DockerExecutor.dict_set k v d)
  = if mem k (map fst d) then map fst d else (map fst d ++ [k])%list.
Proof.
  unfold mem. induction d as [|[k' v'] d IH]; simpl; [reflexivity|].
  destruct (String.eqb k k') eqn:E; simpl.
  - apply String.eqb_eq in E. subst k'. reflexivity.
  - rewrite IH. destruct (existsb (String.eqb k) (map fst d)); reflexivity.
Qed.

(** A suite added with [add_custom_test_suite] is the one that
    [run_test_suite] then runs for its algorithm, whatever was registered
    under that name before; the other registrations are untouched, and the
    list of available suites gains the name at its end unless it was
    already there. *)
Theorem added_suite_is_run suite suites w code :
  let algorithm := suite_algorithm_name suite in
  let suites' := add_custom_test_suite suite suites in
  (forall other, other <> algorithm ->
     dict_get other suites' = dict_get other suites)
  /\ get_available_test_suites suites'
     = (if mem algorithm (get_available_test_suites suites)
        then get_available_test_suites suites
        else get_available_test_suites suites ++ [algorithm])%list
  /\ exists r,
       run_test_suite suites' w algorithm code None = inr r
       /\ suite_name r = suite_name_of suite
       /\ (tests_ran w = true -> total_tests r = declared_total suite).
Proof.
  cbv zeta. unfold add_custom_test_suite, get_available_test_suites.
  split; [|split].
  - intros other Hne. apply dict_get_set_other. exact Hne.
  - apply keys_dict_set.
  - unfold run_test_suite, suite_of_call, tests_ran. cbn [no_custom_cases].
    rewrite dict_get_set_same.
    destruct (generate_answer w); [eexists; repeat split; discriminate|].
    destruct (containers_run_answer w) as [e | container];
      [eexists; repeat split; discriminate|].
    unfold _execute_tests.
    destruct (wait_answer container);
      [eexists; repeat split; discriminate|].
    destruct (_parse_test_results container) as [[results bench] coverage].
    eexists. repeat split.
Qed.

Lemma fallback_passed_count log_text n :
  length (filter passed (_parse_logs_fallback log_text n))
  = length (filter passed_line (split_on LF log_text)).
Proof.
  unfold _parse_logs_fallback, passed_line.
  induction (split_on LF log_text) as [|line lines IH]; [reflexivity|].
  cbn [flat_map filter]. rewrite filter_app, length_app, IH.
  destruct (contains "::" line), (contains "PASSED" line),
    (contains "FAILED" line); reflexivity.
Qed.

Lemma fallback_results container :
  fallback_used container = true ->
  exists n,
    fst (fst (_parse_test_results container))
    = _parse_logs_fallback (logs container) n.
Proof.
  unfold fallback_used, _parse_test_results, report_raises.
  destruct (test_report container) as [|ts|partial];
    destruct (benchmark_report container) as [|bs|bpartial];
    destruct (coverage_report container) as [|cov|cpartial];
    cbn; intros H; try discriminate; eexists; reflexivity.
Qed.

(** When a report file cannot be read, the results come from the log
    alone: the passed tests of the suite result are the lines of the log
    that contain '::' and 'PASSED', and what was decoded before the failure
    is not counted. *)
Theorem fallback_counts_passed_lines container suite r :
  fallback_used container = true ->
  _execute_tests container suite = inr r ->
  passed_tests r
  = Z.of_nat (length (filter passed_line (split_on LF (logs container)))).
Proof.
  intros Hf. destruct (fallback_results container Hf) as [n Hn].
  unfold _execute_tests.
  destruct (wait_answer container) as [e | status]; [discriminate|].
  destruct (_parse_test_results container) as [[results bench] coverage].
  cbn in Hn. subst results.
  intros H; injection H as <-. cbn [passed_tests].
  rewrite fallback_passed_count. reflexivity.
Qed.

Lemma fallback_counts_passed_lines_witness :
  let container :=
    {| wait_answer := inr 1%Z;
       logs := "test_two_sum.py::TestTwo_Sum::test_basic_case PASSED"
                 ++ String LF
                      "test_two_sum.py::TestTwo_Sum::test_no_solution FAILED";
       test_report :=
         Decoded [ {| nodeid := "test_basic_case"; outcome_text := "passed";
                      duration := None; call_longrepr := None;
                      call_stdout := None |};
                   {| nodeid := "test_no_solution"; outcome_text := "passed";
                      duration := None; call_longrepr := None;
                      call_stdout := None |} ];
       benchmark_report := CatFailed;
       coverage_report := ReportRaises None |} in
  exists r,
    _execute_tests container two_sum_suite = inr r
    /\ passed_tests r = 1%Z.
Proof.
  intros container. eexists. split; [vm_compute; reflexivity|].
  etransitivity;
    [apply (fallback_counts_passed_lines container two_sum_suite);
     vm_compute; reflexivity|].
  vm_compute. reflexivity.
Defined.

End SuiteFacts.

(** ** The data of the benchmarks *)
Section GatewayFacts.
Import Gateway.

Lemma nth_error_py_range n i :
  nth_error (py_range n) i
  = if (i <? Z.to_nat n)%nat then Some (Z.of_nat i) else None.
Proof.
  unfold py_range. destruct (Nat.ltb_spec i (Z.to_nat n)) as [Hlt | Hge].
  - rewrite (nth_error_nth' _ 0%Z) by (rewrite length_map, length_seq; lia).
    f_equal. rewrite (map_nth Z.of_nat _ 0%nat), seq_nth by lia. reflexivity.
  - apply nth_error_None. rewrite length_map, length_seq. lia.
Qed.

Lemma py_range_entry n i a :
  nth_error (py_range n) i = Some a <->
  (i < Z.to_nat n)%nat /\ a = Z.of_nat i.
Proof.
  rewrite nth_error_py_range.
  destruct (Nat.ltb_spec i (Z.to_nat n)); split.
  - intros E; injection E as <-. split; [assumption | reflexivity].
  - intros [_ ->]. reflexivity.
  - discriminate.
  - intros [Hlt _]. lia.
Qed.

Lemma in_py_range n a : In a (py_range n) <-> (0 <= a < n)%Z.
Proof.
  split.
  - intros Hin. apply In_nth_error in Hin. destruct Hin as [i Hi].
    apply py_range_entry in Hi. lia.
  - intros Ha. apply (nth_error_In _ (Z.to_nat a)).
    apply py_range_entry. lia.
Qed.

(** The two-sum instance generated for a benchmark of the given size
    -- the numbers 0 to size-1 with target size + size // 2 -- has a
    solution (two different positions whose numbers add up to the target)
    exactly when the size is at least 5; so every size that the benchmark
    runs gives a solvable instance. *)
Theorem two_sum_data_solvable size :
  exists nums target,
    _generate_test_data "two_sum" size = TwoSumData nums target
    /\ (has_pair nums target <-> (5 <= size)%Z)
    /\ (In size input_sizes -> has_pair nums target).
Proof.
  exists (py_range size), (size + size / 2)%Z.
  split; [reflexivity|].
  assert (Hiff : has_pair (py_range size) (size + size / 2) <-> (5 <= size)%Z).
  { unfold has_pair. split.
    - intros (i & j & a & b & Hij & Hi & Hj & Hsum).
      apply py_range_entry in Hi, Hj.
      destruct Hi as [Hi ->], Hj as [Hj ->].
      pose proof (Z.div_mod size 2 ltac:(lia)) as Hd.
      pose proof (Z.mod_pos_bound size 2 ltac:(lia)) as Hm.
      lia.
    - intros Hsize.
      pose proof (Z.div_mod size 2 ltac:(lia)) as Hd.
      pose proof (Z.mod_pos_bound size 2 ltac:(lia)) as Hm.
      exists (Z.to_nat (size / 2 + 1)), (Z.to_nat (size - 1)),
             (size / 2 + 1)%Z, (size - 1)%Z.
      split; [lia|]. split; [apply py_range_entry; lia|].
      split; [apply py_range_entry; lia|]. lia. }
  split; [exact Hiff|].
  intros Hin. apply Hiff. simpl in Hin.
  repeat (destruct Hin as [<- | Hin]; [lia|]). destruct Hin.
Qed.

(** The binary-search instance is a strictly increasing array, and its
    target size // 2 is an element of the array exactly when the size is at
    least 1. *)
Theorem binary_search_data_sorted size :
  exists arr target,
    _generate_test_data "binary_search" size = BinarySearchData arr target
    /\ (forall i j a b, (i < j)%nat -> nth_error arr i = Some a ->
                        nth_error arr j = Some b -> (a < b)%Z)
    /\ (In target arr <-> (1 <= size)%Z).
Proof.
  exists (py_range size), (size / 2)%Z.
  split; [reflexivity|]. split.
  - intros i j a b Hij Hi Hj. apply py_range_entry in Hi, Hj. lia.
  - rewrite in_py_range.
    pose proof (Z.div_mod size 2 ltac:(lia)) as Hd.
    pose proof (Z.mod_pos_bound size 2 ltac:(lia)) as Hm.
    lia.
Qed.

(** The container-water instance has one height for each of the size
    positions (none for a size below 1), every height lies between 1 and
    100, and the height at position i is i % 100 + 1. *)
Theorem container_water_heights size :
  exists height,
    _generate_test_data "container_water" size = ContainerWaterData height
    /\ length height = Z.to_nat size
    /\ (forall h, In h height -> (1 <= h <= 100)%Z)
    /\ (forall i, (i < Z.to_nat size)%nat ->
          nth_error height i = Some (Z.of_nat i mod 100 + 1)%Z).
Proof.
  eexists. split; [reflexivity|]. split; [|split].
  - unfold py_range. rewrite !length_map, length_seq. reflexivity.
  - intros h Hin. apply in_map_iff in Hin. destruct Hin as (i & <- & _).
    pose proof (Z.mod_pos_bound i 100 ltac:(lia)). lia.
  - intros i Hi. rewrite nth_error_map, nth_error_py_range.
    apply Nat.ltb_lt in Hi. rewrite Hi. reflexivity.
Qed.

End GatewayFacts.
